(** * Shallow embedding of [runner/driver/docker-driver/docker-info.c]

    The file resolves one [struct docker_info] from a JSON configuration:
    [docker_info_init] reads the global settings, [__docker_info_init] reads
    the [task_option] entry on top of them, checks the trace data and enters
    the c-group name into the process-wide [hsearch] table.

    What the C file takes from elsewhere is kept abstract:
    - the json-c library, as the interface [JsonC];
    - [driver/docker-driver.h] (buffer sizes, the scheduler table and
      [generic_strip_string]), as the interface [DriverHeader];
    - the operating system (what [lstat], [getpid] and [malloc] answer) and
      the size of the table the caller made with [hcreate], as the record
      [env].

    C strings are modelled by the [string] of their characters before the
    terminating NUL. *)

From Stdlib Require Import ZArith String Ascii List Lia.
From stdpp Require Import gmap strings.

Local Open Scope string_scope.
Local Open Scope list_scope.
Local Open Scope Z_scope.

(** ** Constants of the C library *)

Definition EINVAL : Z := 22.

(** Conversion of an [int] to [unsigned int] on assignment. *)
Definition to_uint (z : Z) : Z := z mod 2 ^ 32.

(** Truth of an [int] used as a condition. *)
Definition c_true (z : Z) : bool := negb (z =? 0).

(** Addresses of heap blocks. *)
Definition loc := positive.

(** ** The json-c interface

    [json_object_object_get_ex o key] is [Some v] when the C function returns
    true and stores [v]; [json_object_array_get_idx a i] is [None] when the C
    function returns NULL. *)

Class JsonC := {
  json_object : Type;
  json_object_object_get_ex : json_object -> string -> option json_object;
  json_object_array_get_idx : json_object -> Z -> option json_object;
  json_object_get_int : json_object -> Z;
  json_object_get_string : json_object -> string;
}.

(** ** [struct docker_info] *)

Record docker_info := {
  ppid : Z;
  time : Z;
  q_depth : Z;
  nr_thread : Z;
  weight : Z;
  trace_repeat : Z;
  wss : Z;
  utilization : Z;
  iosize : Z;
  mqid : Z;
  semid : Z;
  shmid : Z;
  prefix_cgroup_name : string;
  scheduler : string;
  trace_replay_path : string;
  device : string;
  trace_data_path : string;
  cgroup_id : string;
  next : option loc;
}.

(** The block after [memset (info, 0, sizeof (struct docker_info))]. *)
Definition zeroed : docker_info :=
  Build_docker_info 0 0 0 0 0 0 0 0 0 0 0 0 "" "" "" "" "" "" None.

Definition set_ppid (v : Z) (d : docker_info) : docker_info :=
  Build_docker_info v (time d) (q_depth d) (nr_thread d) (weight d)
    (trace_repeat d) (wss d) (utilization d) (iosize d) (mqid d) (semid d)
    (shmid d) (prefix_cgroup_name d) (scheduler d) (trace_replay_path d)
    (device d) (trace_data_path d) (cgroup_id d) (next d).

Definition set_time (v : Z) (d : docker_info) : docker_info :=
  Build_docker_info (ppid d) v (q_depth d) (nr_thread d) (weight d)
    (trace_repeat d) (wss d) (utilization d) (iosize d) (mqid d) (semid d)
    (shmid d) (prefix_cgroup_name d) (scheduler d) (trace_replay_path d)
    (device d) (trace_data_path d) (cgroup_id d) (next d).

Definition set_q_depth (v : Z) (d : docker_info) : docker_info :=
  Build_docker_info (ppid d) (time d) v (nr_thread d) (weight d)
    (trace_repeat d) (wss d) (utilization d) (iosize d) (mqid d) (semid d)
    (shmid d) (prefix_cgroup_name d) (scheduler d) (trace_replay_path d)
    (device d) (trace_data_path d) (cgroup_id d) (next d).

Definition set_nr_thread (v : Z) (d : docker_info) : docker_info :=
  Build_docker_info (ppid d) (time d) (q_depth d) v (weight d)
    (trace_repeat d) (wss d) (utilization d) (iosize d) (mqid d) (semid d)
    (shmid d) (prefix_cgroup_name d) (scheduler d) (trace_replay_path d)
    (device d) (trace_data_path d) (cgroup_id d) (next d).

Definition set_weight (v : Z) (d : docker_info) : docker_info :=
  Build_docker_info (ppid d) (time d) (q_depth d) (nr_thread d) v
    (trace_repeat d) (wss d) (utilization d) (iosize d) (mqid d) (semid d)
    (shmid d) (prefix_cgroup_name d) (scheduler d) (trace_replay_path d)
    (device d) (trace_data_path d) (cgroup_id d) (next d).

Definition set_trace_repeat (v : Z) (d : docker_info) : docker_info :=
  Build_docker_info (ppid d) (time d) (q_depth d) (nr_thread d) (weight d) v
    (wss d) (utilization d) (iosize d) (mqid d) (semid d) (shmid d)
    (prefix_cgroup_name d) (scheduler d) (trace_replay_path d) (device d)
    (trace_data_path d) (cgroup_id d) (next d).

Definition set_wss (v : Z) (d : docker_info) : docker_info :=
  Build_docker_info (ppid d) (time d) (q_depth d) (nr_thread d) (weight d)
    (trace_repeat d) v (utilization d) (iosize d) (mqid d) (semid d)
    (shmid d) (prefix_cgroup_name d) (scheduler d) (trace_replay_path d)
    (device d) (trace_data_path d) (cgroup_id d) (next d).

Definition set_utilization (v : Z) (d : docker_info) : docker_info :=
  Build_docker_info (ppid d) (time d) (q_depth d) (nr_thread d) (weight d)
    (trace_repeat d) (wss d) v (iosize d) (mqid d) (semid d) (shmid d)
    (prefix_cgroup_name d) (scheduler d) (trace_replay_path d) (device d)
    (trace_data_path d) (cgroup_id d) (next d).

Definition set_iosize (v : Z) (d : docker_info) : docker_info :=
  Build_docker_info (ppid d) (time d) (q_depth d) (nr_thread d) (weight d)
    (trace_repeat d) (wss d) (utilization d) v (mqid d) (semid d) (shmid d)
    (prefix_cgroup_name d) (scheduler d) (trace_replay_path d) (device d)
    (trace_data_path d) (cgroup_id d) (next d).

Definition set_mqid (v : Z) (d : docker_info) : docker_info :=
  Build_docker_info (ppid d) (time d) (q_depth d) (nr_thread d) (weight d)
    (trace_repeat d) (wss d) (utilization d) (iosize d) v (semid d)
    (shmid d) (prefix_cgroup_name d) (scheduler d) (trace_replay_path d)
    (device d) (trace_data_path d) (cgroup_id d) (next d).

Definition set_semid (v : Z) (d : docker_info) : docker_info :=
  Build_docker_info (ppid d) (time d) (q_depth d) (nr_thread d) (weight d)
    (trace_repeat d) (wss d) (utilization d) (iosize d) (mqid d) v (shmid d)
    (prefix_cgroup_name d) (scheduler d) (trace_replay_path d) (device d)
    (trace_data_path d) (cgroup_id d) (next d).

Definition set_shmid (v : Z) (d : docker_info) : docker_info :=
  Build_docker_info (ppid d) (time d) (q_depth d) (nr_thread d) (weight d)
    (trace_repeat d) (wss d) (utilization d) (iosize d) (mqid d) (semid d) v
    (prefix_cgroup_name d) (scheduler d) (trace_replay_path d) (device d)
    (trace_data_path d) (cgroup_id d) (next d).

Definition set_prefix_cgroup_name (v : string) (d : docker_info) : docker_info :=
  Build_docker_info (ppid d) (time d) (q_depth d) (nr_thread d) (weight d)
    (trace_repeat d) (wss d) (utilization d) (iosize d) (mqid d) (semid d)
    (shmid d) v (scheduler d) (trace_replay_path d) (device d)
    (trace_data_path d) (cgroup_id d) (next d).

Definition set_scheduler (v : string) (d : docker_info) : docker_info :=
  Build_docker_info (ppid d) (time d) (q_depth d) (nr_thread d) (weight d)
    (trace_repeat d) (wss d) (utilization d) (iosize d) (mqid d) (semid d)
    (shmid d) (prefix_cgroup_name d) v (trace_replay_path d) (device d)
    (trace_data_path d) (cgroup_id d) (next d).

Definition set_trace_replay_path (v : string) (d : docker_info) : docker_info :=
  Build_docker_info (ppid d) (time d) (q_depth d) (nr_thread d) (weight d)
    (trace_repeat d) (wss d) (utilization d) (iosize d) (mqid d) (semid d)
    (shmid d) (prefix_cgroup_name d) (scheduler d) v (device d)
    (trace_data_path d) (cgroup_id d) (next d).

Definition set_device (v : string) (d : docker_info) : docker_info :=
  Build_docker_info (ppid d) (time d) (q_depth d) (nr_thread d) (weight d)
    (trace_repeat d) (wss d) (utilization d) (iosize d) (mqid d) (semid d)
    (shmid d) (prefix_cgroup_name d) (scheduler d) (trace_replay_path d) v
    (trace_data_path d) (cgroup_id d) (next d).

Definition set_trace_data_path (v : string) (d : docker_info) : docker_info :=
  Build_docker_info (ppid d) (time d) (q_depth d) (nr_thread d) (weight d)
    (trace_repeat d) (wss d) (utilization d) (iosize d) (mqid d) (semid d)
    (shmid d) (prefix_cgroup_name d) (scheduler d) (trace_replay_path d)
    (device d) v (cgroup_id d) (next d).

Definition set_cgroup_id (v : string) (d : docker_info) : docker_info :=
  Build_docker_info (ppid d) (time d) (q_depth d) (nr_thread d) (weight d)
    (trace_repeat d) (wss d) (utilization d) (iosize d) (mqid d) (semid d)
    (shmid d) (prefix_cgroup_name d) (scheduler d) (trace_replay_path d)
    (device d) (trace_data_path d) v (next d).

Definition set_next (v : option loc) (d : docker_info) : docker_info :=
  Build_docker_info (ppid d) (time d) (q_depth d) (nr_thread d) (weight d)
    (trace_repeat d) (wss d) (utilization d) (iosize d) (mqid d) (semid d)
    (shmid d) (prefix_cgroup_name d) (scheduler d) (trace_replay_path d)
    (device d) (trace_data_path d) (cgroup_id d) v.

(** The integer members whose address is passed as [unsigned int *member],
    and the character arrays passed as [char *member]. *)
Inductive uint_member :=
  | m_time | m_q_depth | m_nr_thread | m_weight | m_trace_repeat
  | m_wss | m_utilization | m_iosize.

Inductive str_member :=
  | m_prefix_cgroup_name | m_scheduler | m_trace_replay_path
  | m_device | m_trace_data_path | m_cgroup_id.

Definition store_uint (m : uint_member) (v : Z) : docker_info -> docker_info :=
  match m with
  | m_time => set_time v
  | m_q_depth => set_q_depth v
  | m_nr_thread => set_nr_thread v
  | m_weight => set_weight v
  | m_trace_repeat => set_trace_repeat v
  | m_wss => set_wss v
  | m_utilization => set_utilization v
  | m_iosize => set_iosize v
  end.

Definition load_str (m : str_member) : docker_info -> string :=
  match m with
  | m_prefix_cgroup_name => prefix_cgroup_name
  | m_scheduler => scheduler
  | m_trace_replay_path => trace_replay_path
  | m_device => device
  | m_trace_data_path => trace_data_path
  | m_cgroup_id => cgroup_id
  end.

Definition store_str (m : str_member) (v : string) : docker_info -> docker_info :=
  match m with
  | m_prefix_cgroup_name => set_prefix_cgroup_name v
  | m_scheduler => set_scheduler v
  | m_trace_replay_path => set_trace_replay_path v
  | m_device => set_device v
  | m_trace_data_path => set_trace_data_path v
  | m_cgroup_id => set_cgroup_id v
  end.

(** ** [driver/docker-driver.h]

    What the driver takes from its header: the sizes of the character
    arrays of [struct docker_info], the test of a scheduler name against the
    table of schedulers, the schedulers that take a weight, and the string
    helper. An array of C has at least one element. *)

Class DriverHeader := {
  sizeof_member : str_member -> nat;
  docker_valid_scheduler_test : string -> Z;
  docker_has_weight_scheduler : Z -> Z;
  generic_strip_string : string -> ascii -> string;
  sizeof_member_pos : forall m, sizeof_member m <> O;
}.

(** The two values of the [is_print] flag and the two answers of
    [docker_is_synth_type]. *)
Inductive print_flag := DOCKER_PRINT_NONE | DOCKER_ERROR_PRINT.
Inductive synth_kind := DOCKER_SYNTH | DOCKER_NOT_SYNTH.

Definition is_error_print (f : print_flag) : bool :=
  match f with DOCKER_ERROR_PRINT => true | DOCKER_PRINT_NONE => false end.

(** ** The operating system *)

Record env := {
  path_exists : string -> bool;   (* lstat succeeds on the path *)
  getpid : Z;
  malloc_info_ok : bool;          (* malloc (sizeof (struct docker_info)) *)
  malloc_buffer_ok : bool;        (* malloc (sizeof (info->trace_replay_path)) *)
  table_size : nat;               (* the entries the table made by hcreate holds *)
}.

Definition lstat (e : env) (path : string) : Z :=
  if path_exists e path then 0 else -1.

(** ** What the process does that can be seen from outside *)

Inductive level := ERROR | WARNING | INFO.

Inductive message :=
  | msg_not_exist (key : string)
  | msg_out_of_bound (index : Z)
  | msg_unsupported_scheduler (name : string)
  | msg_trace_data_not_exist (path : string)
  | msg_trace_data_exist (path : string)
  | msg_duplicate_cgroup (name : string)
  | msg_alloc_fail (name : string)
  | msg_error_detected (errno : Z)
  | msg_redirect (from to : string)
  | msg_cannot_find (path : string).

(** A call of [pr_info] or of [lstat]. Traces list the newest event first. *)
Inductive event :=
  | ev_pr_info (l : level) (m : message)
  | ev_lstat (path : string).

(** ** Control flow inside one C function

    A statement works on the block [*info] and on the trace. It either falls
    through to the next statement or jumps to the [exception] label. *)

Record frame := mk_frame { fr_info : docker_info; fr_trace : list event }.

Inductive flow (A : Type) :=
  | Next (a : A)           (* go on with the next statement *)
  | Exception (ret : Z).   (* [goto exception], with the value [ret] has *)

Arguments Next {A} a.
Arguments Exception {A} ret.

Definition M (A : Type) : Type := frame -> flow A * frame.

Definition mret {A} (a : A) : M A := fun fr => (Next a, fr).

Definition mbind {A B} (m : M A) (k : A -> M B) : M B :=
  fun fr =>
    match m fr with
    | (Next a, fr') => k a fr'
    | (Exception ret, fr') => (Exception ret, fr')
    end.

Declare Scope cflow_scope.
Delimit Scope cflow_scope with cflow.
Notation "x <- m ;; k" := (mbind m (fun x => k))
  (at level 100, m at next level, right associativity) : cflow_scope.
Notation "m ;; k" := (mbind m (fun _ => k))
  (at level 100, right associativity) : cflow_scope.
Local Open Scope cflow_scope.

Definition goto_exception {A} (ret : Z) : M A := fun fr => (Exception ret, fr).

Definition pr_info (l : level) (m : message) : M unit :=
  fun fr => (Next tt, mk_frame (fr_info fr) (ev_pr_info l m :: fr_trace fr)).

(** [info->member], read and written. *)
Definition read {A} (member : docker_info -> A) : M A :=
  fun fr => (Next (member (fr_info fr)), fr).

Definition write (upd : docker_info -> docker_info) : M unit :=
  fun fr => (Next tt, mk_frame (upd (fr_info fr)) (fr_trace fr)).

(** [lstat (path, &lstat_info)]: the call is recorded in the trace. *)
Definition call_lstat (e : env) (path : string) : M Z :=
  fun fr => (Next (lstat e path), mk_frame (fr_info fr) (ev_lstat path :: fr_trace fr)).

(** ** Strings in fixed buffers *)

Fixpoint str_take (n : nat) (s : string) : string :=
  match n, s with
  | S n', String c s' => String c (str_take n' s')
  | _, _ => EmptyString
  end.

(** [snprintf (member, size, "%s", src)]: at most [size - 1] characters are
    copied; with [size = 0] nothing is written. *)
Definition snprintf_s (size : nat) (src old : string) : string :=
  match size with
  | O => old
  | S n => str_take n src
  end.

(** The character given to [generic_strip_string]. *)
Definition dquote : ascii := ascii_of_nat 34.

(** The directory tried when [trace_replay_path] is not found as given. *)
Definition usr_bin : string := "/usr/bin/".

(** ** The synthetic trace names *)

Definition global_synth_type : list string :=
  [ "rand_read"; "rand_write"; "rand_mixed"; "seq_read"; "seq_write"; "seq_mixed" ].

(** The loop of [docker_is_synth_type] from entry [i] of the table on;
    [strcmp] answers 0 on equal strings. *)
Fixpoint synth_scan (tbl : list string) (trace_data_path : string) : synth_kind :=
  match tbl with
  | [] => DOCKER_NOT_SYNTH
  | t :: tbl' =>
      if String.eqb trace_data_path t then DOCKER_SYNTH
      else synth_scan tbl' trace_data_path
  end.

Definition docker_is_synth_type (trace_data_path : string) : synth_kind :=
  synth_scan global_synth_type trace_data_path.

(** ** The [hsearch] table

    An [ENTRY] is a key with its data. The table is the one the caller made
    with [hcreate]: it holds [nel] entries and does not grow. [FIND] answers
    the entry with the key of [item] or NULL; [ENTER] answers the entry that
    is there, or adds [item] and answers it, or answers NULL when the key is
    new and the table is full. *)

Inductive ACTION := FIND | ENTER.

Definition ENTRY : Type := string * loc.

Definition hsearch (nel : nat) (item : ENTRY) (action : ACTION)
    (tab : gmap string loc) : option ENTRY * gmap string loc :=
  match tab !! item.1 with
  | Some data => (Some (item.1, data), tab)
  | None =>
      match action with
      | FIND => (None, tab)
      | ENTER =>
          if (size tab <? nel)%nat then (Some item, <[item.1 := item.2]> tab)
          else (None, tab)
      end
  end.

(** ** The state of the process *)

Record state := mk_state {
  heap : gmap loc docker_info;   (* the live [struct docker_info] blocks *)
  htab : gmap string loc;        (* the [hsearch] table *)
  trace : list event;
}.

Definition set_trace (t : list event) (st : state) : state :=
  mk_state (heap st) (htab st) t.

Definition set_htab (tab : gmap string loc) (st : state) : state :=
  mk_state (heap st) tab (trace st).

Definition set_heap (h : gmap loc docker_info) (st : state) : state :=
  mk_state h (htab st) (trace st).

(** Where the C program leaves what the functions below describe: at an
    [assert] that fails, or at a write past the end of an array, after which
    the C standard says nothing about the run. *)
Inductive fault :=
  | Abort        (* an [assert] failed *)
  | Undefined.   (* a write past the end of a buffer *)

(** How a call of [docker_info_init] ends: it returns, or it gets to one of
    the two faults. *)
Inductive outcome :=
  | Done (info : option loc) (st : state)   (* returns [info]; NULL is [None] *)
  | Fault (f : fault).

(** * The functions of [docker-info.c] *)

Section Driver.

Context `{JsonC} `{DriverHeader}.

(** ** [docker_info_int_value_set] (lines 56-69) *)
Definition docker_info_int_value_set (setting : json_object) (key : string)
    (member : uint_member) (is_print : print_flag) : M Z :=
  match json_object_object_get_ex setting key with
  | None =>
      (if is_error_print is_print then pr_info ERROR (msg_not_exist key)
       else mret tt) ;;
      mret (- EINVAL)
  | Some tmp =>
      write (store_uint member (to_uint (json_object_get_int tmp))) ;;
      mret 0
  end.

(** ** [docker_info_str_value_set] (lines 83-97) *)
Definition docker_info_str_value_set (setting : json_object) (key : string)
    (member : str_member) (size : nat) (is_print : print_flag) : M Z :=
  match json_object_object_get_ex setting key with
  | None =>
      (if is_error_print is_print then pr_info ERROR (msg_not_exist key)
       else mret tt) ;;
      mret (- EINVAL)
  | Some tmp =>
      old <- read (load_str member) ;;
      write (store_str member (snprintf_s size (json_object_get_string tmp) old)) ;;
      copied <- read (load_str member) ;;
      write (store_str member (generic_strip_string copied dquote)) ;;
      mret 0
  end.

(** ** [__docker_info_init] (lines 127-237) *)

(** Lines 140-151: the entry [index] of the [task_option] array. *)
Definition task_option_entry (setting : json_object) (index : Z) : M json_object :=
  match json_object_object_get_ex setting "task_option" with
  | None =>
      pr_info ERROR (msg_not_exist "task_option") ;;
      goto_exception (- EINVAL)
  | Some tmp =>
      match json_object_array_get_idx tmp index with
      | None =>
          pr_info ERROR (msg_out_of_bound index) ;;
          goto_exception (- EINVAL)
      | Some tmp => mret tmp
      end
  end.

(** Lines 153-178: every key of the entry that is present replaces the value
    read from the global settings. *)
Definition task_overrides (tmp : json_object) : M unit :=
  docker_info_int_value_set tmp "time" m_time DOCKER_PRINT_NONE ;;
  docker_info_int_value_set tmp "q_depth" m_q_depth DOCKER_PRINT_NONE ;;
  docker_info_int_value_set tmp "nr_thread" m_nr_thread DOCKER_PRINT_NONE ;;
  docker_info_int_value_set tmp "weight" m_weight DOCKER_PRINT_NONE ;;
  docker_info_int_value_set tmp "trace_repeat" m_weight DOCKER_PRINT_NONE ;;
  docker_info_int_value_set tmp "wss" m_wss DOCKER_PRINT_NONE ;;
  docker_info_int_value_set tmp "utilization" m_utilization DOCKER_PRINT_NONE ;;
  docker_info_int_value_set tmp "iosize" m_iosize DOCKER_PRINT_NONE ;;
  docker_info_str_value_set tmp "prefix_cgroup_name" m_prefix_cgroup_name
    (sizeof_member m_prefix_cgroup_name) DOCKER_PRINT_NONE ;;
  docker_info_str_value_set tmp "scheduler" m_scheduler
    (sizeof_member m_scheduler) DOCKER_PRINT_NONE ;;
  docker_info_str_value_set tmp "trace_replay_path" m_trace_replay_path
    (sizeof_member m_trace_replay_path) DOCKER_PRINT_NONE ;;
  docker_info_str_value_set tmp "device" m_device
    (sizeof_member m_device) DOCKER_PRINT_NONE ;;
  mret tt.

(** Lines 179-194: the scheduler of the task and its weight. *)
Definition task_scheduler_weight (tmp : json_object) : M Z :=
  name <- read scheduler ;;
  let ret := docker_valid_scheduler_test name in
  if ret <? 0 then
    pr_info ERROR (msg_unsupported_scheduler name) ;;
    goto_exception ret
  else
    let print_flag :=
      if c_true (docker_has_weight_scheduler ret) then DOCKER_ERROR_PRINT
      else DOCKER_PRINT_NONE in
    ret <- docker_info_int_value_set tmp "weight" m_weight print_flag ;;
    if is_error_print print_flag && negb (ret =? 0) then goto_exception ret
    else mret ret.

(** Lines 196-209: the two keys every entry has to give. *)
Definition task_mandatory (tmp : json_object) : M Z :=
  ret <- docker_info_str_value_set tmp "trace_data_path" m_trace_data_path
           (sizeof_member m_trace_data_path) DOCKER_ERROR_PRINT ;;
  if negb (ret =? 0) then goto_exception ret
  else
    ret <- docker_info_str_value_set tmp "cgroup_id" m_cgroup_id
             (sizeof_member m_cgroup_id) DOCKER_ERROR_PRINT ;;
    if negb (ret =? 0) then goto_exception ret
    else mret ret.

(** Lines 211-220: a trace that is not synthetic has to be a file. *)
Definition trace_data_check (e : env) (ret : Z) : M Z :=
  path <- read trace_data_path ;;
  match docker_is_synth_type path with
  | DOCKER_SYNTH => mret ret
  | DOCKER_NOT_SYNTH =>
      ret <- call_lstat e path ;;
      if ret =? -1 then
        pr_info ERROR (msg_trace_data_not_exist path) ;;
        goto_exception ret
      else
        pr_info INFO (msg_trace_data_exist path) ;;
        mret ret
  end.

(** Lines 140-209: what is read from the entry. *)
Definition task_fields (setting : json_object) (index : Z) : M Z :=
  tmp <- task_option_entry setting index ;;
  task_overrides tmp ;;
  task_scheduler_weight tmp ;;
  task_mandatory tmp.

(** Lines 140-221: all of [__docker_info_init] before the table is used. *)
Definition task_resolve (e : env) (setting : json_object) (index : Z) : M Z :=
  ret <- task_fields setting index ;;
  ret <- trace_data_check e ret ;;
  write (set_ppid (getpid e)) ;;
  mret ret.

(** The whole function. [info] is the address of the block and [d] what it
    holds at the call; [assert (NULL != info)] holds since [info] is an
    address. The block is returned with the value of [ret]. *)
Definition __docker_info_init (e : env) (setting : json_object) (index : Z)
    (info : loc) (d : docker_info) (st : state) : Z * docker_info * state :=
  match task_resolve e setting index (mk_frame d (trace st)) with
  | (Next ret, fr) =>
      let d := fr_info fr in
      let st := set_trace (fr_trace fr) st in
      (* lines 223-229 *)
      match hsearch (table_size e) (cgroup_id d, info) FIND (htab st) with
      | (Some result, _) =>
          (- EINVAL, d,
           set_trace (ev_pr_info ERROR (msg_duplicate_cgroup result.1) :: trace st) st)
      | (None, _) =>
          (* lines 231-233: what [hsearch] answers is not looked at *)
          (ret, d,
           set_htab (hsearch (table_size e) (cgroup_id d, info) ENTER (htab st)).2 st)
      end
  | (Exception ret, fr) => (ret, fr_info fr, set_trace (fr_trace fr) st)
  end.

(** ** [docker_info_init] (lines 247-344) *)

(** Lines 261-286: the default of [trace_repeat] and the seven keys the
    global settings have to give. *)
Definition global_mandatory (setting : json_object) : M Z :=
  write (set_trace_repeat 1) ;;
  let ret := 0 in
  r <- docker_info_int_value_set setting "time" m_time DOCKER_ERROR_PRINT ;;
  let ret := Z.lor ret r in
  r <- docker_info_int_value_set setting "q_depth" m_q_depth DOCKER_ERROR_PRINT ;;
  let ret := Z.lor ret r in
  r <- docker_info_int_value_set setting "nr_thread" m_nr_thread DOCKER_ERROR_PRINT ;;
  let ret := Z.lor ret r in
  r <- docker_info_str_value_set setting "prefix_cgroup_name" m_prefix_cgroup_name
         (sizeof_member m_prefix_cgroup_name) DOCKER_ERROR_PRINT ;;
  let ret := Z.lor ret r in
  r <- docker_info_str_value_set setting "scheduler" m_scheduler
         (sizeof_member m_scheduler) DOCKER_ERROR_PRINT ;;
  let ret := Z.lor ret r in
  r <- docker_info_str_value_set setting "device" m_device
         (sizeof_member m_device) DOCKER_ERROR_PRINT ;;
  let ret := Z.lor ret r in
  r <- docker_info_str_value_set setting "trace_replay_path" m_trace_replay_path
         (sizeof_member m_trace_replay_path) DOCKER_ERROR_PRINT ;;
  let ret := Z.lor ret r in
  if negb (ret =? 0) then
    pr_info ERROR (msg_error_detected ret) ;;
    goto_exception ret
  else mret ret.

(** [sprintf (dst, ...)] of [s] into an array of [size] characters stays
    inside the array when [s] and its NUL fit. *)
Definition fits (s : string) (size : nat) : bool :=
  (String.length s <? size)%nat.

(** Lines 288-296: a path that is not found is tried under [/usr/bin/]. *)
Definition trace_replay_path_redirect (e : env) (fr : frame) : fault + frame :=
  let path := trace_replay_path (fr_info fr) in
  let size := sizeof_member m_trace_replay_path in
  let fr := mk_frame (fr_info fr) (ev_lstat path :: fr_trace fr) in
  if lstat e path =? -1 then
    if malloc_buffer_ok e then
      if fits path size then
        let buffer := path in
        let redirected := usr_bin +:+ buffer in
        if fits redirected size then
          inr (mk_frame (set_trace_replay_path redirected (fr_info fr))
                 (ev_pr_info WARNING (msg_redirect buffer redirected) :: fr_trace fr))
        else inl Undefined
      else inl Undefined
    else inl Abort
  else inr fr.

(** Lines 298-302. *)
Definition trace_replay_path_check (e : env) (ret : Z) : M Z :=
  path <- read trace_replay_path ;;
  r <- call_lstat e path ;;
  if r =? -1 then
    pr_info ERROR (msg_cannot_find path) ;;
    goto_exception ret
  else mret ret.

(** Lines 288-302: the two steps in a row. *)
Definition trace_replay_path_resolve (e : env) (ret : Z) (fr : frame)
  : fault + flow Z * frame :=
  match trace_replay_path_redirect e fr with
  | inl f => inl f
  | inr fr => inr (trace_replay_path_check e ret fr)
  end.

(** Lines 304-325: the scheduler of the global settings and the keys that
    may be left out there. *)
Definition global_optional (setting : json_object) : M Z :=
  name <- read scheduler ;;
  let ret := docker_valid_scheduler_test name in
  if ret <? 0 then
    pr_info ERROR (msg_unsupported_scheduler name) ;;
    goto_exception ret
  else
    docker_info_int_value_set setting "weight" m_weight DOCKER_PRINT_NONE ;;
    docker_info_int_value_set setting "trace_repeat" m_weight DOCKER_PRINT_NONE ;;
    docker_info_int_value_set setting "wss" m_wss DOCKER_PRINT_NONE ;;
    docker_info_int_value_set setting "utilization" m_utilization DOCKER_PRINT_NONE ;;
    docker_info_int_value_set setting "iosize" m_iosize DOCKER_PRINT_NONE ;;
    docker_info_str_value_set setting "trace_data_path" m_trace_data_path
      (sizeof_member m_trace_data_path) DOCKER_PRINT_NONE ;;
    mret ret.

(** Lines 261-325: all of [docker_info_init] between the allocation of the
    block and the call of [__docker_info_init]. *)
Definition global_resolve (e : env) (setting : json_object) (fr : frame)
  : fault + flow Z * frame :=
  match global_mandatory setting fr with
  | (Exception ret, fr) => inr (Exception ret, fr)
  | (Next ret, fr) =>
      match trace_replay_path_resolve e ret fr with
      | inl f => inl f
      | inr (Exception ret, fr) => inr (Exception ret, fr)
      | inr (Next _, fr) => inr (global_optional setting fr)
      end
  end.

(** [malloc] answers an address that is not in use. *)
Definition malloc_addr (st : state) : loc := fresh (dom (heap st)).

(** Lines 338-343, the [exception] label: the block is freed and NULL is
    returned. *)
Definition exception_exit (info : loc) (st : state) : outcome :=
  Done None (set_heap (delete info (heap st)) st).

(** Lines 333-335. *)
Definition finish (d : docker_info) : docker_info :=
  set_next None (set_mqid (-1) (set_semid (-1) (set_shmid (-1) d))).

(** The block under construction is kept in [d] and stored at [info] when
    the function returns it; nothing else reads the block in between. *)
Definition docker_info_init (e : env) (setting : json_object) (index : Z)
    (st : state) : outcome :=
  if malloc_info_ok e then
    let info := malloc_addr st in
    let st := set_heap (<[info := zeroed]> (heap st)) st in
    match global_resolve e setting (mk_frame zeroed (trace st)) with
    | inl f => Fault f
    | inr (Exception _, fr) => exception_exit info (set_trace (fr_trace fr) st)
    | inr (Next _, fr) =>
        let '(ret, d, st) :=
          __docker_info_init e setting index info (fr_info fr)
            (set_trace (fr_trace fr) st) in
        if negb (ret =? 0) then
          exception_exit info
            (set_trace (ev_pr_info ERROR (msg_error_detected ret) :: trace st) st)
        else
          Done (Some info) (set_heap (<[info := finish d]> (heap st)) st)
    end
  else
    Done None (set_trace (ev_pr_info ERROR (msg_alloc_fail "info") :: trace st) st).

End Driver.

(** * Readings of the code

    The functions and predicates in which the properties are stated: what a
    call of a reader leaves in the block and in the trace, the block after
    each group of lines, the conditions under which the checks go through,
    and the events between two states. *)

Section Readings.

Context `{JsonC} `{DriverHeader}.

(** The value returned for [key]. *)
Definition key_ret (setting : json_object) (key : string) : Z :=
  match json_object_object_get_ex setting key with
  | Some _ => 0
  | None => - EINVAL
  end.

(** The block after [key] was read into an integer member. *)
Definition int_pull (setting : json_object) (key : string) (member : uint_member)
    (d : docker_info) : docker_info :=
  match json_object_object_get_ex setting key with
  | Some tmp => store_uint member (to_uint (json_object_get_int tmp)) d
  | None => d
  end.

(** The text a character array of [size] holds after [tmp] was read into it. *)
Definition str_value (size : nat) (tmp : json_object) (old : string) : string :=
  generic_strip_string (snprintf_s size (json_object_get_string tmp) old) dquote.

(** The block after [key] was read into a character array. *)
Definition str_pull (setting : json_object) (key : string) (member : str_member)
    (size : nat) (d : docker_info) : docker_info :=
  match json_object_object_get_ex setting key with
  | Some tmp => store_str member (str_value size tmp (load_str member d)) d
  | None => d
  end.

(** The trace after a missing [key] was reported, or not. *)
Definition complain (is_print : print_flag) (setting : json_object) (key : string)
    (t : list event) : list event :=
  match json_object_object_get_ex setting key with
  | Some _ => t
  | None =>
      if is_error_print is_print then ev_pr_info ERROR (msg_not_exist key) :: t
      else t
  end.

(** The block after lines 153-178. *)
Definition task_overrides_info (tmp : json_object) (d : docker_info) : docker_info :=
  let d := int_pull tmp "time" m_time d in
  let d := int_pull tmp "q_depth" m_q_depth d in
  let d := int_pull tmp "nr_thread" m_nr_thread d in
  let d := int_pull tmp "weight" m_weight d in
  let d := int_pull tmp "trace_repeat" m_weight d in
  let d := int_pull tmp "wss" m_wss d in
  let d := int_pull tmp "utilization" m_utilization d in
  let d := int_pull tmp "iosize" m_iosize d in
  let d := str_pull tmp "prefix_cgroup_name" m_prefix_cgroup_name
             (sizeof_member m_prefix_cgroup_name) d in
  let d := str_pull tmp "scheduler" m_scheduler (sizeof_member m_scheduler) d in
  let d := str_pull tmp "trace_replay_path" m_trace_replay_path
             (sizeof_member m_trace_replay_path) d in
  str_pull tmp "device" m_device (sizeof_member m_device) d.

(** The block after lines 153-209 went through. *)
Definition task_info (tmp : json_object) (d : docker_info) : docker_info :=
  let d := task_overrides_info tmp d in
  let d := int_pull tmp "weight" m_weight d in
  let d := str_pull tmp "trace_data_path" m_trace_data_path
             (sizeof_member m_trace_data_path) d in
  str_pull tmp "cgroup_id" m_cgroup_id (sizeof_member m_cgroup_id) d.

(** The entry [index] of [task_option], when there is one. *)
Definition task_entry (setting : json_object) (index : Z) : option json_object :=
  match json_object_object_get_ex setting "task_option" with
  | Some arr => json_object_array_get_idx arr index
  | None => None
  end.

(** The scheduler in force for the entry. *)
Definition task_scheduler (tmp : json_object) (d : docker_info) : string :=
  scheduler (task_overrides_info tmp d).

(** The scheduler [name] is in the table and takes a weight. *)
Definition weight_aware (name : string) : bool :=
  c_true (docker_has_weight_scheduler (docker_valid_scheduler_test name)).

(** [key] is not in the object. *)
Definition absent (setting : json_object) (key : string) : bool :=
  match json_object_object_get_ex setting key with
  | Some _ => false
  | None => true
  end.

(** What lines 211-220 add to the trace when they go through. *)
Definition check_events (path : string) : list event :=
  match docker_is_synth_type path with
  | DOCKER_SYNTH => []
  | DOCKER_NOT_SYNTH => [ev_pr_info INFO (msg_trace_data_exist path); ev_lstat path]
  end.

(** The trace data is synthetic or a file that is there. *)
Definition trace_data_ok (e : env) (path : string) : bool :=
  match docker_is_synth_type path with
  | DOCKER_SYNTH => true
  | DOCKER_NOT_SYNTH => path_exists e path
  end.

(** The keys read at lines 263-282, in that order. *)
Definition mandatory_global_keys : list string :=
  [ "time"; "q_depth"; "nr_thread"; "prefix_cgroup_name"; "scheduler"; "device";
    "trace_replay_path" ].

(** The block after lines 261-282. *)
Definition global_info (setting : json_object) (d : docker_info) : docker_info :=
  let d := set_trace_repeat 1 d in
  let d := int_pull setting "time" m_time d in
  let d := int_pull setting "q_depth" m_q_depth d in
  let d := int_pull setting "nr_thread" m_nr_thread d in
  let d := str_pull setting "prefix_cgroup_name" m_prefix_cgroup_name
             (sizeof_member m_prefix_cgroup_name) d in
  let d := str_pull setting "scheduler" m_scheduler (sizeof_member m_scheduler) d in
  let d := str_pull setting "device" m_device (sizeof_member m_device) d in
  str_pull setting "trace_replay_path" m_trace_replay_path
    (sizeof_member m_trace_replay_path) d.

(** The mandatory keys that are missing, in the order they are read. *)
Definition missing_global_keys (setting : json_object) : list string :=
  List.filter (absent setting) mandatory_global_keys.

(** The reports of the missing [keys], the newest first. *)
Definition not_exist_events (keys : list string) : list event :=
  List.map (fun key => ev_pr_info ERROR (msg_not_exist key)) (List.rev keys).

(** The block after lines 311-325. *)
Definition global_optional_info (setting : json_object) (d : docker_info) : docker_info :=
  let d := int_pull setting "weight" m_weight d in
  let d := int_pull setting "trace_repeat" m_weight d in
  let d := int_pull setting "wss" m_wss d in
  let d := int_pull setting "utilization" m_utilization d in
  let d := int_pull setting "iosize" m_iosize d in
  str_pull setting "trace_data_path" m_trace_data_path
    (sizeof_member m_trace_data_path) d.

(** The path the block holds after lines 288-296. *)
Definition probed_path (e : env) (path : string) : string :=
  if path_exists e path then path else usr_bin +:+ path.

(** What the two calls of [lstat] and the redirection leave in the trace. *)
Definition probe_events (e : env) (path : string) : list event :=
  if path_exists e path then [ev_lstat path; ev_lstat path]
  else [ev_lstat (usr_bin +:+ path);
        ev_pr_info WARNING (msg_redirect path (usr_bin +:+ path));
        ev_lstat path].

(** The block handed to [__docker_info_init] when lines 261-325 went
    through. *)
Definition global_descriptor (e : env) (setting : json_object) : docker_info :=
  let d := global_info setting zeroed in
  global_optional_info setting
    (set_trace_replay_path (probed_path e (trace_replay_path d)) d).

(** What lines 261-325 leave in the trace when they go through. *)
Definition global_events (e : env) (setting : json_object) : list event :=
  probe_events e (trace_replay_path (global_info setting zeroed)).

(** The redirection of lines 288-296 is not needed for [path], or it can be
    made: the temporary buffer is allocated and the new path fits the
    array. *)
Definition redirect_defined (e : env) (path : string) : bool :=
  path_exists e path
  || (malloc_buffer_ok e && fits (usr_bin +:+ path) (sizeof_member m_trace_replay_path)).

(** The global settings pass lines 261-325: the mandatory keys are there,
    the path of the trace replayer is found, as given or redirected, and the
    scheduler is in the table. *)
Definition global_accepted (e : env) (setting : json_object) : Prop :=
  missing_global_keys setting = [] /\
  redirect_defined e (trace_replay_path (global_info setting zeroed)) = true /\
  path_exists e (probed_path e (trace_replay_path (global_info setting zeroed))) = true /\
  (docker_valid_scheduler_test (scheduler (global_info setting zeroed)) <? 0) = false.

(** The entry [tmp] passes every check of [__docker_info_init] on top of
    the block [d]. *)
Definition task_accepted (e : env) (tmp : json_object) (d : docker_info) : Prop :=
  absent tmp "trace_data_path" = false /\
  absent tmp "cgroup_id" = false /\
  (docker_valid_scheduler_test (task_scheduler tmp d) <? 0) = false /\
  weight_aware (task_scheduler tmp d) && absent tmp "weight" = false /\
  trace_data_ok e (trace_data_path (task_info tmp d)) = true.

(** The block a call returns for the entry [tmp]. *)
Definition resolved (e : env) (setting tmp : json_object) : docker_info :=
  finish (set_ppid (getpid e) (task_info tmp (global_descriptor e setting))).

(** The table after [hsearch (item, ENTER)] with a [key] that is not in it:
    the entry is added when the table has room, and a full table is left as
    it is. *)
Definition table_after_enter (e : env) (tab : gmap string loc) (key : string)
    (info : loc) : gmap string loc :=
  if (size tab <? table_size e)%nat then <[key := info]> tab else tab.

(** [reached_by_calls e setting st st'] : the process gets from [st] to [st']
    by calls of [docker_info_init] on entries of [setting]. *)
Inductive reached_by_calls (e : env) (setting : json_object) : state -> state -> Prop :=
  | no_call st : reached_by_calls e setting st st
  | one_more_call st index r st1 st2 :
      docker_info_init e setting index st = Done r st1 ->
      reached_by_calls e setting st1 st2 ->
      reached_by_calls e setting st st2.

(** The events between the states [st] and [st'], newest first. *)
Definition reported (st st' : state) : list event :=
  take (length (trace st') - length (trace st))%nat (trace st').

(** The text of a key as an array of [size] characters holds it. *)
Definition str_read (size : nat) (v : json_object) : string :=
  generic_strip_string (str_take (size - 1) (json_object_get_string v)) dquote.

(** The scheduler in force for the entry: its own, or else the one of the
    global settings. *)
Definition effective_scheduler (setting tmp : json_object) : string :=
  match json_object_object_get_ex tmp "scheduler" with
  | Some v => str_read (sizeof_member m_scheduler) v
  | None =>
      match json_object_object_get_ex setting "scheduler" with
      | Some v => str_read (sizeof_member m_scheduler) v
      | None => ""
      end
  end.

(** [info->member] for an integer member. *)
Definition load_uint (m : uint_member) : docker_info -> Z :=
  match m with
  | m_time => time
  | m_q_depth => q_depth
  | m_nr_thread => nr_thread
  | m_weight => weight
  | m_trace_repeat => trace_repeat
  | m_wss => wss
  | m_utilization => utilization
  | m_iosize => iosize
  end.

(** The value of [key] for the entry [tmp]: the entry's own, or else the one
    of the global settings. *)
Definition tiered (setting tmp : json_object) (key : string) : option json_object :=
  match json_object_object_get_ex tmp key with
  | Some v => Some v
  | None => json_object_object_get_ex setting key
  end.

(** What an integer member holds after the value [v] was read into it, and
    what it holds in the zeroed block when there was no value to read. *)
Definition uint_of (v : option json_object) : Z :=
  match v with
  | Some v => to_uint (json_object_get_int v)
  | None => 0
  end.

(** The same for a character array of [size] characters. *)
Definition text_of (size : nat) (v : option json_object) : string :=
  match v with
  | Some v => str_read size v
  | None => ""
  end.

(** Every character array of the block holds a text that ends inside it. *)
Definition strings_fit (d : docker_info) : Prop :=
  forall m, fits (load_str m d) (sizeof_member m) = true.

(** The table is the index of the live blocks by their [cgroup_id]. *)
Definition table_tracks_blocks (st : state) : Prop :=
  (forall info d, heap st !! info = Some d -> htab st !! cgroup_id d = Some info) /\
  (forall key info, htab st !! key = Some info ->
     exists d, heap st !! info = Some d /\ cgroup_id d = key).

End Readings.

(** * A configuration to run the driver on

    JSON trees with a reading of json-c on them, and one header: they are
    what the examples below are evaluated with. The theorems hold for every
    [JsonC] and every [DriverHeader]. *)

Module Sample.

#[local] Set Warnings "-register-all".

Inductive jtree :=
  | JInt (n : Z)
  | JStr (s : string)
  | JArr (items : list jtree)
  | JObj (fields : list (string * jtree)).

Fixpoint assoc (fields : list (string * jtree)) (key : string) : option jtree :=
  match fields with
  | [] => None
  | (k, v) :: rest => if String.eqb k key then Some v else assoc rest key
  end.

Definition object_get_ex (o : jtree) (key : string) : option jtree :=
  match o with
  | JObj fields => assoc fields key
  | _ => None
  end.

Definition array_get_idx (a : jtree) (i : Z) : option jtree :=
  match a with
  | JArr items => if i <? 0 then None else nth_error items (Z.to_nat i)
  | _ => None
  end.

(** An integer is cut to the range of [int32_t]; what is no integer reads
    as 0 and what is no string reads as the empty text. *)
Definition get_int (v : jtree) : Z :=
  match v with
  | JInt n => Z.max (- 2 ^ 31) (Z.min (2 ^ 31 - 1) n)
  | _ => 0
  end.

Definition get_string (v : jtree) : string :=
  match v with
  | JStr s => s
  | _ => ""
  end.

Definition json : JsonC := {|
  json_object := jtree;
  json_object_object_get_ex := object_get_ex;
  json_object_array_get_idx := array_get_idx;
  json_object_get_int := get_int;
  json_object_get_string := get_string;
|}.

(** A header with arrays of [NAME_MAX] and [PATH_MAX] characters, three
    schedulers of which the last takes a weight, and a strip that drops the
    character wherever it stands. *)
Definition schedulers : list string := [ "none"; "kyber"; "bfq" ].

Fixpoint index_of (tbl : list string) (name : string) (i : Z) : Z :=
  match tbl with
  | [] => - EINVAL
  | t :: tbl' => if String.eqb name t then i else index_of tbl' name (i + 1)
  end.

Fixpoint strip (s : string) (c : ascii) : string :=
  match s with
  | EmptyString => EmptyString
  | String a s' => if Ascii.eqb a c then strip s' c else String a (strip s' c)
  end.

Definition array_size (m : str_member) : nat :=
  match m with
  | m_trace_replay_path | m_trace_data_path => 4096%nat
  | _ => 255%nat
  end.

Definition array_size_pos (m : str_member) : array_size m <> O :=
  match m with
  | m_trace_replay_path | m_trace_data_path => Nat.neq_succ_0 4095
  | _ => Nat.neq_succ_0 254
  end.

Definition header : DriverHeader := {|
  sizeof_member := array_size;
  docker_valid_scheduler_test name := index_of schedulers name 0;
  docker_has_weight_scheduler i := if i =? 2 then 1 else 0;
  generic_strip_string := strip;
  sizeof_member_pos := array_size_pos;
|}.

(** The files of the machine: the trace replayer is installed in
    [/usr/bin] and one recorded trace is at hand. *)
Definition machine : env := {|
  path_exists p := String.eqb p "/usr/bin/trace-replay" || String.eqb p "/tmp/trace.dat";
  getpid := 4242;
  malloc_info_ok := true;
  malloc_buffer_ok := true;
  table_size := 16;
|}.

Definition start : state := mk_state ∅ ∅ [].

Definition global_fields (sched : string) : list (string * jtree) :=
  [ ("time", JInt 60); ("q_depth", JInt 32); ("nr_thread", JInt 4);
    ("prefix_cgroup_name", JStr "bench_"); ("scheduler", JStr sched);
    ("device", JStr "/dev/sdb"); ("trace_replay_path", JStr "trace-replay") ].

#[local] Existing Instance json.
#[local] Existing Instance header.

(** A configuration: the global keys of [global_fields], further global
    keys, and the entries of [task_option]. *)
Definition config (sched : string) (more : list (string * jtree)) (tasks : list jtree)
  : jtree :=
  JObj (global_fields sched ++ more ++ [("task_option", JArr tasks)]).

Definition task (id source : string) (more : list (string * jtree)) : jtree :=
  JObj ([("cgroup_id", JStr id); ("trace_data_path", JStr source)] ++ more).

(** The state a call ends in and the block it returns. *)
Definition state_after (o : outcome) : state :=
  match o with
  | Done _ st => st
  | Fault _ => start
  end.

Definition block_at (st : state) (info : loc) : docker_info :=
  match heap st !! info with
  | Some d => d
  | None => zeroed
  end.

(** Three tasks, the first and the last with the same [cgroup_id]. *)
Definition twins : jtree :=
  config "none" []
    [ task "t0" "seq_read" []; task "t1" "/tmp/trace.dat" []; task "t0" "rand_write" [] ].

Definition after_first : state := state_after (docker_info_init machine twins 0 start).
Definition after_second : state := state_after (docker_info_init machine twins 1 after_first).

(** With the table reset, the third entry is resolved. *)
Definition third_alone : state :=
  state_after (docker_info_init machine twins 2 (set_htab ∅ after_second)).

(** [bfq] takes a weight in the sample header. The global settings give a
    weight, the entry does not. *)
Definition weight_only_global : jtree :=
  config "bfq" [("weight", JInt 5)] [ task "t0" "seq_read" [] ].

(** The entry gives the weight. *)
Definition weight_in_task : jtree :=
  config "bfq" [] [ task "t0" "seq_read" [("weight", JInt 7)] ].

(** A machine without the trace replayer. *)
Definition bare_machine : env := {|
  path_exists p := false;
  getpid := 4242;
  malloc_info_ok := true;
  malloc_buffer_ok := true;
  table_size := 16;
|}.

(** The trace of the entry is a file that is not there. *)
Definition lost_trace : jtree :=
  config "none" [] [ task "t0" "/tmp/lost.dat" [] ].

(** The global settings give both keys; the first entry gives neither, the
    second only [trace_data_path]. *)
Definition keys_only_global : jtree :=
  config "none" [("trace_data_path", JStr "seq_read"); ("cgroup_id", JStr "g0")]
    [ JObj []; JObj [("trace_data_path", JStr "seq_write")] ].

(** Global settings without [device] and without [q_depth]. *)
Definition no_device : jtree :=
  JObj [ ("time", JInt 60); ("nr_thread", JInt 4);
         ("prefix_cgroup_name", JStr "bench_"); ("scheduler", JStr "none");
         ("trace_replay_path", JStr "trace-replay");
         ("task_option", JArr [ task "t0" "seq_read" [] ]) ].

(** [trace_repeat] is 5 in the global settings and 3 in the second entry. *)
Definition repeated : jtree :=
  config "none" [("trace_repeat", JInt 5)]
    [ task "t0" "seq_read" []; task "t1" "seq_read" [("trace_repeat", JInt 3)] ].

(** The scheduler of the global settings is not in the table; the entry
    names one that is. *)
Definition unknown_global_scheduler : jtree :=
  config "cfq" [] [ task "t0" "seq_read" [("scheduler", JStr "none")] ].

(** The scheduler of the entry is not in the table. *)
Definition unknown_task_scheduler : jtree :=
  config "none" [] [ task "t0" "seq_read" [("scheduler", JStr "cfq")] ].

(** An entry with values of its own for keys of the global settings, among
    them a trace replayer that is not on the machine. *)
Definition overriding : jtree :=
  config "none" [("wss", JInt 128); ("utilization", JInt 50)]
    [ task "t0" "seq_read"
        [("time", JInt 10); ("device", JStr "/dev/sdc"); ("wss", JInt 256);
         ("trace_replay_path", JStr "/opt/replay")] ].

(** The weight is given at both tiers. *)
Definition weight_twice : jtree :=
  config "bfq" [("weight", JInt 5)] [ task "t0" "seq_read" [("weight", JInt 7)] ].

(** A path of [n] characters. *)
Fixpoint long_name (n : nat) : string :=
  match n with
  | O => ""
  | S n' => String "a" (long_name n')
  end.

(** The path of the trace replayer is not on the machine and leaves no room
    for [/usr/bin/] in front of it. *)
Definition long_path : jtree :=
  JObj [ ("time", JInt 60); ("q_depth", JInt 32); ("nr_thread", JInt 4);
         ("prefix_cgroup_name", JStr "bench_"); ("scheduler", JStr "none");
         ("device", JStr "/dev/sdb"); ("trace_replay_path", JStr (long_name 4090));
         ("task_option", JArr [ task "t0" "seq_read" [] ]) ].

(** A machine on which the temporary buffer cannot be allocated. *)
Definition tight_machine : env := {|
  path_exists p := false;
  getpid := 4242;
  malloc_info_ok := true;
  malloc_buffer_ok := false;
  table_size := 16;
|}.

(** The sample machine with a table of three entries, the least [hcreate]
    of glibc makes. *)
Definition small_table : env := {|
  path_exists p := String.eqb p "/usr/bin/trace-replay" || String.eqb p "/tmp/trace.dat";
  getpid := 4242;
  malloc_info_ok := true;
  malloc_buffer_ok := true;
  table_size := 3;
|}.

(** Five tasks, the last two with the same [cgroup_id]. *)
Definition crowded : jtree :=
  config "none" []
    [ task "t0" "seq_read" []; task "t1" "seq_read" []; task "t2" "seq_read" [];
      task "t3" "seq_read" []; task "t3" "seq_write" [] ].

(** The first three entries of [crowded] fill the table of [small_table]. *)
Definition full_table : state :=
  state_after
    (docker_info_init small_table crowded 2
       (state_after
          (docker_info_init small_table crowded 1
             (state_after (docker_info_init small_table crowded 0 start))))).

(** The state after the fourth entry. *)
Definition beyond_full : state :=
  state_after (docker_info_init small_table crowded 3 full_table).

(** The state after the entry of [overriding] was resolved. *)
Definition overridden : state := state_after (docker_info_init machine overriding 0 start).

End Sample.

(** * Properties *)

Section Properties.

Context `{JsonC} `{DriverHeader}.

(** ** What a call of the two readers amounts to *)

Lemma load_store_str m v d : load_str m (store_str m v d) = v.
Proof. destruct m; reflexivity. Qed.

Lemma store_store_str m v w d : store_str m w (store_str m v d) = store_str m w d.
Proof. destruct m; reflexivity. Qed.

Lemma int_value_set_run setting key member is_print fr :
  docker_info_int_value_set setting key member is_print fr =
  (Next (key_ret setting key),
   mk_frame (int_pull setting key member (fr_info fr))
     (complain is_print setting key (fr_trace fr))).
Proof.
  unfold docker_info_int_value_set, key_ret, int_pull, complain.
  destruct fr as [d t].
  destruct (json_object_object_get_ex setting key); [reflexivity|].
  destruct is_print; reflexivity.
Qed.

Lemma str_value_set_run setting key member size is_print fr :
  docker_info_str_value_set setting key member size is_print fr =
  (Next (key_ret setting key),
   mk_frame (str_pull setting key member size (fr_info fr))
     (complain is_print setting key (fr_trace fr))).
Proof.
  unfold docker_info_str_value_set, key_ret, str_pull, complain, str_value.
  destruct fr as [d t].
  destruct (json_object_object_get_ex setting key).
  - cbn. rewrite load_store_str, store_store_str. reflexivity.
  - destruct is_print; reflexivity.
Qed.

Lemma complain_none setting key t : complain DOCKER_PRINT_NONE setting key t = t.
Proof. unfold complain. destruct (json_object_object_get_ex setting key); reflexivity. Qed.

Lemma mbind_run {A B} (m : M A) (k : A -> M B) fr a fr1 :
  m fr = (Next a, fr1) -> mbind m k fr = k a fr1.
Proof. intros E. unfold mbind. rewrite E. reflexivity. Qed.

(** One statement of a sequence is run. *)
Ltac run_step :=
  erewrite mbind_run
    by first [ apply int_value_set_run | apply str_value_set_run | reflexivity ];
  cbn [fr_info fr_trace].

(** ** The keys of the task entry that may be left out *)

Lemma task_overrides_run tmp fr :
  task_overrides tmp fr =
  (Next tt, mk_frame (task_overrides_info tmp (fr_info fr)) (fr_trace fr)).
Proof.
  unfold task_overrides, task_overrides_info.
  repeat (run_step; rewrite complain_none).
  reflexivity.
Qed.

(** ** What is read from the task entry *)

Lemma task_fields_entry setting index tmp fr :
  task_entry setting index = Some tmp ->
  task_fields setting index fr =
  (task_scheduler_weight tmp ;; task_mandatory tmp)
    (mk_frame (task_overrides_info tmp (fr_info fr)) (fr_trace fr)).
Proof.
  unfold task_entry, task_fields, task_option_entry. intros E.
  destruct (json_object_object_get_ex setting "task_option") as [arr|]; [|discriminate].
  rewrite E.
  run_step.
  erewrite mbind_run by apply task_overrides_run. reflexivity.
Qed.

Lemma key_ret_some setting key v :
  json_object_object_get_ex setting key = Some v -> key_ret setting key = 0.
Proof. unfold key_ret. intros ->. reflexivity. Qed.

Lemma key_ret_none setting key :
  json_object_object_get_ex setting key = None -> key_ret setting key = - EINVAL.
Proof. unfold key_ret. intros ->. reflexivity. Qed.

Lemma complain_some is_print setting key v t :
  json_object_object_get_ex setting key = Some v ->
  complain is_print setting key t = t.
Proof. unfold complain. intros ->. reflexivity. Qed.

Lemma complain_error setting key t :
  json_object_object_get_ex setting key = None ->
  complain DOCKER_ERROR_PRINT setting key t = ev_pr_info ERROR (msg_not_exist key) :: t.
Proof. unfold complain. intros ->. reflexivity. Qed.

Lemma int_pull_none setting key member d :
  json_object_object_get_ex setting key = None -> int_pull setting key member d = d.
Proof. unfold int_pull. intros ->. reflexivity. Qed.

Lemma str_pull_none setting key member size d :
  json_object_object_get_ex setting key = None ->
  str_pull setting key member size d = d.
Proof. unfold str_pull. intros ->. reflexivity. Qed.

Lemma str_pull_some setting key member size d v :
  json_object_object_get_ex setting key = Some v ->
  str_pull setting key member size d =
  store_str member (str_value size v (load_str member d)) d.
Proof. unfold str_pull. intros ->. reflexivity. Qed.

(** The two cases of a key, with everything that hangs on it rewritten. *)
Ltac key_cases setting key :=
  let E := fresh "E" in
  destruct (json_object_object_get_ex setting key) eqn:E;
  [ rewrite ?(key_ret_some _ _ _ E), ?(complain_some _ _ _ _ _ E)
  | rewrite ?(key_ret_none _ _ E), ?(complain_error _ _ _ E),
      ?(int_pull_none _ _ _ _ E), ?(str_pull_none _ _ _ _ _ E) ].

Lemma task_scheduler_weight_run tmp d t :
  task_scheduler_weight tmp (mk_frame d t) =
  let name := scheduler d in
  let k := docker_valid_scheduler_test name in
  if k <? 0 then
    (Exception k, mk_frame d (ev_pr_info ERROR (msg_unsupported_scheduler name) :: t))
  else if weight_aware name then
    match json_object_object_get_ex tmp "weight" with
    | None =>
        (Exception (- EINVAL),
         mk_frame d (ev_pr_info ERROR (msg_not_exist "weight") :: t))
    | Some _ => (Next 0, mk_frame (int_pull tmp "weight" m_weight d) t)
    end
  else (Next (key_ret tmp "weight"), mk_frame (int_pull tmp "weight" m_weight d) t).
Proof.
  unfold task_scheduler_weight, weight_aware. run_step. cbn zeta.
  destruct (docker_valid_scheduler_test (scheduler d) <? 0); [reflexivity|].
  destruct (c_true _); run_step.
  - key_cases tmp "weight"; reflexivity.
  - rewrite complain_none. reflexivity.
Qed.

Lemma task_mandatory_run tmp d t :
  task_mandatory tmp (mk_frame d t) =
  match json_object_object_get_ex tmp "trace_data_path" with
  | None =>
      (Exception (- EINVAL),
       mk_frame d (ev_pr_info ERROR (msg_not_exist "trace_data_path") :: t))
  | Some _ =>
      let d := str_pull tmp "trace_data_path" m_trace_data_path
                 (sizeof_member m_trace_data_path) d in
      match json_object_object_get_ex tmp "cgroup_id" with
      | None =>
          (Exception (- EINVAL),
           mk_frame d (ev_pr_info ERROR (msg_not_exist "cgroup_id") :: t))
      | Some _ =>
          (Next 0,
           mk_frame (str_pull tmp "cgroup_id" m_cgroup_id (sizeof_member m_cgroup_id) d) t)
      end
  end.
Proof.
  unfold task_mandatory. run_step.
  key_cases tmp "trace_data_path"; [|reflexivity].
  cbn [negb Z.eqb]. run_step.
  key_cases tmp "cgroup_id"; reflexivity.
Qed.

Lemma trace_data_check_run e ret d t :
  trace_data_check e ret (mk_frame d t) =
  let path := trace_data_path d in
  match docker_is_synth_type path with
  | DOCKER_SYNTH => (Next ret, mk_frame d t)
  | DOCKER_NOT_SYNTH =>
      if path_exists e path then
        (Next 0, mk_frame d (ev_pr_info INFO (msg_trace_data_exist path) :: ev_lstat path :: t))
      else
        (Exception (-1),
         mk_frame d (ev_pr_info ERROR (msg_trace_data_not_exist path) :: ev_lstat path :: t))
  end.
Proof.
  unfold trace_data_check. run_step. cbn zeta.
  destruct (docker_is_synth_type (trace_data_path d)); [reflexivity|].
  run_step. unfold lstat. destruct (path_exists e (trace_data_path d)); reflexivity.
Qed.

Lemma task_fields_run setting index tmp d t :
  task_entry setting index = Some tmp ->
  task_fields setting index (mk_frame d t) =
  let d0 := task_overrides_info tmp d in
  let name := scheduler d0 in
  let k := docker_valid_scheduler_test name in
  if k <? 0 then
    (Exception k, mk_frame d0 (ev_pr_info ERROR (msg_unsupported_scheduler name) :: t))
  else if weight_aware name && absent tmp "weight" then
    (Exception (- EINVAL), mk_frame d0 (ev_pr_info ERROR (msg_not_exist "weight") :: t))
  else
    let d1 := int_pull tmp "weight" m_weight d0 in
    if absent tmp "trace_data_path" then
      (Exception (- EINVAL),
       mk_frame d1 (ev_pr_info ERROR (msg_not_exist "trace_data_path") :: t))
    else
      let d2 := str_pull tmp "trace_data_path" m_trace_data_path
                  (sizeof_member m_trace_data_path) d1 in
      if absent tmp "cgroup_id" then
        (Exception (- EINVAL),
         mk_frame d2 (ev_pr_info ERROR (msg_not_exist "cgroup_id") :: t))
      else (Next 0, mk_frame (task_info tmp d) t).
Proof.
  intros E. rewrite (task_fields_entry _ _ _ _ E). cbn [fr_info fr_trace].
  unfold mbind at 1. rewrite task_scheduler_weight_run. cbn zeta.
  destruct (docker_valid_scheduler_test _ <? 0); [reflexivity|].
  unfold absent.
  destruct (weight_aware _); cbn [andb].
  - destruct (json_object_object_get_ex tmp "weight") eqn:Ew; [|reflexivity].
    cbv beta iota. rewrite task_mandatory_run.
    destruct (json_object_object_get_ex tmp "trace_data_path"); [|reflexivity].
    destruct (json_object_object_get_ex tmp "cgroup_id"); reflexivity.
  - cbv beta iota. rewrite task_mandatory_run.
    destruct (json_object_object_get_ex tmp "trace_data_path"); [|reflexivity].
    destruct (json_object_object_get_ex tmp "cgroup_id"); reflexivity.
Qed.

Lemma task_fields_no_entry setting index d t :
  task_entry setting index = None ->
  task_fields setting index (mk_frame d t) =
  (Exception (- EINVAL),
   mk_frame d
     (ev_pr_info ERROR
        (if absent setting "task_option" then msg_not_exist "task_option"
         else msg_out_of_bound index) :: t)).
Proof.
  unfold task_entry, task_fields, task_option_entry, absent.
  destruct (json_object_object_get_ex setting "task_option"); [|reflexivity].
  intros ->. reflexivity.
Qed.

(** What is known when lines 140-209 went through. *)
Lemma task_fields_next setting index d t ret fr1 :
  task_fields setting index (mk_frame d t) = (Next ret, fr1) ->
  exists tmp,
    task_entry setting index = Some tmp /\
    absent tmp "trace_data_path" = false /\
    absent tmp "cgroup_id" = false /\
    (docker_valid_scheduler_test (task_scheduler tmp d) <? 0) = false /\
    weight_aware (task_scheduler tmp d) && absent tmp "weight" = false /\
    ret = 0 /\ fr1 = mk_frame (task_info tmp d) t.
Proof.
  destruct (task_entry setting index) as [tmp|] eqn:E.
  - rewrite (task_fields_run _ _ _ _ _ E). cbn zeta. unfold task_scheduler.
    destruct (_ <? 0) eqn:Ek; [discriminate|].
    destruct (_ && _) eqn:Ew; [discriminate|].
    destruct (absent tmp "trace_data_path") eqn:E1; [discriminate|].
    destruct (absent tmp "cgroup_id") eqn:E2; [discriminate|].
    intros [= <- <-]. exists tmp. repeat split; auto.
  - rewrite (task_fields_no_entry _ _ _ _ E). discriminate.
Qed.

(** ** The trace data and the table *)

Lemma task_resolve_run e setting index fr :
  task_resolve e setting index fr =
  match task_fields setting index fr with
  | (Next ret, fr) =>
      match trace_data_check e ret fr with
      | (Next ret, fr) => (Next ret, mk_frame (set_ppid (getpid e) (fr_info fr)) (fr_trace fr))
      | (Exception ret, fr) => (Exception ret, fr)
      end
  | (Exception ret, fr) => (Exception ret, fr)
  end.
Proof.
  unfold task_resolve, mbind.
  destruct (task_fields setting index fr) as [[ret|ret] fr1]; [|reflexivity].
  destruct (trace_data_check e ret fr1) as [[ret'|ret'] fr2]; reflexivity.
Qed.

(** What is known when lines 140-221 went through. *)
Lemma task_resolve_next e setting index d t ret fr1 :
  task_resolve e setting index (mk_frame d t) = (Next ret, fr1) ->
  exists tmp,
    task_entry setting index = Some tmp /\
    absent tmp "trace_data_path" = false /\
    absent tmp "cgroup_id" = false /\
    (docker_valid_scheduler_test (task_scheduler tmp d) <? 0) = false /\
    weight_aware (task_scheduler tmp d) && absent tmp "weight" = false /\
    trace_data_ok e (trace_data_path (task_info tmp d)) = true /\
    ret = 0 /\
    fr1 = mk_frame (set_ppid (getpid e) (task_info tmp d))
            (check_events (trace_data_path (task_info tmp d)) ++ t).
Proof.
  rewrite task_resolve_run.
  destruct (task_fields _ _ _) as [[r|r] fr] eqn:E; [|discriminate].
  apply task_fields_next in E as (tmp & E0 & E1 & E2 & E3 & E4 & -> & ->).
  rewrite trace_data_check_run. cbn zeta.
  destruct (docker_is_synth_type _) eqn:Es.
  - intros [= <- <-]. exists tmp. unfold trace_data_ok, check_events. rewrite Es.
    repeat split; auto.
  - destruct (path_exists e _) eqn:Ep; [|discriminate].
    intros [= <- <-]. exists tmp. unfold trace_data_ok, check_events. rewrite Es.
    repeat split; auto.
Qed.

Lemma task_fields_exception setting index d t ret fr1 :
  task_fields setting index (mk_frame d t) = (Exception ret, fr1) -> ret < 0.
Proof.
  destruct (task_entry setting index) as [tmp|] eqn:E.
  - rewrite (task_fields_run _ _ _ _ _ E). cbn zeta.
    destruct (_ <? 0) eqn:Ek; [intros [= <- _]; lia|].
    destruct (_ && _); [intros [= <- _]; reflexivity|].
    destruct (absent tmp "trace_data_path"); [intros [= <- _]; reflexivity|].
    destruct (absent tmp "cgroup_id"); [intros [= <- _]; reflexivity|discriminate].
  - rewrite (task_fields_no_entry _ _ _ _ E). intros [= <- _]. reflexivity.
Qed.

Lemma task_resolve_exception e setting index d t ret fr1 :
  task_resolve e setting index (mk_frame d t) = (Exception ret, fr1) -> ret < 0.
Proof.
  rewrite task_resolve_run.
  destruct (task_fields _ _ _) as [[r|r] fr] eqn:E.
  - apply task_fields_next in E as (tmp & _ & _ & _ & _ & _ & -> & ->).
    rewrite trace_data_check_run. cbn zeta.
    destruct (docker_is_synth_type _); [discriminate|].
    destruct (path_exists e _); [discriminate|]. intros [= <- _]. reflexivity.
  - apply task_fields_exception in E. intros [= <- _]. exact E.
Qed.

Lemma inner_init_run e setting index info d st :
  __docker_info_init e setting index info d st =
  match task_resolve e setting index (mk_frame d (trace st)) with
  | (Next ret, fr) =>
      match htab st !! cgroup_id (fr_info fr) with
      | Some _ =>
          (- EINVAL, fr_info fr,
           mk_state (heap st) (htab st)
             (ev_pr_info ERROR (msg_duplicate_cgroup (cgroup_id (fr_info fr)))
                :: fr_trace fr))
      | None =>
          (ret, fr_info fr,
           mk_state (heap st)
             (table_after_enter e (htab st) (cgroup_id (fr_info fr)) info)
             (fr_trace fr))
      end
  | (Exception ret, fr) => (ret, fr_info fr, mk_state (heap st) (htab st) (fr_trace fr))
  end.
Proof.
  unfold __docker_info_init, hsearch, table_after_enter.
  destruct (task_resolve _ _ _ _) as [[ret|ret] fr]; [|reflexivity].
  cbn [fst snd htab set_trace].
  destruct (htab st !! cgroup_id (fr_info fr)); [reflexivity|].
  destruct (_ <? _)%nat; reflexivity.
Qed.

(** A call that returns 0 went through every check and called
    [hsearch (ENTER)] with the name of the c-group, which was not in the
    table. *)
Lemma inner_init_returned_0 e setting index info d st d' st' :
  __docker_info_init e setting index info d st = (0, d', st') ->
  exists tmp,
    task_entry setting index = Some tmp /\
    absent tmp "trace_data_path" = false /\
    absent tmp "cgroup_id" = false /\
    (docker_valid_scheduler_test (task_scheduler tmp d) <? 0) = false /\
    weight_aware (task_scheduler tmp d) && absent tmp "weight" = false /\
    trace_data_ok e (trace_data_path (task_info tmp d)) = true /\
    d' = set_ppid (getpid e) (task_info tmp d) /\
    htab st !! cgroup_id d' = None /\
    st' = mk_state (heap st) (table_after_enter e (htab st) (cgroup_id d') info)
            (check_events (trace_data_path (task_info tmp d)) ++ trace st).
Proof.
  rewrite inner_init_run.
  destruct (task_resolve _ _ _ _) as [[r|r] fr] eqn:E.
  - apply task_resolve_next in E as (tmp & E0 & E1 & E2 & E3 & E4 & E5 & -> & ->).
    cbn [fr_info fr_trace].
    destruct (htab st !! _) eqn:Eh; intros [= <- <-].
    exists tmp. repeat split; auto.
  - apply task_resolve_exception in E. intros [= -> _ _]. lia.
Qed.

(** ** The global settings *)

Lemma absent_some setting key v :
  json_object_object_get_ex setting key = Some v -> absent setting key = false.
Proof. unfold absent. intros ->. reflexivity. Qed.

Lemma absent_none setting key :
  json_object_object_get_ex setting key = None -> absent setting key = true.
Proof. unfold absent. intros ->. reflexivity. Qed.

Ltac global_key setting key :=
  let E := fresh "E" in
  destruct (json_object_object_get_ex setting key) eqn:E;
  [ rewrite ?(key_ret_some _ _ _ E), ?(complain_some _ _ _ _ _ E),
      ?(absent_some _ _ _ E)
  | rewrite ?(key_ret_none _ _ E), ?(complain_error _ _ _ E),
      ?(absent_none _ _ E) ].

Lemma global_mandatory_run setting d t :
  global_mandatory setting (mk_frame d t) =
  match missing_global_keys setting with
  | [] => (Next 0, mk_frame (global_info setting d) t)
  | keys =>
      (Exception (- EINVAL),
       mk_frame (global_info setting d)
         (ev_pr_info ERROR (msg_error_detected (- EINVAL)) :: not_exist_events keys ++ t))
  end.
Proof.
  unfold global_mandatory, global_info, missing_global_keys, mandatory_global_keys.
  do 8 run_step. cbn zeta. cbn [List.filter].
  global_key setting "time"; global_key setting "q_depth";
  global_key setting "nr_thread"; global_key setting "prefix_cgroup_name";
  global_key setting "scheduler"; global_key setting "device";
  global_key setting "trace_replay_path"; reflexivity.
Qed.

Lemma global_optional_run setting d t :
  global_optional setting (mk_frame d t) =
  let name := scheduler d in
  let k := docker_valid_scheduler_test name in
  if k <? 0 then
    (Exception k, mk_frame d (ev_pr_info ERROR (msg_unsupported_scheduler name) :: t))
  else (Next k, mk_frame (global_optional_info setting d) t).
Proof.
  unfold global_optional, global_optional_info. run_step. cbn zeta.
  destruct (_ <? 0); [reflexivity|].
  repeat (run_step; rewrite complain_none). reflexivity.
Qed.

Lemma length_append (a b : string) :
  String.length (a +:+ b) = (String.length a + String.length b)%nat.
Proof.
  induction a as [|c a IH]; [reflexivity|].
  change (String c a +:+ b) with (String c (a +:+ b)).
  cbn [String.length Nat.add]. congruence.
Qed.

Lemma fits_redirected path size : fits (usr_bin +:+ path) size = true -> fits path size = true.
Proof. unfold fits. rewrite length_append, !Nat.ltb_lt. lia. Qed.

Lemma trace_replay_path_resolve_run e ret d t :
  let path := trace_replay_path d in
  path_exists e path = false ->
  malloc_buffer_ok e = true ->
  fits (usr_bin +:+ path) (sizeof_member m_trace_replay_path) = true ->
  trace_replay_path_resolve e ret (mk_frame d t) =
  inr (if path_exists e (usr_bin +:+ path) then
         (Next ret,
          mk_frame (set_trace_replay_path (usr_bin +:+ path) d) (probe_events e path ++ t))
       else
         (Exception ret,
          mk_frame (set_trace_replay_path (usr_bin +:+ path) d)
            (ev_pr_info ERROR (msg_cannot_find (usr_bin +:+ path))
               :: probe_events e path ++ t))).
Proof.
  intros path Ep Em Ef.
  pose proof (fits_redirected _ _ Ef) as Ef'.
  unfold trace_replay_path_resolve, trace_replay_path_redirect, probe_events, lstat.
  cbn [fr_info fr_trace]. fold path. rewrite Ep, Em, Ef, Ef'. cbn [Z.eqb Z.opp Pos.eqb].
  unfold trace_replay_path_check. do 2 run_step. unfold lstat.
  change (trace_replay_path (set_trace_replay_path (usr_bin +:+ path) d))
    with (usr_bin +:+ path).
  destruct (path_exists e (usr_bin +:+ path)); reflexivity.
Qed.

Lemma trace_replay_path_resolve_found e ret d t :
  let path := trace_replay_path d in
  path_exists e path = true ->
  trace_replay_path_resolve e ret (mk_frame d t) =
  inr (Next ret, mk_frame d (probe_events e path ++ t)).
Proof.
  intros path Ep.
  unfold trace_replay_path_resolve, trace_replay_path_redirect, probe_events, lstat.
  cbn [fr_info fr_trace]. fold path. rewrite Ep. cbn [Z.eqb].
  unfold trace_replay_path_check. do 2 run_step. unfold lstat. fold path.
  rewrite Ep. reflexivity.
Qed.

(** What is known when lines 288-302 went through. *)
Lemma trace_replay_path_resolve_next e ret d t r fr1 :
  trace_replay_path_resolve e ret (mk_frame d t) = inr (Next r, fr1) ->
  let path := trace_replay_path d in
  redirect_defined e path = true /\
  path_exists e (probed_path e path) = true /\
  r = ret /\
  fr1 = mk_frame (set_trace_replay_path (probed_path e path) d) (probe_events e path ++ t).
Proof.
  intros E path. unfold probed_path, redirect_defined.
  destruct (path_exists e path) eqn:Ep.
  - rewrite (trace_replay_path_resolve_found _ _ _ _ Ep) in E.
    injection E as <- <-. destruct d; repeat split; auto.
  - revert E.
    unfold trace_replay_path_resolve, trace_replay_path_redirect, lstat.
    cbn [fr_info fr_trace]. fold path. rewrite Ep. cbn [Z.eqb Z.opp Pos.eqb].
    destruct (malloc_buffer_ok e); [|discriminate].
    destruct (fits path _); [|discriminate].
    destruct (fits (usr_bin +:+ path) _); [|discriminate].
    unfold trace_replay_path_check. do 2 run_step. unfold lstat, probe_events.
    change (trace_replay_path (set_trace_replay_path (usr_bin +:+ path) d))
      with (usr_bin +:+ path).
    rewrite Ep.
    destruct (path_exists e (usr_bin +:+ path)); [|discriminate].
    intros [= <- <-]. repeat split; auto.
Qed.

Lemma global_resolve_next e setting t r fr :
  global_resolve e setting (mk_frame zeroed t) = inr (Next r, fr) ->
  global_accepted e setting /\
  fr = mk_frame (global_descriptor e setting) (global_events e setting ++ t).
Proof.
  unfold global_resolve, global_accepted, global_descriptor, global_events.
  rewrite global_mandatory_run.
  destruct (missing_global_keys setting); [|discriminate].
  destruct (trace_replay_path_resolve _ _ _) as [f|[[r1|r1] fr1]] eqn:E;
    [discriminate| |discriminate].
  apply trace_replay_path_resolve_next in E as (Ed & Ep & -> & ->).
  rewrite global_optional_run. cbn zeta.
  change (scheduler (set_trace_replay_path ?p ?d)) with (scheduler d).
  destruct (_ <? 0) eqn:Ek; [discriminate|].
  intros [= <- <-]. repeat split; auto.
Qed.

(** ** A call that returns a block *)

Lemma docker_info_init_returned e setting index st info st' :
  docker_info_init e setting index st = Done (Some info) st' ->
  exists tmp,
    malloc_info_ok e = true /\
    global_accepted e setting /\
    task_entry setting index = Some tmp /\
    task_accepted e tmp (global_descriptor e setting) /\
    info = malloc_addr st /\
    htab st !! cgroup_id (resolved e setting tmp) = None /\
    st' = mk_state (<[info := resolved e setting tmp]> (heap st))
            (table_after_enter e (htab st) (cgroup_id (resolved e setting tmp)) info)
            (check_events (trace_data_path (resolved e setting tmp))
               ++ global_events e setting ++ trace st).
Proof.
  unfold docker_info_init, exception_exit.
  destruct (malloc_info_ok e); [|discriminate].
  cbn [trace set_heap].
  destruct (global_resolve _ _ _) as [f|[[r|r] fr]] eqn:Eg; [discriminate| |discriminate].
  apply global_resolve_next in Eg as (Hg & ->). cbn [fr_info fr_trace].
  destruct (__docker_info_init _ _ _ _ _ _) as [[ret d] st1] eqn:Ei.
  destruct (ret =? 0) eqn:Er; [|discriminate].
  apply Z.eqb_eq in Er as ->. cbn [negb].
  apply inner_init_returned_0 in Ei
    as (tmp & E0 & E1 & E2 & E3 & E4 & E5 & -> & Eh & ->).
  intros [= <- <-]. exists tmp. unfold task_accepted, resolved.
  cbn [heap htab trace set_trace set_heap] in *.
  rewrite insert_insert_eq.
  destruct Hg as (? & ? & ? & ?). repeat split; auto.
Qed.

(** ** The whole call *)

Lemma malloc_addr_fresh st : heap st !! malloc_addr st = None.
Proof. unfold malloc_addr. apply not_elem_of_dom. apply is_fresh. Qed.

(** How [docker_info_init] ends once lines 261-325 went through with the
    frame [fr0]. *)
Lemma docker_info_init_run e setting index st k fr0 :
  malloc_info_ok e = true ->
  global_resolve e setting (mk_frame zeroed (trace st)) = inr (Next k, fr0) ->
  docker_info_init e setting index st =
  match task_resolve e setting index fr0 with
  | (Exception ret, fr) =>
      Done None
        (mk_state (heap st) (htab st)
           (ev_pr_info ERROR (msg_error_detected ret) :: fr_trace fr))
  | (Next _, fr) =>
      match htab st !! cgroup_id (fr_info fr) with
      | Some _ =>
          Done None
            (mk_state (heap st) (htab st)
               (ev_pr_info ERROR (msg_error_detected (- EINVAL))
                  :: ev_pr_info ERROR (msg_duplicate_cgroup (cgroup_id (fr_info fr)))
                  :: fr_trace fr))
      | None =>
          Done (Some (malloc_addr st))
            (mk_state (<[malloc_addr st := finish (fr_info fr)]> (heap st))
               (table_after_enter e (htab st) (cgroup_id (fr_info fr)) (malloc_addr st))
               (fr_trace fr))
      end
  end.
Proof.
  intros Em Eg. unfold docker_info_init, exception_exit. rewrite Em.
  cbn [trace set_heap]. rewrite Eg, inner_init_run.
  cbn [heap htab trace set_trace set_heap]. destruct fr0 as [d0 t0]. cbn [fr_info fr_trace].
  destruct (task_resolve e setting index _) as [[ret|ret] fr] eqn:E.
  - apply task_resolve_next in E as (tmp & _ & _ & _ & _ & _ & _ & -> & ->).
    cbn [fr_info fr_trace].
    destruct (htab st !! _); cbn [negb Z.eqb Z.opp EINVAL set_heap set_trace heap htab trace].
    + rewrite (delete_insert_id _ _ _ (malloc_addr_fresh st)). reflexivity.
    + rewrite insert_insert_eq. reflexivity.
  - apply task_resolve_exception in E.
    destruct (ret =? 0) eqn:Er; [apply Z.eqb_eq in Er; lia|].
    cbn [negb set_heap set_trace heap htab trace].
    rewrite (delete_insert_id _ _ _ (malloc_addr_fresh st)). reflexivity.
Qed.

(** A call that returns NULL leaves the heap and the table as they were. *)
Lemma docker_info_init_null e setting index st st' :
  docker_info_init e setting index st = Done None st' ->
  heap st' = heap st /\ htab st' = htab st.
Proof.
  destruct (malloc_info_ok e) eqn:Em.
  - destruct (global_resolve e setting (mk_frame zeroed (trace st)))
      as [f|[[k|k] fr0]] eqn:Eg.
    + unfold docker_info_init. rewrite Em. cbn [trace set_heap]. rewrite Eg. discriminate.
    + rewrite (docker_info_init_run _ _ _ _ _ _ Em Eg).
      destruct (task_resolve _ _ _ _) as [[ret|ret] fr].
      * destruct (htab st !! _); [|discriminate]. intros [= <-]. split; reflexivity.
      * intros [= <-]. split; reflexivity.
    + unfold docker_info_init, exception_exit. rewrite Em. cbn [trace set_heap]. rewrite Eg.
      intros [= <-]. cbn [heap htab set_heap set_trace]. split; [|reflexivity].
      apply delete_insert_id, malloc_addr_fresh.
  - unfold docker_info_init. rewrite Em. intros [= <-]. split; reflexivity.
Qed.

(** C9: every block that [docker_info_init] returns has [mqid], [semid] and
    [shmid] at -1, the value of a handle that was not allocated, and its
    [next] link at NULL. The call itself only writes the three slots. *)
Theorem returned_block_handles_unallocated e setting index st info st' :
  docker_info_init e setting index st = Done (Some info) st' ->
  exists d,
    heap st' !! info = Some d /\
    mqid d = -1 /\ semid d = -1 /\ shmid d = -1 /\ next d = None.
Proof.
  intros E.
  apply docker_info_init_returned in E as (tmp & _ & _ & _ & _ & _ & _ & ->).
  exists (resolved e setting tmp). cbn [heap].
  rewrite lookup_insert_eq. repeat split; reflexivity.
Qed.

(** X21: a call that returns NULL, for whatever reason, leaves the table as
    it was and the heap without the block it had allocated. A call that
    returns a block has added that block to the heap at a fresh address; its
    [cgroup_id] was not in the table and has been entered when the table had
    room, while a full table is left as it was: the answer of
    [hsearch (ENTER)] is not looked at. *)
Theorem cgroup_id_registered_when_room e setting index st r st' :
  docker_info_init e setting index st = Done r st' ->
  match r with
  | Some info =>
      heap st !! info = None /\
      exists d,
        heap st' = <[info := d]> (heap st) /\
        htab st !! cgroup_id d = None /\
        htab st' =
          (if (size (htab st) <? table_size e)%nat
           then <[cgroup_id d := info]> (htab st)
           else htab st)
  | None => heap st' = heap st /\ htab st' = htab st
  end.
Proof.
  destruct r as [info|]; [|apply docker_info_init_null].
  intros E.
  apply docker_info_init_returned in E as (tmp & _ & _ & _ & _ & -> & Eh & ->).
  split; [apply malloc_addr_fresh|].
  exists (resolved e setting tmp). auto.
Qed.

(** ** The names of the c-groups within one run *)

(** Nothing leaves the table during a run. *)
Lemma htab_kept e setting st st' key info :
  reached_by_calls e setting st st' ->
  htab st !! key = Some info -> htab st' !! key = Some info.
Proof.
  induction 1 as [st|st index r st1 st2 E _ IH]; [auto|].
  intros Ek. apply IH. destruct r as [info'|].
  - apply docker_info_init_returned in E as (tmp & _ & _ & _ & _ & _ & Eh & ->).
    cbn [htab]. unfold table_after_enter.
    destruct (_ <? _)%nat; [|exact Ek].
    rewrite lookup_insert_ne; [exact Ek|].
    intros <-. rewrite Eh in Ek. discriminate.
  - apply docker_info_init_null in E as [_ ->]. exact Ek.
Qed.

(** X20: when a call has returned a block for one entry while the table had
    room, a later call of the same run on an entry with an equal [cgroup_id]
    returns NULL after reporting the duplicate; the table holds the name
    since the first call. The entry of the second call is one that is
    resolved when the table is empty: only a table that was reset lets it
    through. *)
Theorem second_equal_cgroup_id_rejected
    e setting i j st0 info1 st1 d1 st info2 st2 d2 :
  (size (htab st0) < table_size e)%nat ->
  docker_info_init e setting i st0 = Done (Some info1) st1 ->
  heap st1 !! info1 = Some d1 ->
  reached_by_calls e setting st1 st ->
  docker_info_init e setting j (set_htab ∅ st) = Done (Some info2) st2 ->
  heap st2 !! info2 = Some d2 ->
  cgroup_id d2 = cgroup_id d1 ->
  docker_info_init e setting j st =
  Done None
    (mk_state (heap st) (htab st)
       (ev_pr_info ERROR (msg_error_detected (- EINVAL))
          :: ev_pr_info ERROR (msg_duplicate_cgroup (cgroup_id d2))
          :: trace st2)).
Proof.
  intros Hroom E1 Ed1 Hrun E2 Ed2 Eid.
  assert (Ek : htab st !! cgroup_id d2 = Some info1).
  { apply (htab_kept _ _ _ _ _ _ Hrun). rewrite Eid.
    apply docker_info_init_returned in E1 as (tmp & _ & _ & _ & _ & _ & _ & ->).
    cbn [heap htab] in *. rewrite lookup_insert_eq in Ed1.
    injection Ed1 as <-. unfold table_after_enter.
    apply Nat.ltb_lt in Hroom. rewrite Hroom. apply lookup_insert_eq. }
  destruct (malloc_info_ok e) eqn:Em;
    [|unfold docker_info_init in E2; rewrite Em in E2; discriminate].
  destruct (global_resolve e setting (mk_frame zeroed (trace st)))
    as [f|[[k|k] fr0]] eqn:Eg;
    try (unfold docker_info_init, exception_exit in E2; rewrite Em in E2;
         cbn [trace set_heap set_htab] in E2; rewrite Eg in E2; discriminate).
  rewrite (docker_info_init_run _ _ _ _ _ _ Em Eg).
  rewrite (docker_info_init_run e setting j (set_htab ∅ st) k fr0 Em Eg) in E2.
  destruct (task_resolve e setting j fr0) as [[ret|ret] fr]; [|discriminate].
  cbn [htab set_htab heap] in E2. rewrite lookup_empty in E2.
  injection E2 as <- <-. cbn [heap] in Ed2. rewrite lookup_insert_eq in Ed2.
  injection Ed2 as <-. cbn [trace].
  change (cgroup_id (finish (fr_info fr))) with (cgroup_id (fr_info fr)) in *.
  rewrite Ek. reflexivity.
Qed.

(** ** The mandatory global keys *)

(** C8: when the global settings lack one of [time], [q_depth],
    [nr_thread], [prefix_cgroup_name], [scheduler], [device] and
    [trace_replay_path], the call returns NULL, with the heap and the table
    as they were. Once the block is allocated the key is reported as not
    existing, and so is every other missing key, before the call gives up;
    when the allocation itself fails, that is what is reported. *)
Theorem missing_global_key_fails e setting index st key :
  In key [ "time"; "q_depth"; "nr_thread"; "prefix_cgroup_name"; "scheduler";
           "device"; "trace_replay_path" ] ->
  json_object_object_get_ex setting key = None ->
  In (ev_pr_info ERROR (msg_not_exist key))
     (not_exist_events (missing_global_keys setting)) /\
  docker_info_init e setting index st =
  Done None
    (mk_state (heap st) (htab st)
       (if malloc_info_ok e then
          ev_pr_info ERROR (msg_error_detected (- EINVAL))
            :: not_exist_events (missing_global_keys setting) ++ trace st
        else ev_pr_info ERROR (msg_alloc_fail "info") :: trace st)).
Proof.
  intros Hin Ek.
  assert (Hm : In key (missing_global_keys setting)).
  { apply filter_In. split; [exact Hin | apply absent_none, Ek]. }
  split.
  - unfold not_exist_events.
    apply (in_map (fun key => ev_pr_info ERROR (msg_not_exist key))).
    apply in_rev. rewrite rev_involutive. exact Hm.
  - unfold docker_info_init, exception_exit, global_resolve.
    destruct (malloc_info_ok e); [|reflexivity].
    cbn [trace set_heap]. rewrite global_mandatory_run.
    destruct (missing_global_keys setting) as [|k ks]; [destruct Hm|].
    cbn [fr_trace set_trace set_heap heap htab trace].
    rewrite (delete_insert_id _ _ _ (malloc_addr_fresh st)). reflexivity.
Qed.

(** ** The trace data *)

Lemma reported_app st st' new : trace st' = new ++ trace st -> reported st st' = new.
Proof.
  intros E. unfold reported. rewrite E, length_app.
  replace (length new + length (trace st) - length (trace st))%nat
    with (length new) by lia.
  apply take_app_length.
Qed.

Lemma docker_is_synth_type_spec s :
  docker_is_synth_type s = DOCKER_SYNTH <->
  s = "rand_read" \/ s = "rand_write" \/ s = "rand_mixed" \/
  s = "seq_read" \/ s = "seq_write" \/ s = "seq_mixed".
Proof.
  unfold docker_is_synth_type, global_synth_type. cbn [synth_scan].
  repeat
    match goal with
    | |- context [String.eqb s ?t] =>
        destruct (String.eqb_spec s t) as [->|?]; [split; [intuition auto | reflexivity]|]
    end.
  intuition congruence.
Qed.

(** The only call of [lstat] in lines 140-221 is on a [trace_data_path] that
    is not synthetic. *)
Lemma task_resolve_trace e setting index d t fl fr :
  task_resolve e setting index (mk_frame d t) = (fl, fr) ->
  exists new,
    fr_trace fr = new ++ t /\
    forall p, In (ev_lstat p) new ->
      p = trace_data_path (fr_info fr) /\ docker_is_synth_type p = DOCKER_NOT_SYNTH.
Proof.
  rewrite task_resolve_run.
  destruct (task_entry setting index) as [tmp|] eqn:E.
  - rewrite (task_fields_run _ _ _ _ _ E). cbn zeta.
    destruct (_ <? 0);
      [intros [= <- <-]; eexists [_]; split; [reflexivity|];
       intros p [?|[]]; discriminate|].
    destruct (_ && _);
      [intros [= <- <-]; eexists [_]; split; [reflexivity|];
       intros p [?|[]]; discriminate|].
    destruct (absent tmp "trace_data_path");
      [intros [= <- <-]; eexists [_]; split; [reflexivity|];
       intros p [?|[]]; discriminate|].
    destruct (absent tmp "cgroup_id");
      [intros [= <- <-]; eexists [_]; split; [reflexivity|];
       intros p [?|[]]; discriminate|].
    rewrite trace_data_check_run. cbn zeta.
    destruct (docker_is_synth_type _) eqn:Es.
    + intros [= <- <-]. exists []. split; [reflexivity|]. intros p [].
    + destruct (path_exists e _); intros [= <- <-]; eexists [_; _];
        (split; [reflexivity|]);
        intros p [Hp|[Hp|[]]]; try discriminate;
        injection Hp as <-; (split; [reflexivity|exact Es]).
  - rewrite (task_fields_no_entry _ _ _ _ E).
    intros [= <- <-]. eexists [_]. split; [reflexivity|].
    intros p [?|[]]; discriminate.
Qed.

(** C5: [docker_is_synth_type] answers [DOCKER_SYNTH] exactly on the six
    names, compared character by character, and [DOCKER_NOT_SYNTH] on every
    other string; and a call of [__docker_info_init] that ends with a
    synthetic [trace_data_path] in the block has made no call of [lstat]. *)
Theorem synthetic_trace_is_not_probed :
  (forall s,
     docker_is_synth_type s = DOCKER_SYNTH <->
     s = "rand_read" \/ s = "rand_write" \/ s = "rand_mixed" \/
     s = "seq_read" \/ s = "seq_write" \/ s = "seq_mixed") /\
  (forall s,
     docker_is_synth_type s = DOCKER_NOT_SYNTH <->
     ~ (s = "rand_read" \/ s = "rand_write" \/ s = "rand_mixed" \/
        s = "seq_read" \/ s = "seq_write" \/ s = "seq_mixed")) /\
  (forall e setting index info d st ret d' st',
     __docker_info_init e setting index info d st = (ret, d', st') ->
     docker_is_synth_type (trace_data_path d') = DOCKER_SYNTH ->
     forall p, ~ In (ev_lstat p) (reported st st')).
Proof.
  split; [exact docker_is_synth_type_spec|]. split.
  - intros s. rewrite <- docker_is_synth_type_spec.
    destruct (docker_is_synth_type s); split; congruence.
  - intros e setting index info d st ret d' st'. rewrite inner_init_run.
    destruct (task_resolve _ _ _ _) as [fl fr] eqn:E.
    apply task_resolve_trace in E as (new & Et & Hnew).
    assert (Hd : forall p, In (ev_lstat p) new ->
              docker_is_synth_type (trace_data_path (fr_info fr)) = DOCKER_NOT_SYNTH).
    { intros p Hp. destruct (Hnew p Hp) as [<- Es]. exact Es. }
    destruct fl as [r|r].
    + destruct (htab st !! _); intros [= <- <- <-] Es p.
      * rewrite (reported_app _ _ (_ :: new)) by (cbn [trace]; rewrite Et; reflexivity).
        intros [?|Hp]; [discriminate|]. specialize (Hd p Hp). congruence.
      * rewrite (reported_app _ _ new) by exact Et.
        intros Hp. specialize (Hd p Hp). congruence.
    + intros [= <- <- <-] Es p. rewrite (reported_app _ _ new) by exact Et.
      intros Hp. specialize (Hd p Hp). congruence.
Qed.

(** ** The path of the trace replayer *)

(** Lines 288-302 as one step: the path of the block is kept when it exists
    as given; when it does not but the same text under [/usr/bin/] exists, the
    step goes on with the path of the block rewritten to that form; when
    neither exists, the path is reported as not found and control goes to the
    [exception] label, so that NULL is returned. When the path does not
    exist as given, the temporary buffer has to be allocated and the
    rewritten path has to fit the array. *)
Theorem trace_replay_path_probe e ret d t :
  let path := trace_replay_path d in
  let redirected := usr_bin +:+ path in
  (path_exists e path = false ->
   malloc_buffer_ok e = true /\
   fits redirected (sizeof_member m_trace_replay_path) = true) ->
  trace_replay_path_resolve e ret (mk_frame d t) =
  inr
    (if path_exists e path then
       (Next ret, mk_frame d (ev_lstat path :: ev_lstat path :: t))
     else if path_exists e redirected then
       (Next ret,
        mk_frame (set_trace_replay_path redirected d)
          (ev_lstat redirected
             :: ev_pr_info WARNING (msg_redirect path redirected)
             :: ev_lstat path :: t))
     else
       (Exception ret,
        mk_frame (set_trace_replay_path redirected d)
          (ev_pr_info ERROR (msg_cannot_find redirected)
             :: ev_lstat redirected
             :: ev_pr_info WARNING (msg_redirect path redirected)
             :: ev_lstat path :: t))).
Proof.
  intros path redirected Hfit.
  destruct (path_exists e path) eqn:Ep.
  - rewrite (trace_replay_path_resolve_found _ _ _ _ Ep).
    unfold probe_events. fold path. rewrite Ep. reflexivity.
  - destruct (Hfit eq_refl) as [Em Ef].
    rewrite (trace_replay_path_resolve_run _ _ _ _ Ep Em Ef).
    unfold probe_events. fold path redirected. rewrite Ep.
    destruct (path_exists e redirected); reflexivity.
Qed.

Lemma str_value_read m v old :
  str_value (sizeof_member m) v old = str_read (sizeof_member m) v.
Proof.
  unfold str_value, str_read, snprintf_s.
  pose proof (sizeof_member_pos m) as Hpos.
  destruct (sizeof_member m) as [|n]; [congruence|].
  replace (S n - 1)%nat with n by lia. reflexivity.
Qed.

(** What the readers leave alone. *)
Lemma int_pull_strings setting key member d m :
  load_str m (int_pull setting key member d) = load_str m d.
Proof.
  unfold int_pull. destruct (json_object_object_get_ex setting key); [|reflexivity].
  destruct member, m; reflexivity.
Qed.

Lemma str_pull_other setting key member size d m :
  m <> member -> load_str m (str_pull setting key member size d) = load_str m d.
Proof.
  intros Hne. unfold str_pull.
  destruct (json_object_object_get_ex setting key); [|reflexivity].
  destruct member, m; try reflexivity; congruence.
Qed.

Lemma str_pull_read setting key member d v :
  json_object_object_get_ex setting key = Some v ->
  load_str member (str_pull setting key member (sizeof_member member) d) =
  str_read (sizeof_member member) v.
Proof.
  intros E. rewrite (str_pull_some _ _ _ _ _ _ E), load_store_str.
  apply str_value_read.
Qed.

Lemma global_trace_replay_path setting v :
  json_object_object_get_ex setting "trace_replay_path" = Some v ->
  trace_replay_path (global_info setting zeroed) =
  str_read (sizeof_member m_trace_replay_path) v.
Proof.
  intros E. unfold global_info. cbn zeta.
  apply (str_pull_read setting "trace_replay_path" m_trace_replay_path _ _ E).
Qed.

(** The path the block holds after the global settings were read, when the
    task entry does not give one. *)
Lemma task_info_trace_replay_path tmp d :
  absent tmp "trace_replay_path" = true ->
  trace_replay_path (task_info tmp d) = trace_replay_path d.
Proof.
  unfold absent. intros Ea.
  destruct (json_object_object_get_ex tmp "trace_replay_path") eqn:E; [discriminate|].
  unfold task_info, task_overrides_info. cbn zeta.
  change trace_replay_path with (load_str m_trace_replay_path).
  rewrite !str_pull_other by discriminate.
  rewrite int_pull_strings, str_pull_other by discriminate.
  rewrite (str_pull_none _ _ _ _ _ E).
  rewrite !str_pull_other by discriminate.
  rewrite !int_pull_strings. reflexivity.
Qed.

Lemma global_descriptor_trace_replay_path e setting :
  trace_replay_path (global_descriptor e setting) =
  probed_path e (trace_replay_path (global_info setting zeroed)).
Proof.
  unfold global_descriptor, global_optional_info. cbn zeta.
  change trace_replay_path with (load_str m_trace_replay_path) at 1.
  rewrite str_pull_other by discriminate.
  rewrite !int_pull_strings. reflexivity.
Qed.

(** X2: the block returned for an entry that gives no [trace_replay_path]
    holds the path of the global settings as given when that exists, and under
    [/usr/bin/] otherwise; the path it holds exists. *)
Theorem returned_block_trace_replay_path e setting index st info st' d tmp v :
  docker_info_init e setting index st = Done (Some info) st' ->
  heap st' !! info = Some d ->
  task_entry setting index = Some tmp ->
  absent tmp "trace_replay_path" = true ->
  json_object_object_get_ex setting "trace_replay_path" = Some v ->
  let path := str_read (sizeof_member m_trace_replay_path) v in
  trace_replay_path d = (if path_exists e path then path else usr_bin +:+ path) /\
  path_exists e (trace_replay_path d) = true.
Proof.
  intros E Ed Et Ea Ev path.
  apply docker_info_init_returned in E
    as (tmp' & _ & (_ & _ & Hp & _) & Et' & _ & _ & _ & ->).
  rewrite Et in Et'. injection Et' as <-.
  cbn [heap] in Ed. rewrite lookup_insert_eq in Ed. injection Ed as <-.
  change (trace_replay_path (resolved e setting tmp))
    with (trace_replay_path (task_info tmp (global_descriptor e setting))).
  rewrite (task_info_trace_replay_path _ _ Ea), global_descriptor_trace_replay_path.
  rewrite (global_trace_replay_path _ _ Ev) in *. fold path in Hp |- *.
  split; [reflexivity | exact Hp].
Qed.

(** X1: when the path of the global settings exists neither as given nor
    under [/usr/bin/], the call reports it and returns NULL. *)
Theorem trace_replay_path_not_found e setting index st v :
  malloc_info_ok e = true ->
  missing_global_keys setting = [] ->
  json_object_object_get_ex setting "trace_replay_path" = Some v ->
  let path := str_read (sizeof_member m_trace_replay_path) v in
  path_exists e path = false ->
  path_exists e (usr_bin +:+ path) = false ->
  malloc_buffer_ok e = true ->
  fits (usr_bin +:+ path) (sizeof_member m_trace_replay_path) = true ->
  docker_info_init e setting index st =
  Done None
    (mk_state (heap st) (htab st)
       (ev_pr_info ERROR (msg_cannot_find (usr_bin +:+ path))
          :: ev_lstat (usr_bin +:+ path)
          :: ev_pr_info WARNING (msg_redirect path (usr_bin +:+ path))
          :: ev_lstat path :: trace st)).
Proof.
  intros Em Eg Ev path Ep Er Eb Ef.
  unfold docker_info_init, exception_exit, global_resolve. rewrite Em.
  cbn [trace set_heap]. rewrite global_mandatory_run, Eg.
  pose proof (global_trace_replay_path _ _ Ev) as Epath. subst path.
  rewrite <- Epath in *.
  rewrite (trace_replay_path_resolve_run _ _ _ _ Ep Eb Ef), Er.
  unfold probe_events. rewrite Ep.
  cbn [fr_trace set_trace set_heap heap htab trace app].
  rewrite (delete_insert_id _ _ _ (malloc_addr_fresh st)). reflexivity.
Qed.

(** ** Global settings that are accepted *)

Lemma trace_replay_path_resolve_exception e ret d t r fr1 :
  trace_replay_path_resolve e ret (mk_frame d t) = inr (Exception r, fr1) ->
  path_exists e (probed_path e (trace_replay_path d)) = false.
Proof.
  unfold probed_path. destruct (path_exists e (trace_replay_path d)) eqn:Ep.
  - rewrite (trace_replay_path_resolve_found _ _ _ _ Ep). discriminate.
  - unfold trace_replay_path_resolve, trace_replay_path_redirect, lstat.
    cbn [fr_info fr_trace]. rewrite Ep. cbn [Z.eqb Z.opp Pos.eqb].
    destruct (malloc_buffer_ok e); [|discriminate].
    destruct (fits (trace_replay_path d) _); [|discriminate].
    destruct (fits (usr_bin +:+ trace_replay_path d) _); [|discriminate].
    unfold trace_replay_path_check. do 2 run_step. unfold lstat.
    change (trace_replay_path (set_trace_replay_path ?p d)) with p.
    destruct (path_exists e (usr_bin +:+ trace_replay_path d)); [discriminate|reflexivity].
Qed.

(** Lines 261-325 on accepted settings: the block is handed to
    [__docker_info_init]. *)
Lemma global_resolve_accepted e setting t :
  global_accepted e setting ->
  exists k,
    global_resolve e setting (mk_frame zeroed t) =
    inr (Next k, mk_frame (global_descriptor e setting) (global_events e setting ++ t)).
Proof.
  intros (Eg & Ed & Ep & Ek).
  destruct (global_resolve e setting (mk_frame zeroed t)) as [f|[[k|k] fr]] eqn:E.
  - exfalso. revert E. unfold global_resolve.
    rewrite global_mandatory_run, Eg.
    unfold redirect_defined, probed_path in Ed, Ep.
    destruct (path_exists e (trace_replay_path (global_info setting zeroed))) eqn:Ee.
    + rewrite (trace_replay_path_resolve_found _ _ _ _ Ee). destruct (global_optional _ _).
      discriminate.
    + cbn [orb] in Ed. apply andb_prop in Ed as [Em Ef].
      rewrite (trace_replay_path_resolve_run _ _ _ _ Ee Em Ef), Ep.
      destruct (global_optional _ _). discriminate.
  - exists k. apply global_resolve_next in E as (_ & ->). reflexivity.
  - exfalso. revert E. unfold global_resolve.
    rewrite global_mandatory_run, Eg.
    destruct (trace_replay_path_resolve _ _ _) as [f|[[r1|r1] fr1]] eqn:E1;
      [discriminate| |].
    + apply trace_replay_path_resolve_next in E1 as (_ & _ & -> & ->).
      rewrite global_optional_run. cbn zeta.
      change (scheduler (set_trace_replay_path ?p ?d)) with (scheduler d).
      rewrite Ek. discriminate.
    + apply trace_replay_path_resolve_exception in E1. congruence.
Qed.

Lemma global_events_no_error e setting m :
  ~ In (ev_pr_info ERROR m) (global_events e setting).
Proof.
  unfold global_events, probe_events.
  destruct (path_exists e _); cbn [In]; intuition discriminate.
Qed.

Lemma task_scheduler_effective e setting tmp :
  task_scheduler tmp (global_descriptor e setting) = effective_scheduler setting tmp.
Proof.
  unfold task_scheduler, effective_scheduler, task_overrides_info. cbn zeta.
  change scheduler with (load_str m_scheduler).
  rewrite !str_pull_other by discriminate.
  destruct (json_object_object_get_ex tmp "scheduler") as [v|] eqn:Et.
  { apply (str_pull_read _ _ m_scheduler _ _ Et). }
  rewrite (str_pull_none _ _ _ _ _ Et).
  rewrite !str_pull_other by discriminate. rewrite !int_pull_strings.
  unfold global_descriptor, global_optional_info. cbn zeta.
  rewrite !str_pull_other by discriminate. rewrite !int_pull_strings.
  change (load_str m_scheduler (set_trace_replay_path ?p ?d)) with (load_str m_scheduler d).
  unfold global_info. cbn zeta.
  rewrite !str_pull_other by discriminate.
  destruct (json_object_object_get_ex setting "scheduler") as [v|] eqn:Es.
  { apply (str_pull_read _ _ m_scheduler _ _ Es). }
  rewrite (str_pull_none _ _ _ _ _ Es).
  rewrite !str_pull_other by discriminate. rewrite !int_pull_strings. reflexivity.
Qed.

(** ** The weight of a task *)

(** Lines 140-221 for an entry whose scheduler takes a weight. *)
Lemma task_resolve_weight e setting index tmp d t fl fr :
  task_entry setting index = Some tmp ->
  (docker_valid_scheduler_test (task_scheduler tmp d) <? 0) = false ->
  weight_aware (task_scheduler tmp d) = true ->
  task_resolve e setting index (mk_frame d t) = (fl, fr) ->
  exists new,
    fr_trace fr = new ++ t /\
    (In (ev_pr_info ERROR (msg_not_exist "weight")) new <-> absent tmp "weight" = true) /\
    (absent tmp "weight" = true -> fl = Exception (- EINVAL)).
Proof.
  intros E Ek Ew. unfold task_scheduler in Ek, Ew.
  rewrite task_resolve_run, (task_fields_run _ _ _ _ _ E). cbn zeta.
  rewrite Ek, Ew. cbn [andb].
  destruct (absent tmp "weight").
  { intros [= <- <-]. eexists [_]. cbn [In fr_trace]. intuition auto. }
  assert (Hno : forall new,
    (forall ev, In ev new -> ev <> ev_pr_info ERROR (msg_not_exist "weight")) ->
    (In (ev_pr_info ERROR (msg_not_exist "weight")) new <-> false = true) /\
    (false = true -> fl = Exception (- EINVAL))).
  { intros new Hnew. split; [split|]; try discriminate. intros Hin.
    destruct (Hnew _ Hin eq_refl). }
  destruct (absent tmp "trace_data_path").
  { intros [= <- <-]. eexists [_]. split; [reflexivity|]. apply Hno.
    intros ev [<-|[]]. discriminate. }
  destruct (absent tmp "cgroup_id").
  { intros [= <- <-]. eexists [_]. split; [reflexivity|]. apply Hno.
    intros ev [<-|[]]. discriminate. }
  rewrite trace_data_check_run. cbn zeta.
  destruct (docker_is_synth_type _).
  { intros [= <- <-]. exists []. split; [reflexivity|]. apply Hno. intros ev []. }
  destruct (path_exists e _); intros [= <- <-]; eexists [_; _];
    (split; [reflexivity|]); apply Hno; intros ev [<-|[<-|[]]]; discriminate.
Qed.

(** C2, as the code has it: for an entry whose scheduler takes a weight, a
    call that gets as far as the entry reports a missing [weight] exactly
    when the entry itself has no [weight] key, and then returns NULL. What
    the global settings give for [weight] plays no part: a weight given only
    there does not pass the check, a weight given in the entry does. *)
Theorem weight_required_in_task_entry e setting index st tmp :
  malloc_info_ok e = true ->
  global_accepted e setting ->
  task_entry setting index = Some tmp ->
  (docker_valid_scheduler_test (effective_scheduler setting tmp) <? 0) = false ->
  weight_aware (effective_scheduler setting tmp) = true ->
  exists r st',
    docker_info_init e setting index st = Done r st' /\
    (In (ev_pr_info ERROR (msg_not_exist "weight")) (reported st st') <->
     json_object_object_get_ex tmp "weight" = None) /\
    (json_object_object_get_ex tmp "weight" = None -> r = None).
Proof.
  intros Em Hg Et Ek Ew.
  destruct (global_resolve_accepted e setting (trace st) Hg) as [k Eg].
  rewrite (docker_info_init_run _ _ _ _ _ _ Em Eg).
  rewrite <- (task_scheduler_effective e) in Ek, Ew.
  destruct (task_resolve _ _ _ _) as [fl fr] eqn:Er.
  destruct (task_resolve_weight _ _ _ _ _ _ _ _ Et Ek Ew Er) as (new & Etr & Hin & Hfl).
  assert (Ha : absent tmp "weight" = true <-> json_object_object_get_ex tmp "weight" = None).
  { unfold absent. destruct (json_object_object_get_ex tmp "weight"); split; congruence. }
  assert (Hge : forall l,
    In (ev_pr_info ERROR (msg_not_exist "weight")) (l ++ new ++ global_events e setting) <->
    In (ev_pr_info ERROR (msg_not_exist "weight")) l \/
    In (ev_pr_info ERROR (msg_not_exist "weight")) new).
  { intros l. rewrite !in_app_iff.
    pose proof (global_events_no_error e setting (msg_not_exist "weight")). tauto. }
  destruct fl as [ret|ret].
  - destruct (htab st !! _); eexists _, _; (split; [reflexivity|]);
      rewrite <- Ha, <- Hin;
      (split; [|intros Hw; apply Hin in Hw; specialize (Hfl Hw); discriminate]).
    + rewrite (reported_app _ _ ([_; _] ++ new ++ global_events e setting))
        by (cbn [trace]; rewrite Etr, <- !app_assoc; reflexivity).
      rewrite Hge. cbn [In]. intuition discriminate.
    + rewrite (reported_app _ _ ([] ++ new ++ global_events e setting))
        by (cbn [trace]; rewrite Etr, <- !app_assoc; reflexivity).
      rewrite Hge. cbn [In]. tauto.
  - eexists _, _. split; [reflexivity|]. rewrite <- Ha, <- Hin. split; [|reflexivity].
    rewrite (reported_app _ _ ([_] ++ new ++ global_events e setting))
      by (cbn [trace]; rewrite Etr, <- !app_assoc; reflexivity).
    rewrite Hge. cbn [In]. intuition discriminate.
Qed.

(** ** The two keys of every task entry *)

Lemma absent_false setting key :
  absent setting key = false -> exists v, json_object_object_get_ex setting key = Some v.
Proof.
  unfold absent. destruct (json_object_object_get_ex setting key) as [v|]; [eauto|discriminate].
Qed.

Lemma task_info_trace_data_path tmp d v :
  json_object_object_get_ex tmp "trace_data_path" = Some v ->
  trace_data_path (task_info tmp d) = str_read (sizeof_member m_trace_data_path) v.
Proof.
  intros E. unfold task_info. cbn zeta.
  change trace_data_path with (load_str m_trace_data_path).
  rewrite str_pull_other by discriminate.
  apply (str_pull_read _ _ m_trace_data_path _ _ E).
Qed.

Lemma task_info_cgroup_id tmp d v :
  json_object_object_get_ex tmp "cgroup_id" = Some v ->
  cgroup_id (task_info tmp d) = str_read (sizeof_member m_cgroup_id) v.
Proof.
  intros E. unfold task_info. cbn zeta.
  apply (str_pull_read _ _ m_cgroup_id _ _ E).
Qed.

(** C7, as the code has it: a block is returned only for an entry that has
    both [trace_data_path] and [cgroup_id] itself, and the block holds the
    texts of the entry. Nothing is taken over from the global settings for
    these two members. *)
Theorem task_entry_gives_both_keys e setting index st info st' :
  docker_info_init e setting index st = Done (Some info) st' ->
  exists tmp v1 v2 d,
    task_entry setting index = Some tmp /\
    json_object_object_get_ex tmp "trace_data_path" = Some v1 /\
    json_object_object_get_ex tmp "cgroup_id" = Some v2 /\
    heap st' !! info = Some d /\
    trace_data_path d = str_read (sizeof_member m_trace_data_path) v1 /\
    cgroup_id d = str_read (sizeof_member m_cgroup_id) v2.
Proof.
  intros E.
  apply docker_info_init_returned in E
    as (tmp & _ & _ & Et & (E1 & E2 & _) & _ & _ & ->).
  apply absent_false in E1 as [v1 E1]. apply absent_false in E2 as [v2 E2].
  exists tmp, v1, v2, (resolved e setting tmp). cbn [heap].
  rewrite lookup_insert_eq. repeat split; auto.
  - apply (task_info_trace_data_path _ _ _ E1).
  - apply (task_info_cgroup_id _ _ _ E2).
Qed.

(** X3: an entry without one of the two keys is reported, whatever the
    global settings hold, once the call has got past the scheduler and the weight
    of the entry; the call returns NULL. *)
Theorem missing_task_key_reported e setting index st tmp :
  malloc_info_ok e = true ->
  global_accepted e setting ->
  task_entry setting index = Some tmp ->
  (docker_valid_scheduler_test (effective_scheduler setting tmp) <? 0) = false ->
  weight_aware (effective_scheduler setting tmp) && absent tmp "weight" = false ->
  absent tmp "trace_data_path" || absent tmp "cgroup_id" = true ->
  docker_info_init e setting index st =
  Done None
    (mk_state (heap st) (htab st)
       (ev_pr_info ERROR (msg_error_detected (- EINVAL))
          :: ev_pr_info ERROR
               (msg_not_exist
                  (if absent tmp "trace_data_path" then "trace_data_path"
                   else "cgroup_id"))
          :: global_events e setting ++ trace st)).
Proof.
  intros Em Hg Et Ek Ew Ea.
  destruct (global_resolve_accepted e setting (trace st) Hg) as [k Eg].
  rewrite (docker_info_init_run _ _ _ _ _ _ Em Eg).
  rewrite <- (task_scheduler_effective e) in Ek, Ew. unfold task_scheduler in Ek, Ew.
  rewrite task_resolve_run, (task_fields_run _ _ _ _ _ Et). cbn zeta.
  rewrite Ek, Ew.
  destruct (absent tmp "trace_data_path"); [reflexivity|].
  cbn [orb] in Ea. rewrite Ea. reflexivity.
Qed.

(** ** The file of the trace data *)

(** C6: for an entry that passes lines 140-209 with a [trace_data_path]
    that is not one of the synthetic names, the call reports the trace data
    file as not existing exactly when [lstat] finds nothing at the path, and
    then returns NULL; when the file is there, the check goes on to the next
    statement and leaves the block as it is. *)
Theorem trace_data_file_checked e setting index st tmp v :
  malloc_info_ok e = true ->
  global_accepted e setting ->
  task_entry setting index = Some tmp ->
  (docker_valid_scheduler_test (effective_scheduler setting tmp) <? 0) = false ->
  weight_aware (effective_scheduler setting tmp) && absent tmp "weight" = false ->
  json_object_object_get_ex tmp "trace_data_path" = Some v ->
  absent tmp "cgroup_id" = false ->
  let path := str_read (sizeof_member m_trace_data_path) v in
  docker_is_synth_type path = DOCKER_NOT_SYNTH ->
  exists r st',
    docker_info_init e setting index st = Done r st' /\
    (In (ev_pr_info ERROR (msg_trace_data_not_exist path)) (reported st st') <->
     path_exists e path = false) /\
    (path_exists e path = false -> r = None) /\
    (path_exists e path = true ->
     forall ret d t,
       trace_data_path d = path ->
       trace_data_check e ret (mk_frame d t) =
       (Next 0,
        mk_frame d (ev_pr_info INFO (msg_trace_data_exist path) :: ev_lstat path :: t))).
Proof.
  intros Em Hg Et Ek Ew Ev Ec path Es.
  destruct (global_resolve_accepted e setting (trace st) Hg) as [k Eg].
  rewrite (docker_info_init_run _ _ _ _ _ _ Em Eg).
  rewrite <- (task_scheduler_effective e) in Ek, Ew. unfold task_scheduler in Ek, Ew.
  rewrite task_resolve_run, (task_fields_run _ _ _ _ _ Et). cbn zeta.
  rewrite Ek, Ew, (absent_some _ _ _ Ev), Ec, trace_data_check_run. cbn zeta.
  rewrite (task_info_trace_data_path _ _ _ Ev). fold path. rewrite Es.
  pose proof (global_events_no_error e setting (msg_trace_data_not_exist path)) as Hge.
  destruct (path_exists e path) eqn:Ep; cbv beta iota; cbn [fr_info fr_trace].
  - match goal with |- context [htab st !! ?c] => destruct (htab st !! c) end;
      eexists _, _; (split; [reflexivity|]); (split; [|split; [discriminate|]]).
    + rewrite (reported_app _ _ ([_; _; _] ++ ev_lstat path :: global_events e setting))
        by reflexivity.
      rewrite in_app_iff. cbn [In]. intuition discriminate.
    + intros _ ret d t Ed. rewrite trace_data_check_run. cbn zeta.
      rewrite Ed, Es, Ep. reflexivity.
    + rewrite (reported_app _ _ ([_] ++ ev_lstat path :: global_events e setting))
        by reflexivity.
      rewrite in_app_iff. cbn [In]. intuition discriminate.
    + intros _ ret d t Ed. rewrite trace_data_check_run. cbn zeta.
      rewrite Ed, Es, Ep. reflexivity.
  - eexists _, _. split; [reflexivity|]. split; [|split; [reflexivity|discriminate]].
    rewrite (reported_app _ _ ([_; _] ++ ev_lstat path :: global_events e setting))
      by reflexivity.
    rewrite in_app_iff. cbn [In]. intuition auto.
Qed.

(** ** The key [trace_repeat] *)

Lemma int_pull_trace_repeat setting key member d :
  member <> m_trace_repeat ->
  trace_repeat (int_pull setting key member d) = trace_repeat d.
Proof.
  intros Hne. unfold int_pull.
  destruct (json_object_object_get_ex setting key); [|reflexivity].
  destruct member; try reflexivity; congruence.
Qed.

Lemma str_pull_trace_repeat setting key member size d :
  trace_repeat (str_pull setting key member size d) = trace_repeat d.
Proof.
  unfold str_pull. destruct (json_object_object_get_ex setting key); [|reflexivity].
  destruct member; reflexivity.
Qed.

Lemma int_pull_weight_other setting key member d :
  member <> m_weight -> weight (int_pull setting key member d) = weight d.
Proof.
  intros Hne. unfold int_pull.
  destruct (json_object_object_get_ex setting key); [|reflexivity].
  destruct member; try reflexivity; congruence.
Qed.

Lemma str_pull_weight setting key member size d :
  weight (str_pull setting key member size d) = weight d.
Proof.
  unfold str_pull. destruct (json_object_object_get_ex setting key); [|reflexivity].
  destruct member; reflexivity.
Qed.

Lemma resolved_trace_repeat e setting tmp : trace_repeat (resolved e setting tmp) = 1.
Proof.
  unfold resolved, task_info, task_overrides_info, global_descriptor,
    global_optional_info, global_info.
  cbn zeta.
  change (trace_repeat (finish (set_ppid ?p ?d))) with (trace_repeat d).
  repeat first
    [ rewrite str_pull_trace_repeat
    | rewrite int_pull_trace_repeat by discriminate
    | progress change (trace_repeat (set_trace_replay_path ?p ?d)) with (trace_repeat d) ].
  reflexivity.
Qed.

Lemma resolved_weight e setting tmp v :
  json_object_object_get_ex tmp "trace_repeat" = Some v ->
  json_object_object_get_ex tmp "weight" = None ->
  weight (resolved e setting tmp) = to_uint (json_object_get_int v).
Proof.
  intros Er Ew. unfold resolved, task_info, task_overrides_info. cbn zeta.
  change (weight (finish (set_ppid ?p ?d))) with (weight d).
  rewrite !str_pull_weight, (int_pull_none _ _ _ _ Ew), !str_pull_weight.
  rewrite !int_pull_weight_other by discriminate.
  unfold int_pull at 1. rewrite Er. reflexivity.
Qed.

(** C3, what the code does instead: the member [trace_repeat] of every
    returned block is 1, whatever the configuration says, and the value of a
    [trace_repeat] key ends up in the member [weight] of the block when the
    entry has that key and no [weight] key. *)
Theorem trace_repeat_key_lands_in_weight e setting index st info st' d :
  docker_info_init e setting index st = Done (Some info) st' ->
  heap st' !! info = Some d ->
  trace_repeat d = 1 /\
  forall tmp v,
    task_entry setting index = Some tmp ->
    json_object_object_get_ex tmp "trace_repeat" = Some v ->
    json_object_object_get_ex tmp "weight" = None ->
    weight d = to_uint (json_object_get_int v).
Proof.
  intros E Ed.
  apply docker_info_init_returned in E as (tmp & _ & _ & Et & _ & _ & _ & ->).
  cbn [heap] in Ed. rewrite lookup_insert_eq in Ed. injection Ed as <-.
  split; [apply resolved_trace_repeat|].
  intros tmp' v Et' Er Ew. rewrite Et in Et'. injection Et' as <-.
  apply (resolved_weight _ _ _ _ Er Ew).
Qed.

(** ** How a call ends on global settings that are accepted *)

(** The entry decides. *)
Lemma docker_info_init_accepted e setting index st :
  malloc_info_ok e = true ->
  global_accepted e setting ->
  docker_info_init e setting index st =
  match task_resolve e setting index
          (mk_frame (global_descriptor e setting) (global_events e setting ++ trace st)) with
  | (Exception ret, fr) =>
      Done None
        (mk_state (heap st) (htab st)
           (ev_pr_info ERROR (msg_error_detected ret) :: fr_trace fr))
  | (Next _, fr) =>
      match htab st !! cgroup_id (fr_info fr) with
      | Some _ =>
          Done None
            (mk_state (heap st) (htab st)
               (ev_pr_info ERROR (msg_error_detected (- EINVAL))
                  :: ev_pr_info ERROR (msg_duplicate_cgroup (cgroup_id (fr_info fr)))
                  :: fr_trace fr))
      | None =>
          Done (Some (malloc_addr st))
            (mk_state (<[malloc_addr st := finish (fr_info fr)]> (heap st))
               (table_after_enter e (htab st) (cgroup_id (fr_info fr)) (malloc_addr st))
               (fr_trace fr))
      end
  end.
Proof.
  intros Em Hg. destruct (global_resolve_accepted e setting (trace st) Hg) as [k Eg].
  exact (docker_info_init_run _ _ _ _ _ _ Em Eg).
Qed.

(** Lines 140-221 on an entry that passes every check. *)
Lemma task_resolve_accepted e setting index tmp d t :
  task_entry setting index = Some tmp ->
  task_accepted e tmp d ->
  task_resolve e setting index (mk_frame d t) =
  (Next 0,
   mk_frame (set_ppid (getpid e) (task_info tmp d))
     (check_events (trace_data_path (task_info tmp d)) ++ t)).
Proof.
  intros Et (E1 & E2 & Ek & Ew & Eo). unfold task_scheduler in Ek, Ew.
  rewrite task_resolve_run, (task_fields_run _ _ _ _ _ Et). cbn zeta.
  rewrite Ek, Ew, E1, E2, trace_data_check_run. cbn zeta.
  unfold trace_data_ok in Eo. unfold check_events.
  destruct (docker_is_synth_type _); [reflexivity|].
  rewrite Eo. reflexivity.
Qed.

(** X4: when the global settings are accepted and [task_option] has no
    entry [index] (the key is missing, or the index is outside the array),
    the call reports it, prints the error number -EINVAL and returns NULL;
    the heap and the table are as before. *)
Theorem task_entry_not_found e setting index st :
  malloc_info_ok e = true ->
  global_accepted e setting ->
  task_entry setting index = None ->
  docker_info_init e setting index st =
  Done None
    (mk_state (heap st) (htab st)
       (ev_pr_info ERROR (msg_error_detected (- EINVAL))
          :: ev_pr_info ERROR
               (if absent setting "task_option" then msg_not_exist "task_option"
                else msg_out_of_bound index)
          :: global_events e setting ++ trace st)).
Proof.
  intros Em Hg Et. rewrite (docker_info_init_accepted _ _ _ _ Em Hg).
  rewrite task_resolve_run, (task_fields_no_entry _ _ _ _ Et). reflexivity.
Qed.

(** X6: an entry whose scheduler, its own or the inherited one, is not in
    the table of schedulers is reported as unsupported; the call prints the
    answer of the test as error number and returns NULL. *)
Theorem task_scheduler_unsupported e setting index st tmp :
  malloc_info_ok e = true ->
  global_accepted e setting ->
  task_entry setting index = Some tmp ->
  let name := effective_scheduler setting tmp in
  (docker_valid_scheduler_test name <? 0) = true ->
  docker_info_init e setting index st =
  Done None
    (mk_state (heap st) (htab st)
       (ev_pr_info ERROR (msg_error_detected (docker_valid_scheduler_test name))
          :: ev_pr_info ERROR (msg_unsupported_scheduler name)
          :: global_events e setting ++ trace st)).
Proof.
  intros Em Hg Et name Ek. rewrite (docker_info_init_accepted _ _ _ _ Em Hg).
  subst name. rewrite <- (task_scheduler_effective e) in *. unfold task_scheduler in *.
  rewrite task_resolve_run, (task_fields_run _ _ _ _ _ Et). cbn zeta.
  rewrite Ek. reflexivity.
Qed.

(** ** The scheduler of the global settings *)

Lemma global_info_scheduler setting v :
  json_object_object_get_ex setting "scheduler" = Some v ->
  scheduler (global_info setting zeroed) = str_read (sizeof_member m_scheduler) v.
Proof.
  intros E. unfold global_info. cbn zeta.
  change scheduler with (load_str m_scheduler).
  rewrite !str_pull_other by discriminate.
  apply (str_pull_read setting "scheduler" m_scheduler _ _ E).
Qed.

(** Lines 288-302 on a path that is found, as given or under [/usr/bin/]. *)
Lemma trace_replay_path_resolve_accepted e ret d t :
  redirect_defined e (trace_replay_path d) = true ->
  path_exists e (probed_path e (trace_replay_path d)) = true ->
  trace_replay_path_resolve e ret (mk_frame d t) =
  inr (Next ret,
       mk_frame (set_trace_replay_path (probed_path e (trace_replay_path d)) d)
         (probe_events e (trace_replay_path d) ++ t)).
Proof.
  unfold redirect_defined, probed_path. intros Ed Ep.
  destruct (path_exists e (trace_replay_path d)) eqn:Ee.
  - rewrite (trace_replay_path_resolve_found _ _ _ _ Ee). destruct d; reflexivity.
  - cbn [orb] in Ed. apply andb_prop in Ed as [Em Ef].
    rewrite (trace_replay_path_resolve_run _ _ _ _ Ee Em Ef), Ep. reflexivity.
Qed.

(** X5: when the scheduler of the global settings is not in the table of
    schedulers, the call reports it as unsupported and returns NULL for
    every index, whatever scheduler the task entry names; no error number is
    printed. *)
Theorem global_scheduler_unsupported e setting index st v :
  malloc_info_ok e = true ->
  missing_global_keys setting = [] ->
  redirect_defined e (trace_replay_path (global_info setting zeroed)) = true ->
  path_exists e (probed_path e (trace_replay_path (global_info setting zeroed))) = true ->
  json_object_object_get_ex setting "scheduler" = Some v ->
  let name := str_read (sizeof_member m_scheduler) v in
  (docker_valid_scheduler_test name <? 0) = true ->
  docker_info_init e setting index st =
  Done None
    (mk_state (heap st) (htab st)
       (ev_pr_info ERROR (msg_unsupported_scheduler name)
          :: global_events e setting ++ trace st)).
Proof.
  intros Em Eg Ed Ep Ev name Ek. subst name.
  rewrite <- (global_info_scheduler _ _ Ev) in *.
  unfold docker_info_init, exception_exit, global_resolve. rewrite Em.
  cbn [trace set_heap]. rewrite global_mandatory_run, Eg.
  rewrite (trace_replay_path_resolve_accepted _ _ _ _ Ed Ep).
  rewrite global_optional_run. cbn zeta.
  change (scheduler (set_trace_replay_path ?p ?d)) with (scheduler d).
  rewrite Ek. cbn [fr_trace set_trace set_heap heap htab trace].
  rewrite (delete_insert_id _ _ _ (malloc_addr_fresh st)). reflexivity.
Qed.

(** ** The two ways a call does not return *)

Lemma missing_global_keys_nil setting key :
  missing_global_keys setting = [] ->
  In key mandatory_global_keys ->
  exists v, json_object_object_get_ex setting key = Some v.
Proof.
  intros Eg Hin. apply absent_false.
  destruct (absent setting key) eqn:Ea; [|reflexivity].
  assert (Hm : In key (missing_global_keys setting))
    by (apply filter_In; split; assumption).
  rewrite Eg in Hm. destruct Hm.
Qed.

(** Lines 288-296 stop the program. *)
Lemma trace_replay_path_resolve_fault e ret d t f :
  trace_replay_path_resolve e ret (mk_frame d t) = inl f <->
  path_exists e (trace_replay_path d) = false /\
  if malloc_buffer_ok e then
    fits (usr_bin +:+ trace_replay_path d) (sizeof_member m_trace_replay_path) = false /\
    f = Undefined
  else f = Abort.
Proof.
  unfold trace_replay_path_resolve, trace_replay_path_redirect, lstat.
  cbn [fr_info fr_trace].
  destruct (path_exists e (trace_replay_path d)) eqn:Ep; cbn [Z.eqb Z.opp Pos.eqb].
  { split; [discriminate | intros [[=] _]]. }
  destruct (malloc_buffer_ok e).
  - destruct (fits (usr_bin +:+ trace_replay_path d) _) eqn:Ef.
    + rewrite (fits_redirected _ _ Ef).
      split; [discriminate | intros (_ & [=] & _)].
    + destruct (fits (trace_replay_path d) _);
        (split; [intros [= <-]; auto | intros (_ & _ & ->); reflexivity]).
  - split; [intros [= <-]; auto | intros (_ & ->); reflexivity].
Qed.

(** X7: a call of [docker_info_init] gets to a fault in two cases only, both
    at the redirection of a [trace_replay_path] of the global settings that
    is not found as given (block allocated, the seven mandatory global keys
    present): to the assertion of line 290, which fails when the temporary
    buffer is not allocated, and to a [sprintf] of lines 291-292 that writes
    past the end of its array, when the buffer is allocated and [/usr/bin/]
    with the path behind it does not fit. What the C program does after
    such a write is not defined, and nothing is said about it. *)
Theorem docker_info_init_fault_iff e setting index st f :
  docker_info_init e setting index st = Fault f <->
  malloc_info_ok e = true /\
  missing_global_keys setting = [] /\
  exists v,
    json_object_object_get_ex setting "trace_replay_path" = Some v /\
    let path := str_read (sizeof_member m_trace_replay_path) v in
    path_exists e path = false /\
    if malloc_buffer_ok e then
      fits (usr_bin +:+ path) (sizeof_member m_trace_replay_path) = false /\
      f = Undefined
    else f = Abort.
Proof.
  split.
  - destruct (malloc_info_ok e) eqn:Em;
      [|unfold docker_info_init; rewrite Em; discriminate].
    destruct (global_resolve e setting (mk_frame zeroed (trace st)))
      as [f'|[[k|k] fr0]] eqn:Eg.
    + unfold docker_info_init. rewrite Em. cbn [trace set_heap]. rewrite Eg.
      intros [= ->]. revert Eg. unfold global_resolve. rewrite global_mandatory_run.
      destruct (missing_global_keys setting) eqn:Ek; [|discriminate].
      destruct (missing_global_keys_nil setting "trace_replay_path" Ek) as [v Ev];
        [cbn; tauto|].
      destruct (trace_replay_path_resolve _ _ _) as [f'|[[r1|r1] fr1]] eqn:E1;
        [|destruct (global_optional _ _); discriminate|discriminate].
      intros [= ->]. apply trace_replay_path_resolve_fault in E1.
      rewrite (global_trace_replay_path _ _ Ev) in E1.
      split; [reflexivity|]. split; [reflexivity|]. exists v. split; [exact Ev|exact E1].
    + rewrite (docker_info_init_run _ _ _ _ _ _ Em Eg).
      destruct (task_resolve _ _ _ _) as [[ret|ret] fr]; [|discriminate].
      destruct (htab st !! _); discriminate.
    + unfold docker_info_init, exception_exit. rewrite Em. cbn [trace set_heap].
      rewrite Eg. discriminate.
  - intros (Em & Eg & v & Ev & E1).
    rewrite <- (global_trace_replay_path _ _ Ev) in E1. cbn zeta in E1.
    unfold docker_info_init, global_resolve. rewrite Em. cbn [trace set_heap].
    rewrite global_mandatory_run, Eg.
    apply (trace_replay_path_resolve_fault e 0 (global_info setting zeroed) (trace st)) in E1.
    rewrite E1. reflexivity.
Qed.

(** ** When a block is returned *)

(** X8: [docker_info_init] returns a block exactly when the block is
    allocated, the global settings pass lines 261-325, [task_option] has the
    entry, the entry passes the checks of [__docker_info_init] and its
    [cgroup_id] is not in the table. The block is then at a fresh address
    and holds the values resolved for the entry; its [cgroup_id] is entered
    in the table when the table has room, and a full table stays as it was.
    The trace has the events of the probes in front. *)
Theorem block_returned_iff e setting index st info st' :
  docker_info_init e setting index st = Done (Some info) st' <->
  exists tmp,
    malloc_info_ok e = true /\
    global_accepted e setting /\
    task_entry setting index = Some tmp /\
    task_accepted e tmp (global_descriptor e setting) /\
    info = malloc_addr st /\
    htab st !! cgroup_id (resolved e setting tmp) = None /\
    st' = mk_state (<[info := resolved e setting tmp]> (heap st))
            (table_after_enter e (htab st) (cgroup_id (resolved e setting tmp)) info)
            (check_events (trace_data_path (resolved e setting tmp))
               ++ global_events e setting ++ trace st).
Proof.
  split; [apply docker_info_init_returned|].
  intros (tmp & Em & Hg & Et & Ha & -> & Eh & ->).
  rewrite (docker_info_init_accepted _ _ _ _ Em Hg).
  rewrite (task_resolve_accepted _ _ _ _ _ _ Et Ha). cbn [fr_info fr_trace].
  change (cgroup_id (set_ppid (getpid e) (task_info tmp (global_descriptor e setting))))
    with (cgroup_id (resolved e setting tmp)).
  rewrite Eh. reflexivity.
Qed.

(** X15: the outcome of a call depends on the heap and the table only
    through the question whether the [cgroup_id] of the entry is in the
    table, and whether the table has room. An entry for which some call has
    returned the block [d] is resolved to the same [d] in every state whose
    table does not hold [cgroup_id d], where the name is entered if the
    table has room; it is refused as a duplicate in every state whose table
    holds the name. *)
Theorem resolution_depends_on_table_only e setting index st1 info st1' d st2 :
  docker_info_init e setting index st1 = Done (Some info) st1' ->
  heap st1' !! info = Some d ->
  docker_info_init e setting index st2 =
  match htab st2 !! cgroup_id d with
  | Some _ =>
      Done None
        (mk_state (heap st2) (htab st2)
           (ev_pr_info ERROR (msg_error_detected (- EINVAL))
              :: ev_pr_info ERROR (msg_duplicate_cgroup (cgroup_id d))
              :: check_events (trace_data_path d) ++ global_events e setting ++ trace st2))
  | None =>
      Done (Some (malloc_addr st2))
        (mk_state (<[malloc_addr st2 := d]> (heap st2))
           (table_after_enter e (htab st2) (cgroup_id d) (malloc_addr st2))
           (check_events (trace_data_path d) ++ global_events e setting ++ trace st2))
  end.
Proof.
  intros E Ed.
  apply docker_info_init_returned in E as (tmp & Em & Hg & Et & Ha & _ & _ & ->).
  cbn [heap] in Ed. rewrite lookup_insert_eq in Ed. injection Ed as <-.
  rewrite (docker_info_init_accepted _ _ _ _ Em Hg).
  rewrite (task_resolve_accepted _ _ _ _ _ _ Et Ha). cbn [fr_info fr_trace].
  reflexivity.
Qed.

(** ** The values of the block that is returned *)

Lemma load_uint_int_pull setting key m d :
  load_uint m (int_pull setting key m d) =
  match json_object_object_get_ex setting key with
  | Some v => to_uint (json_object_get_int v)
  | None => load_uint m d
  end.
Proof.
  unfold int_pull. destruct (json_object_object_get_ex setting key); [|reflexivity].
  destruct m; reflexivity.
Qed.

Lemma load_uint_int_pull_other setting key member d m :
  m <> member -> load_uint m (int_pull setting key member d) = load_uint m d.
Proof.
  intros Hne. unfold int_pull.
  destruct (json_object_object_get_ex setting key); [|reflexivity].
  destruct member, m; try reflexivity; congruence.
Qed.

Lemma load_uint_str_pull setting key member size d m :
  load_uint m (str_pull setting key member size d) = load_uint m d.
Proof.
  unfold str_pull. destruct (json_object_object_get_ex setting key); [|reflexivity].
  destruct member, m; reflexivity.
Qed.

(** Through the readers that write other members. *)
Ltac uint_walk :=
  repeat first
    [ rewrite load_uint_str_pull
    | rewrite load_uint_int_pull_other by discriminate
    | progress change (load_uint ?m (set_trace_replay_path ?p ?d)) with (load_uint m d) ].

Ltac str_walk :=
  repeat first
    [ rewrite int_pull_strings
    | rewrite str_pull_other by discriminate
    | progress change (load_str ?m (set_trace_replay_path ?p ?d)) with (load_str m d) ].

(** An integer member with one key, after both tiers were read. *)
Lemma resolved_uint e setting tmp m key :
  In (m, key)
     [ (m_time, "time"); (m_q_depth, "q_depth"); (m_nr_thread, "nr_thread");
       (m_wss, "wss"); (m_utilization, "utilization"); (m_iosize, "iosize") ] ->
  load_uint m (task_info tmp (global_descriptor e setting)) =
  uint_of (tiered setting tmp key).
Proof.
  intros Hin. unfold tiered, uint_of.
  unfold task_info, task_overrides_info, global_descriptor, global_optional_info,
    global_info.
  cbn zeta.
  cbn [In] in Hin.
  repeat (destruct Hin as [[= <- <-]|Hin];
    [ uint_walk; rewrite load_uint_int_pull;
      match goal with
      | |- context [json_object_object_get_ex tmp ?k] =>
          destruct (json_object_object_get_ex tmp k); [reflexivity|]
      end;
      uint_walk; rewrite load_uint_int_pull;
      match goal with
      | |- context [json_object_object_get_ex setting ?k] =>
          destruct (json_object_object_get_ex setting k); [reflexivity|]
      end;
      uint_walk; reflexivity
    | ]).
  destruct Hin.
Qed.

(** A character array that both tiers may fill. *)
Lemma resolved_text e setting tmp m key :
  In (m, key)
     [ (m_prefix_cgroup_name, "prefix_cgroup_name"); (m_scheduler, "scheduler");
       (m_device, "device") ] ->
  load_str m (task_info tmp (global_descriptor e setting)) =
  text_of (sizeof_member m) (tiered setting tmp key).
Proof.
  intros Hin. unfold tiered, text_of.
  unfold task_info, task_overrides_info, global_descriptor, global_optional_info,
    global_info.
  cbn zeta.
  cbn [In] in Hin.
  repeat (destruct Hin as [[= <- <-]|Hin];
    [ str_walk;
      match goal with
      | |- context [json_object_object_get_ex tmp ?k] =>
          let E := fresh "E" in
          destruct (json_object_object_get_ex tmp k) eqn:E;
          [ apply (str_pull_read _ _ _ _ _ E) | rewrite (str_pull_none _ _ _ _ _ E) ]
      end;
      str_walk;
      match goal with
      | |- context [json_object_object_get_ex setting ?k] =>
          let E := fresh "E" in
          destruct (json_object_object_get_ex setting k) eqn:E;
          [ apply (str_pull_read _ _ _ _ _ E) | rewrite (str_pull_none _ _ _ _ _ E) ]
      end;
      str_walk; reflexivity
    | ]).
  destruct Hin.
Qed.

(** X9: in the block that is returned, each of [time], [q_depth],
    [nr_thread], [wss], [utilization], [iosize], [prefix_cgroup_name],
    [scheduler] and [device] holds the value of its key in the task entry
    when the entry has the key, and the value of the global settings
    otherwise; a key that neither tier has leaves the member zero. *)
Theorem task_values_override_global e setting index st info st' d tmp :
  docker_info_init e setting index st = Done (Some info) st' ->
  heap st' !! info = Some d ->
  task_entry setting index = Some tmp ->
  time d = uint_of (tiered setting tmp "time") /\
  q_depth d = uint_of (tiered setting tmp "q_depth") /\
  nr_thread d = uint_of (tiered setting tmp "nr_thread") /\
  wss d = uint_of (tiered setting tmp "wss") /\
  utilization d = uint_of (tiered setting tmp "utilization") /\
  iosize d = uint_of (tiered setting tmp "iosize") /\
  prefix_cgroup_name d =
    text_of (sizeof_member m_prefix_cgroup_name) (tiered setting tmp "prefix_cgroup_name") /\
  scheduler d = text_of (sizeof_member m_scheduler) (tiered setting tmp "scheduler") /\
  device d = text_of (sizeof_member m_device) (tiered setting tmp "device").
Proof.
  intros E Ed Et.
  apply docker_info_init_returned in E as (tmp' & _ & _ & Et' & _ & _ & _ & ->).
  rewrite Et in Et'. injection Et' as <-.
  cbn [heap] in Ed. rewrite lookup_insert_eq in Ed. injection Ed as <-.
  pose proof (resolved_uint e setting tmp) as Hu.
  pose proof (resolved_text e setting tmp) as Hs.
  repeat split.
  - apply (Hu m_time). cbn; tauto.
  - apply (Hu m_q_depth). cbn; tauto.
  - apply (Hu m_nr_thread). cbn; tauto.
  - apply (Hu m_wss). cbn; tauto.
  - apply (Hu m_utilization). cbn; tauto.
  - apply (Hu m_iosize). cbn; tauto.
  - apply (Hs m_prefix_cgroup_name). cbn; tauto.
  - apply (Hs m_scheduler). cbn; tauto.
  - apply (Hs m_device). cbn; tauto.
Qed.

(** X10: the weight of the block that is returned is the weight of the task
    entry whenever the entry has the key [weight]. When neither tier has the
    key [trace_repeat], an entry without [weight] leaves the weight of the
    global settings in the block, or zero when these have none. *)
Theorem returned_block_weight e setting index st info st' d tmp :
  docker_info_init e setting index st = Done (Some info) st' ->
  heap st' !! info = Some d ->
  task_entry setting index = Some tmp ->
  (forall v, json_object_object_get_ex tmp "weight" = Some v ->
             weight d = to_uint (json_object_get_int v)) /\
  (json_object_object_get_ex tmp "trace_repeat" = None ->
   json_object_object_get_ex setting "trace_repeat" = None ->
   weight d = uint_of (tiered setting tmp "weight")).
Proof.
  intros E Ed Et.
  apply docker_info_init_returned in E as (tmp' & _ & _ & Et' & _ & _ & _ & ->).
  rewrite Et in Et'. injection Et' as <-.
  cbn [heap] in Ed. rewrite lookup_insert_eq in Ed. injection Ed as <-.
  change (weight (resolved e setting tmp))
    with (load_uint m_weight (task_info tmp (global_descriptor e setting))).
  unfold task_info. cbn zeta. uint_walk. rewrite load_uint_int_pull.
  split.
  { intros v Ev. rewrite Ev. reflexivity. }
  intros Er Eg. unfold tiered, uint_of.
  destruct (json_object_object_get_ex tmp "weight") eqn:Ew; [reflexivity|].
  unfold task_overrides_info. cbn zeta. uint_walk.
  rewrite load_uint_int_pull, Er, load_uint_int_pull, Ew.
  unfold global_descriptor, global_optional_info. cbn zeta. uint_walk.
  rewrite load_uint_int_pull, Eg, load_uint_int_pull.
  destruct (json_object_object_get_ex setting "weight"); [reflexivity|].
  unfold global_info. cbn zeta. uint_walk. reflexivity.
Qed.

(** X11: a [trace_replay_path] given in the task entry is what the returned
    block holds, cut to the array and stripped like every text; unlike the
    path of the global settings it is neither probed nor redirected. *)
Theorem task_trace_replay_path_as_given e setting index st info st' d tmp v :
  docker_info_init e setting index st = Done (Some info) st' ->
  heap st' !! info = Some d ->
  task_entry setting index = Some tmp ->
  json_object_object_get_ex tmp "trace_replay_path" = Some v ->
  trace_replay_path d = str_read (sizeof_member m_trace_replay_path) v.
Proof.
  intros E Ed Et Ev.
  apply docker_info_init_returned in E as (tmp' & _ & _ & Et' & _ & _ & _ & ->).
  rewrite Et in Et'. injection Et' as <-.
  cbn [heap] in Ed. rewrite lookup_insert_eq in Ed. injection Ed as <-.
  change (trace_replay_path (resolved e setting tmp))
    with (load_str m_trace_replay_path (task_info tmp (global_descriptor e setting))).
  unfold task_info, task_overrides_info. cbn zeta. str_walk.
  apply (str_pull_read _ _ _ _ _ Ev).
Qed.

(** X17: what every returned block has passed: its scheduler is in the
    table of schedulers, its trace data is a synthetic name or a file that
    exists, it carries the process id of the caller, and its [cgroup_id] was
    not in the table when the call was made. *)
Theorem returned_block_checked e setting index st info st' d :
  docker_info_init e setting index st = Done (Some info) st' ->
  heap st' !! info = Some d ->
  (docker_valid_scheduler_test (scheduler d) <? 0) = false /\
  (docker_is_synth_type (trace_data_path d) = DOCKER_SYNTH \/
   path_exists e (trace_data_path d) = true) /\
  ppid d = getpid e /\
  htab st !! cgroup_id d = None.
Proof.
  intros E Ed.
  apply docker_info_init_returned in E
    as (tmp & _ & _ & _ & (_ & _ & Ek & _ & Eo) & _ & Eh & ->).
  cbn [heap htab] in *. rewrite lookup_insert_eq in Ed. injection Ed as <-.
  repeat split.
  - revert Ek. unfold task_scheduler.
    change (scheduler (resolved e setting tmp))
      with (load_str m_scheduler (task_info tmp (global_descriptor e setting))).
    change scheduler with (load_str m_scheduler).
    unfold task_info. cbn zeta. str_walk. auto.
  - revert Eo. unfold trace_data_ok.
    change (trace_data_path (resolved e setting tmp))
      with (trace_data_path (task_info tmp (global_descriptor e setting))).
    destruct (docker_is_synth_type _); auto.
  - exact Eh.
Qed.

(** ** What a call prints and probes *)

Lemma probe_events_lstat e path p :
  In (ev_lstat p) (probe_events e path) -> p = path \/ p = usr_bin +:+ path.
Proof.
  unfold probe_events. destruct (path_exists e path); cbn [In].
  - intros [[= <-]|[[= <-]|[]]]; auto.
  - intros [[= <-]|[[=]|[[= <-]|[]]]]; auto.
Qed.

Lemma not_exist_events_lstat keys p : ~ In (ev_lstat p) (not_exist_events keys).
Proof.
  unfold not_exist_events. intros Hin. apply in_map_iff in Hin as (k & [=] & _).
Qed.

(** Lines 261-325 when they end at the [exception] label: an error was
    printed last, and nothing but the path of the trace replayer was
    probed. *)
Lemma global_resolve_exception e setting t r fr :
  global_resolve e setting (mk_frame zeroed t) = inr (Exception r, fr) ->
  exists m new,
    fr_trace fr = ev_pr_info ERROR m :: new ++ t /\
    forall p, In (ev_lstat p) new ->
      missing_global_keys setting = [] /\ In (ev_lstat p) (global_events e setting).
Proof.
  unfold global_resolve, global_events. rewrite global_mandatory_run.
  destruct (missing_global_keys setting) as [|k ks] eqn:Ek.
  - destruct (trace_replay_path_resolve _ _ _) as [f|[[r1|r1] fr1]] eqn:E1;
      [discriminate| |].
    + apply trace_replay_path_resolve_next in E1 as (_ & _ & -> & ->).
      rewrite global_optional_run. cbn zeta.
      destruct (_ <? 0); [|discriminate].
      intros [= <- <-]. eexists _, _. split; [reflexivity|]. auto.
    + intros [= <- <-].
      set (path := trace_replay_path (global_info setting zeroed)) in *.
      destruct (path_exists e path) eqn:Ep.
      { rewrite (trace_replay_path_resolve_found _ _ _ _ Ep) in E1. discriminate. }
      destruct (malloc_buffer_ok e) eqn:Em.
      2:{ rewrite (proj2 (trace_replay_path_resolve_fault e 0 _ t Abort)) in E1;
            [discriminate|]. fold path. rewrite Em. auto. }
      destruct (fits (usr_bin +:+ path) (sizeof_member m_trace_replay_path)) eqn:Ef.
      2:{ rewrite (proj2 (trace_replay_path_resolve_fault e 0 _ t Undefined)) in E1;
            [discriminate|]. fold path. rewrite Em. auto. }
      rewrite (trace_replay_path_resolve_run _ _ _ _ Ep Em Ef) in E1. fold path in E1.
      destruct (path_exists e (usr_bin +:+ path)); [discriminate|].
      injection E1 as <- <-. eexists _, _. split; [reflexivity|]. auto.
  - intros [= <- <-]. eexists _, _. split; [reflexivity|].
    intros p Hp. destruct (not_exist_events_lstat _ _ Hp).
Qed.

(** Lines 140-221: an error is printed exactly on the way to the
    [exception] label, and nothing but the trace data of the entry is
    probed. *)
Lemma task_resolve_events e setting index d t fl fr :
  task_resolve e setting index (mk_frame d t) = (fl, fr) ->
  exists new,
    fr_trace fr = new ++ t /\
    match fl with
    | Next _ => forall m, ~ In (ev_pr_info ERROR m) new
    | Exception _ => exists m, In (ev_pr_info ERROR m) new
    end /\
    forall p, In (ev_lstat p) new ->
      exists tmp v,
        task_entry setting index = Some tmp /\
        json_object_object_get_ex tmp "trace_data_path" = Some v /\
        p = str_read (sizeof_member m_trace_data_path) v /\
        docker_is_synth_type p = DOCKER_NOT_SYNTH.
Proof.
  rewrite task_resolve_run.
  assert (Hone : forall ret d1 m,
    (Exception ret, mk_frame d1 (ev_pr_info ERROR m :: t)) = (fl, fr) ->
    exists new,
      fr_trace fr = new ++ t /\
      match fl with
      | Next _ => forall m, ~ In (ev_pr_info ERROR m) new
      | Exception _ => exists m, In (ev_pr_info ERROR m) new
      end /\
      forall p, In (ev_lstat p) new ->
        exists tmp v,
          task_entry setting index = Some tmp /\
          json_object_object_get_ex tmp "trace_data_path" = Some v /\
          p = str_read (sizeof_member m_trace_data_path) v /\
          docker_is_synth_type p = DOCKER_NOT_SYNTH).
  { intros ret d1 m [= <- <-]. exists [ev_pr_info ERROR m]. split; [reflexivity|].
    split; [exists m; left; reflexivity|]. intros p [[=]|[]]. }
  destruct (task_entry setting index) as [tmp|] eqn:Et.
  2:{ rewrite (task_fields_no_entry _ _ _ _ Et). apply Hone. }
  rewrite (task_fields_run _ _ _ _ _ Et). cbn zeta.
  destruct (_ <? 0); [apply Hone|].
  destruct (_ && _); [apply Hone|].
  destruct (absent tmp "trace_data_path") eqn:E1; [apply Hone|].
  destruct (absent tmp "cgroup_id"); [apply Hone|].
  apply absent_false in E1 as [v Ev].
  rewrite trace_data_check_run. cbn zeta.
  rewrite (task_info_trace_data_path _ _ _ Ev).
  destruct (docker_is_synth_type _) eqn:Es.
  { intros [= <- <-]. exists []. split; [reflexivity|]. split; [intros m []|intros p []]. }
  destruct (path_exists e _); intros [= <- <-]; eexists [_; _];
    (split; [reflexivity|]); cbn [In]; (split; [|intros p [[=]|[[= <-]|[]]]; exists tmp, v; auto]).
  - intros m [[=]|[[=]|[]]].
  - eexists. left. reflexivity.
Qed.

(** A whole call. *)
Lemma docker_info_init_events e setting index st r st' :
  docker_info_init e setting index st = Done r st' ->
  exists new,
    trace st' = new ++ trace st /\
    (r = None <-> exists m, In (ev_pr_info ERROR m) new) /\
    forall p, In (ev_lstat p) new ->
      (missing_global_keys setting = [] /\ In (ev_lstat p) (global_events e setting)) \/
      exists tmp v,
        task_entry setting index = Some tmp /\
        json_object_object_get_ex tmp "trace_data_path" = Some v /\
        p = str_read (sizeof_member m_trace_data_path) v /\
        docker_is_synth_type p = DOCKER_NOT_SYNTH.
Proof.
  destruct (malloc_info_ok e) eqn:Em.
  2:{ unfold docker_info_init. rewrite Em. intros [= <- <-]. eexists [_].
      split; [reflexivity|]. split; [|intros p [[=]|[]]].
      split; [eexists; left; reflexivity | reflexivity]. }
  destruct (global_resolve e setting (mk_frame zeroed (trace st)))
    as [f|[[k|k] fr0]] eqn:Eg.
  - unfold docker_info_init. rewrite Em. cbn [trace set_heap]. rewrite Eg. discriminate.
  - rewrite (docker_info_init_run _ _ _ _ _ _ Em Eg).
    apply global_resolve_next in Eg as ((Ek & _) & ->).
    destruct (task_resolve _ _ _ _) as [fl fr] eqn:Er.
    apply task_resolve_events in Er as (new & Etr & Herr & Hls).
    assert (Hge : forall l m,
      In (ev_pr_info ERROR m) (l ++ new ++ global_events e setting) <->
      In (ev_pr_info ERROR m) l \/ In (ev_pr_info ERROR m) new).
    { intros l m. rewrite !in_app_iff.
      pose proof (global_events_no_error e setting m). tauto. }
    assert (Hlg : forall l p,
      (forall q, ~ In (ev_lstat q) l) ->
      In (ev_lstat p) (l ++ new ++ global_events e setting) ->
      (missing_global_keys setting = [] /\ In (ev_lstat p) (global_events e setting)) \/
      exists tmp v,
        task_entry setting index = Some tmp /\
        json_object_object_get_ex tmp "trace_data_path" = Some v /\
        p = str_read (sizeof_member m_trace_data_path) v /\
        docker_is_synth_type p = DOCKER_NOT_SYNTH).
    { intros l p Hl. rewrite !in_app_iff. intros [Hp|[Hp|Hp]]; auto.
      destruct (Hl _ Hp). }
    destruct fl as [ret|ret].
    + destruct (htab st !! _); intros [= <- <-].
      * exists ([ev_pr_info ERROR (msg_error_detected (- EINVAL));
                 ev_pr_info ERROR (msg_duplicate_cgroup (cgroup_id (fr_info fr)))]
                ++ new ++ global_events e setting).
        cbn [trace]. rewrite Etr, <- !app_assoc. split; [reflexivity|].
        split; [|intros p; apply Hlg; intros q [[=]|[[=]|[]]]].
        split; [|reflexivity]. intros _. eexists. apply Hge. left. left. reflexivity.
      * exists ([] ++ new ++ global_events e setting).
        cbn [trace]. rewrite Etr, <- !app_assoc. split; [reflexivity|].
        split; [|intros p; apply Hlg; intros q []].
        split; [discriminate|]. intros [m Hm]. apply Hge in Hm as [[]|Hm].
        destruct (Herr _ Hm).
    + intros [= <- <-].
      exists ([ev_pr_info ERROR (msg_error_detected ret)] ++ new ++ global_events e setting).
      cbn [trace]. rewrite Etr, <- !app_assoc. split; [reflexivity|].
      split; [|intros p; apply Hlg; intros q [[=]|[]]].
      split; [|reflexivity]. intros _. eexists. apply Hge. left. left. reflexivity.
  - unfold docker_info_init, exception_exit. rewrite Em. cbn [trace set_heap]. rewrite Eg.
    intros [= <- <-].
    apply global_resolve_exception in Eg as (m & new & Etr & Hls).
    exists (ev_pr_info ERROR m :: new). cbn [trace set_trace set_heap]. rewrite Etr.
    split; [reflexivity|].
    split; [split; [intros _; exists m; left; reflexivity | reflexivity]|].
    intros p [[=]|Hp]. left. auto.
Qed.

(** X16: a call that returns has returned NULL exactly when it has printed
    an error: no failure is silent, and a call that returns a block prints
    no error at all. *)
Theorem null_iff_error_reported e setting index st r st' :
  docker_info_init e setting index st = Done r st' ->
  (r = None <-> exists m, In (ev_pr_info ERROR m) (reported st st')).
Proof.
  intros E. apply docker_info_init_events in E as (new & Etr & Herr & _).
  rewrite (reported_app _ _ _ Etr). exact Herr.
Qed.

(** X12: the only paths a call hands to [lstat] are the
    [trace_replay_path] of the global settings, the same path under
    [/usr/bin/], and the [trace_data_path] of the task entry when that is
    not a synthetic name. *)
Theorem only_configured_paths_probed e setting index st r st' p :
  docker_info_init e setting index st = Done r st' ->
  In (ev_lstat p) (reported st st') ->
  (exists v,
     json_object_object_get_ex setting "trace_replay_path" = Some v /\
     let path := str_read (sizeof_member m_trace_replay_path) v in
     p = path \/ p = usr_bin +:+ path) \/
  (exists tmp v,
     task_entry setting index = Some tmp /\
     json_object_object_get_ex tmp "trace_data_path" = Some v /\
     p = str_read (sizeof_member m_trace_data_path) v /\
     docker_is_synth_type p = DOCKER_NOT_SYNTH).
Proof.
  intros E. apply docker_info_init_events in E as (new & Etr & _ & Hls).
  rewrite (reported_app _ _ _ Etr). intros Hp.
  destruct (Hls _ Hp) as [[Ek Hg]|Ht]; [left|right; exact Ht].
  destruct (missing_global_keys_nil setting "trace_replay_path" Ek) as [v Ev];
    [cbn; tauto|].
  exists v. split; [exact Ev|]. cbn zeta.
  unfold global_events in Hg. rewrite (global_trace_replay_path _ _ Ev) in Hg.
  apply probe_events_lstat in Hg. exact Hg.
Qed.

(** ** The texts stay inside their arrays *)

Lemma length_str_take n s : (String.length (str_take n s) <= n)%nat.
Proof.
  revert s. induction n as [|n IH]; intros [|c s]; cbn [str_take String.length]; try lia.
  specialize (IH s). lia.
Qed.

(** What [snprintf] and a strip that does not lengthen leave in an array. *)
Lemma str_read_fits m v :
  (forall s c, (String.length (generic_strip_string s c) <= String.length s)%nat) ->
  fits (str_read (sizeof_member m) v) (sizeof_member m) = true.
Proof.
  intros Hs. unfold fits, str_read. apply Nat.ltb_lt.
  pose proof (sizeof_member_pos m).
  pose proof (Hs (str_take (sizeof_member m - 1) (json_object_get_string v)) dquote).
  pose proof (length_str_take (sizeof_member m - 1) (json_object_get_string v)).
  lia.
Qed.

Lemma strings_fit_int_pull setting key member d :
  strings_fit d -> strings_fit (int_pull setting key member d).
Proof. intros Hd m. rewrite int_pull_strings. apply Hd. Qed.

Lemma strings_fit_str_pull setting key member d :
  (forall s c, (String.length (generic_strip_string s c) <= String.length s)%nat) ->
  strings_fit d -> strings_fit (str_pull setting key member (sizeof_member member) d).
Proof.
  intros Hs Hd m.
  destruct (json_object_object_get_ex setting key) as [v|] eqn:E.
  2:{ rewrite (str_pull_none _ _ _ _ _ E). apply Hd. }
  destruct m, member;
    try (rewrite str_pull_other by discriminate; apply Hd);
    rewrite (str_pull_read _ _ _ _ _ E); apply str_read_fits, Hs.
Qed.

Lemma strings_fit_zeroed : strings_fit zeroed.
Proof.
  intros m. unfold fits. apply Nat.ltb_lt.
  pose proof (sizeof_member_pos m). destruct m; cbn [load_str zeroed]; cbn; lia.
Qed.

Lemma strings_fit_global_descriptor e setting :
  (forall s c, (String.length (generic_strip_string s c) <= String.length s)%nat) ->
  redirect_defined e (trace_replay_path (global_info setting zeroed)) = true ->
  strings_fit (global_descriptor e setting).
Proof.
  intros Hs Ed.
  assert (Hg : strings_fit (global_info setting zeroed)).
  { unfold global_info. cbn zeta.
    repeat first [ apply strings_fit_str_pull; [exact Hs|] | apply strings_fit_int_pull ].
    intros m. destruct m; exact (strings_fit_zeroed _). }
  unfold global_descriptor, global_optional_info. cbn zeta.
  repeat first [ apply strings_fit_str_pull; [exact Hs|] | apply strings_fit_int_pull ].
  intros m. specialize (Hg m).
  destruct m; try exact Hg.
  cbn [load_str] in *.
  change (trace_replay_path (set_trace_replay_path ?p ?d)) with p.
  revert Ed. unfold redirect_defined, probed_path.
  destruct (path_exists e _); [intros _; exact Hg|].
  cbn [orb]. intros Ed. apply andb_prop in Ed as [_ Ef]. exact Ef.
Qed.

(** X13: when [generic_strip_string] never makes a text longer, every
    character array of a returned block holds a text that ends inside the
    array: what is read from the configuration is cut to the size of the
    array, and the path under [/usr/bin/] is only returned when it fits. *)
Theorem returned_block_strings_fit e setting index st info st' d :
  (forall s c, (String.length (generic_strip_string s c) <= String.length s)%nat) ->
  docker_info_init e setting index st = Done (Some info) st' ->
  heap st' !! info = Some d ->
  forall m, (String.length (load_str m d) < sizeof_member m)%nat.
Proof.
  intros Hs E Ed.
  apply docker_info_init_returned in E as (tmp & _ & (_ & Er & _) & _ & _ & _ & _ & ->).
  cbn [heap] in Ed. rewrite lookup_insert_eq in Ed. injection Ed as <-.
  assert (Hfit : strings_fit (task_info tmp (global_descriptor e setting))).
  { pose proof (strings_fit_global_descriptor e setting Hs Er) as Hg.
    revert Hg. generalize (global_descriptor e setting). intros g Hg.
    unfold task_info, task_overrides_info. cbn zeta.
    repeat first [ apply strings_fit_str_pull; [exact Hs|] | apply strings_fit_int_pull ].
    exact Hg. }
  intros m. apply Nat.ltb_lt. specialize (Hfit m). destruct m; exact Hfit.
Qed.

(** ** The table and the blocks of a run *)

(** The table does not shrink. *)
Lemma htab_size_step e setting index st r st' :
  docker_info_init e setting index st = Done r st' ->
  (size (htab st) <= size (htab st'))%nat.
Proof.
  intros E. destruct r as [info|].
  - apply docker_info_init_returned in E as (tmp & _ & _ & _ & _ & _ & Eh & ->).
    cbn [htab]. unfold table_after_enter. destruct (_ <? _)%nat; [|lia].
    rewrite (map_size_insert_None _ _ _ Eh). lia.
  - apply docker_info_init_null in E as [_ ->]. lia.
Qed.

Lemma htab_size_run e setting st st' :
  reached_by_calls e setting st st' -> (size (htab st) <= size (htab st'))%nat.
Proof.
  induction 1 as [st|st index r st1 st2 E _ IH]; [lia|].
  pose proof (htab_size_step _ _ _ _ _ _ E). lia.
Qed.

(** Every entry of the table leads to a live block with the key as
    [cgroup_id]: one call. *)
Lemma table_leads_to_blocks_step e setting index st r st' :
  docker_info_init e setting index st = Done r st' ->
  (forall key info, htab st !! key = Some info ->
     exists d, heap st !! info = Some d /\ cgroup_id d = key) ->
  forall key info, htab st' !! key = Some info ->
    exists d, heap st' !! info = Some d /\ cgroup_id d = key.
Proof.
  intros E Ht. destruct r as [info|].
  - apply docker_info_init_returned in E as (tmp & _ & _ & _ & _ & -> & Eh & ->).
    pose proof (malloc_addr_fresh st) as Ef.
    cbn [heap htab]. unfold table_after_enter. intros k l Ek.
    assert (Hold : htab st !! k = Some l ->
                   exists d, <[malloc_addr st := resolved e setting tmp]> (heap st) !! l
                             = Some d /\ cgroup_id d = k).
    { intros Ek'. destruct (Ht _ _ Ek') as (d' & El & Ed'). exists d'. split; [|exact Ed'].
      rewrite lookup_insert_ne; [exact El|]. intros <-. rewrite Ef in El. discriminate. }
    destruct (_ <? _)%nat; [|auto].
    apply lookup_insert_Some in Ek as [[<- <-]|[Hne Ek]]; [|auto].
    eexists. split; [apply lookup_insert_eq | reflexivity].
  - apply docker_info_init_null in E as [Eh Et]. rewrite Eh, Et. exact Ht.
Qed.

(** The whole index, over one call made while the table has room. *)
Lemma table_tracks_blocks_step e setting index st r st' :
  docker_info_init e setting index st = Done r st' ->
  (size (htab st) < table_size e)%nat ->
  table_tracks_blocks st -> table_tracks_blocks st'.
Proof.
  intros E Hroom [Hh Ht].
  split; [|exact (table_leads_to_blocks_step _ _ _ _ _ _ E Ht)].
  destruct r as [info|].
  - apply docker_info_init_returned in E as (tmp & _ & _ & _ & _ & -> & Eh & ->).
    cbn [heap htab]. unfold table_after_enter.
    apply Nat.ltb_lt in Hroom. rewrite Hroom.
    intros l d' El. apply lookup_insert_Some in El as [[<- <-]|[Hne El]].
    + apply lookup_insert_eq.
    + rewrite lookup_insert_ne; [apply Hh, El|].
      intros Eq. apply Hh in El. rewrite <- Eq, Eh in El. discriminate.
  - apply docker_info_init_null in E as [Eh Et]. rewrite Eh, Et. exact Hh.
Qed.

(** X14: over any number of calls every entry of the table leads to a live
    block with the key as [cgroup_id]. As long as the table has not filled
    up, it is the index of the live blocks: every block is found in the table
    under its [cgroup_id], and so no two blocks have the same [cgroup_id].
    Both hold at the start of a run, when there is no block and the table is
    empty. *)
Theorem table_tracks_blocks_kept e setting st st' :
  table_tracks_blocks st ->
  reached_by_calls e setting st st' ->
  (forall key info, htab st' !! key = Some info ->
     exists d, heap st' !! info = Some d /\ cgroup_id d = key) /\
  ((size (htab st') < table_size e)%nat ->
   table_tracks_blocks st' /\
   forall info1 info2 d1 d2,
     heap st' !! info1 = Some d1 -> heap st' !! info2 = Some d2 ->
     cgroup_id d1 = cgroup_id d2 -> info1 = info2).
Proof.
  intros Hst Hrun. split.
  - destruct Hst as [_ Ht].
    induction Hrun as [st|st index r st1 st2 E _ IH]; [exact Ht|].
    apply IH. exact (table_leads_to_blocks_step _ _ _ _ _ _ E Ht).
  - intros Hroom.
    assert (Hst' : table_tracks_blocks st').
    { induction Hrun as [st|st index r st1 st2 E Hrest IH]; [exact Hst|].
      apply IH; [|exact Hroom].
      apply (table_tracks_blocks_step _ _ _ _ _ _ E); [|exact Hst].
      pose proof (htab_size_step _ _ _ _ _ _ E).
      pose proof (htab_size_run _ _ _ _ Hrest). lia. }
    split; [exact Hst'|].
    intros info1 info2 d1 d2 E1 E2 Eq. destruct Hst' as [Hh _].
    apply Hh in E1, E2. rewrite Eq in E1. congruence.
Qed.

(** X18: a run loses nothing: a block that is live stays at its address
    with the values it has, and a name that is in the table stays there with
    the block it leads to, whatever calls follow. *)
Theorem run_keeps_blocks_and_names e setting st st' :
  reached_by_calls e setting st st' ->
  (forall info d, heap st !! info = Some d -> heap st' !! info = Some d) /\
  (forall key info, htab st !! key = Some info -> htab st' !! key = Some info).
Proof.
  intros Hrun. split; [|intros key info; apply (htab_kept _ _ _ _ _ _ Hrun)].
  induction Hrun as [st|st index r st1 st2 E _ IH]; [auto|].
  intros info d Ed. apply IH. destruct r as [info'|].
  - apply docker_info_init_returned in E as (tmp & _ & _ & _ & _ & -> & _ & ->).
    cbn [heap]. rewrite lookup_insert_ne; [exact Ed|].
    intros <-. rewrite malloc_addr_fresh in Ed. discriminate.
  - apply docker_info_init_null in E as [-> _]. exact Ed.
Qed.

(** ** The conversion of an integer *)

(** X19: [docker_info_int_value_set] on a key that is present returns 0 and
    prints nothing, whatever the flag. The member holds the value converted
    to [unsigned int]: a value that is not negative as it is, a negative
    value [n] as [2^32 + n]. No other member of the block changes: the other
    integers, the texts, [ppid], the three handles and [next] are as
    before. *)
Theorem int_value_set_converts setting key member is_print fr v :
  json_object_object_get_ex setting key = Some v ->
  - 2 ^ 31 <= json_object_get_int v < 2 ^ 31 ->
  exists d,
    docker_info_int_value_set setting key member is_print fr =
      (Next 0, mk_frame d (fr_trace fr)) /\
    load_uint member d =
      (if json_object_get_int v <? 0 then 2 ^ 32 + json_object_get_int v
       else json_object_get_int v) /\
    (forall m, m <> member -> load_uint m d = load_uint m (fr_info fr)) /\
    (forall m, load_str m d = load_str m (fr_info fr)) /\
    ppid d = ppid (fr_info fr) /\
    mqid d = mqid (fr_info fr) /\
    semid d = semid (fr_info fr) /\
    shmid d = shmid (fr_info fr) /\
    next d = next (fr_info fr).
Proof.
  intros E Hr. exists (int_pull setting key member (fr_info fr)).
  rewrite int_value_set_run, (key_ret_some _ _ _ E), (complain_some _ _ _ _ _ E).
  split; [reflexivity|]. split; [|split; [|split]].
  - rewrite load_uint_int_pull, E. unfold to_uint.
    destruct (json_object_get_int v <? 0) eqn:En.
    + apply Z.ltb_lt in En.
      rewrite <- (Z.mod_add _ 1) by lia. rewrite Z.mod_small; lia.
    + apply Z.ltb_ge in En. rewrite Z.mod_small; lia.
  - intros m Hne. apply load_uint_int_pull_other, Hne.
  - intros m. apply int_pull_strings.
  - unfold int_pull. rewrite E. destruct member; repeat split; reflexivity.
Qed.

End Properties.

(** * The driver on the sample configuration *)

Module Examples.

Import Sample.

#[local] Existing Instance json.
#[local] Existing Instance header.

Example twins_first_returned :
  docker_info_init machine twins 0 start = Done (Some 1%positive) after_first.
Proof. vm_compute. reflexivity. Qed.

Example twins_second_returned :
  docker_info_init machine twins 1 after_first = Done (Some 2%positive) after_second.
Proof. vm_compute. reflexivity. Qed.

Example twins_third_alone_returned :
  docker_info_init machine twins 2 (set_htab ∅ after_second) =
  Done (Some 3%positive) third_alone.
Proof. vm_compute. reflexivity. Qed.

(** In the run, it is refused. *)
Example twins_third_refused :
  let o := docker_info_init machine twins 2 after_second in
  o = Done None (state_after o) /\
  heap (state_after o) = heap after_second /\
  htab (state_after o) = htab after_second /\
  reported after_second (state_after o) =
  [ ev_pr_info ERROR (msg_error_detected (-22));
    ev_pr_info ERROR (msg_duplicate_cgroup "t0");
    ev_lstat "/usr/bin/trace-replay";
    ev_pr_info WARNING (msg_redirect "trace-replay" "/usr/bin/trace-replay");
    ev_lstat "trace-replay" ].
Proof. vm_compute. repeat split. Qed.

(** The run on [twins]: entry 0, entry 1, then entry 2 with the name of
    entry 0. The table of the sample machine holds 16 entries. *)
Lemma second_equal_cgroup_id_rejected_witness :
  ((size (htab start) < table_size machine)%nat /\
   docker_info_init machine twins 0 start = Done (Some 1%positive) after_first /\
   heap after_first !! 1%positive = Some (block_at after_first 1%positive) /\
   @reached_by_calls json header machine twins after_first after_second /\
   docker_info_init machine twins 2 (set_htab ∅ after_second) =
     Done (Some 3%positive) third_alone /\
   heap third_alone !! 3%positive = Some (block_at third_alone 3%positive) /\
   cgroup_id (block_at third_alone 3%positive) =
     cgroup_id (block_at after_first 1%positive)) /\
  docker_info_init machine twins 2 after_second =
  Done None
    (mk_state (heap after_second) (htab after_second)
       (ev_pr_info ERROR (msg_error_detected (- EINVAL))
          :: ev_pr_info ERROR
               (msg_duplicate_cgroup (cgroup_id (block_at third_alone 3%positive)))
          :: trace third_alone)).
Proof.
  assert (h0 : (size (htab start) < table_size machine)%nat)
    by (vm_compute; lia).
  assert (h1 : docker_info_init machine twins 0 start = Done (Some 1%positive) after_first)
    by (vm_compute; reflexivity).
  assert (h2 : heap after_first !! 1%positive = Some (block_at after_first 1%positive))
    by (vm_compute; reflexivity).
  assert (h3 : @reached_by_calls json header machine twins after_first after_second).
  { apply (@one_more_call json header machine twins after_first 1 (Some 2%positive) after_second);
      [vm_compute; reflexivity | apply no_call]. }
  assert (h4 : docker_info_init machine twins 2 (set_htab ∅ after_second) =
               Done (Some 3%positive) third_alone)
    by (vm_compute; reflexivity).
  assert (h5 : heap third_alone !! 3%positive = Some (block_at third_alone 3%positive))
    by (vm_compute; reflexivity).
  assert (h6 : cgroup_id (block_at third_alone 3%positive) =
               cgroup_id (block_at after_first 1%positive))
    by (vm_compute; reflexivity).
  exact (conj (conj h0 (conj h1 (conj h2 (conj h3 (conj h4 (conj h5 h6))))))
           (second_equal_cgroup_id_rejected machine twins 0 2 start 1%positive
              after_first _ after_second 3%positive third_alone _ h0 h1 h2 h3 h4 h5 h6)).
Defined.

(** ** A table that is full *)

(** C1 fails on the code: the table of [small_table] is full after the
    first three entries of [crowded]. The fourth entry, [t3], is returned
    without its name getting into the table, and the fifth, [t3] again, is
    returned as well: no duplicate is reported, and two live blocks have the
    same [cgroup_id]. *)
Example equal_cgroup_id_accepted_in_full_table :
  let o4 := docker_info_init small_table crowded 3 full_table in
  let o5 := docker_info_init small_table crowded 4 beyond_full in
  size (htab full_table) = table_size small_table /\
  o4 = Done (Some 4%positive) beyond_full /\
  o5 = Done (Some 5%positive) (state_after o5) /\
  cgroup_id (block_at (state_after o5) 4%positive) = "t3" /\
  cgroup_id (block_at (state_after o5) 5%positive) = "t3" /\
  reported beyond_full (state_after o5) =
  [ ev_lstat "/usr/bin/trace-replay";
    ev_pr_info WARNING (msg_redirect "trace-replay" "/usr/bin/trace-replay");
    ev_lstat "trace-replay" ].
Proof. vm_compute. repeat split. Qed.

(** C10 fails on the code: on the full table the call for the fourth entry
    of [crowded] returns a block, and the table is as before, without the
    name [t3] of the block. *)
Example returned_block_not_entered_in_full_table :
  let o := docker_info_init small_table crowded 3 full_table in
  size (htab full_table) = table_size small_table /\
  o = Done (Some 4%positive) (state_after o) /\
  cgroup_id (block_at (state_after o) 4%positive) = "t3" /\
  htab (state_after o) !! "t3" = None /\
  htab (state_after o) = htab full_table.
Proof. vm_compute. repeat split. Qed.

(** With room in the table the same run ends as the claims say: the machine
    with 16 entries refuses the fifth entry. *)
Example equal_cgroup_id_rejected_with_room :
  let run i st := state_after (docker_info_init machine crowded i st) in
  let st4 := run 3 (run 2 (run 1 (run 0 start))) in
  htab st4 !! "t3" = Some 4%positive /\
  docker_info_init machine crowded 4 st4 =
  Done None
    (mk_state (heap st4) (htab st4)
       (ev_pr_info ERROR (msg_error_detected (-22))
          :: ev_pr_info ERROR (msg_duplicate_cgroup "t3")
          :: ev_lstat "/usr/bin/trace-replay"
          :: ev_pr_info WARNING (msg_redirect "trace-replay" "/usr/bin/trace-replay")
          :: ev_lstat "trace-replay" :: trace st4)).
Proof. vm_compute. repeat split. Qed.

(** ** The weight *)

(** C2 fails on the code: the scheduler takes a weight and the weight is
    given at the global tier, yet the call reports that the key [weight]
    does not exist and returns NULL. *)
Lemma weight_at_global_tier_is_not_enough :
  weight_aware "bfq" = true /\
  json_object_object_get_ex weight_only_global "weight" = Some (JInt 5) /\
  docker_info_init machine weight_only_global 0 start =
  Done None
    (mk_state ∅ ∅
       [ ev_pr_info ERROR (msg_error_detected (-22));
         ev_pr_info ERROR (msg_not_exist "weight");
         ev_lstat "/usr/bin/trace-replay";
         ev_pr_info WARNING (msg_redirect "trace-replay" "/usr/bin/trace-replay");
         ev_lstat "trace-replay" ]).
Proof. repeat split; vm_compute; reflexivity. Qed.

Lemma weight_only_global_accepted : global_accepted machine weight_only_global.
Proof. repeat split; vm_compute; reflexivity. Qed.

(** The weight check on [weight_only_global]. *)
Lemma weight_required_in_task_entry_witness :
  let tmp := task "t0" "seq_read" [] in
  exists r st',
    docker_info_init machine weight_only_global 0 start = Done r st' /\
    (In (ev_pr_info ERROR (msg_not_exist "weight")) (reported start st') <->
     json_object_object_get_ex tmp "weight" = None) /\
    (json_object_object_get_ex tmp "weight" = None -> r = None).
Proof.
  exact (weight_required_in_task_entry machine weight_only_global 0 start
           (task "t0" "seq_read" [])
           eq_refl weight_only_global_accepted eq_refl eq_refl eq_refl).
Defined.

(** With the weight in the entry the call returns a block. *)
Example weight_in_task_returned :
  let o := docker_info_init machine weight_in_task 0 start in
  o = Done (Some 1%positive) (state_after o) /\
  weight (block_at (state_after o) 1%positive) = 7.
Proof. vm_compute. repeat split. Qed.

(** ** The path of the trace replayer *)

(** The path [trace-replay] on the sample machine: found under [/usr/bin/]. *)
Lemma trace_replay_path_probe_witness :
  let d := set_trace_replay_path "trace-replay" zeroed in
  trace_replay_path_resolve machine 0 (mk_frame d []) =
  inr (Next 0,
       mk_frame (set_trace_replay_path "/usr/bin/trace-replay" d)
         [ ev_lstat "/usr/bin/trace-replay";
           ev_pr_info WARNING (msg_redirect "trace-replay" "/usr/bin/trace-replay");
           ev_lstat "trace-replay" ]).
Proof.
  exact (trace_replay_path_probe machine 0 (set_trace_replay_path "trace-replay" zeroed) []
           (fun _ => conj eq_refl eq_refl)).
Defined.

(** On a machine without the trace replayer no entry is resolved. *)
Lemma trace_replay_path_not_found_witness :
  docker_info_init bare_machine twins 0 start =
  Done None
    (mk_state ∅ ∅
       [ ev_pr_info ERROR (msg_cannot_find "/usr/bin/trace-replay");
         ev_lstat "/usr/bin/trace-replay";
         ev_pr_info WARNING (msg_redirect "trace-replay" "/usr/bin/trace-replay");
         ev_lstat "trace-replay" ]).
Proof.
  exact (trace_replay_path_not_found bare_machine twins 0 start (JStr "trace-replay")
           eq_refl eq_refl eq_refl eq_refl eq_refl eq_refl eq_refl).
Defined.

(** The block of the first entry of [twins] holds the path under
    [/usr/bin/]. *)
Lemma returned_block_trace_replay_path_witness :
  trace_replay_path (block_at after_first 1%positive) = "/usr/bin/trace-replay" /\
  path_exists machine (trace_replay_path (block_at after_first 1%positive)) = true.
Proof.
  exact (returned_block_trace_replay_path machine twins 0 start 1%positive after_first
           (block_at after_first 1%positive) (task "t0" "seq_read" [])
           (JStr "trace-replay")
           ltac:(vm_compute; reflexivity) ltac:(vm_compute; reflexivity)
           eq_refl eq_refl eq_refl).
Defined.

(** ** The trace data *)

Example synthetic_names :
  docker_is_synth_type "seq_mixed" = DOCKER_SYNTH /\
  docker_is_synth_type "Seq_mixed" = DOCKER_NOT_SYNTH /\
  docker_is_synth_type "seq_mixed " = DOCKER_NOT_SYNTH /\
  docker_is_synth_type "" = DOCKER_NOT_SYNTH.
Proof. repeat split. Qed.

Lemma lost_trace_accepted : global_accepted machine lost_trace.
Proof. repeat split; vm_compute; reflexivity. Qed.

(** The check of the trace data on [lost_trace]. *)
Lemma trace_data_file_checked_witness :
  let path := "/tmp/lost.dat" in
  exists r st',
    docker_info_init machine lost_trace 0 start = Done r st' /\
    (In (ev_pr_info ERROR (msg_trace_data_not_exist path)) (reported start st') <->
     path_exists machine path = false) /\
    (path_exists machine path = false -> r = None) /\
    (path_exists machine path = true ->
     forall ret d t,
       trace_data_path d = path ->
       trace_data_check machine ret (mk_frame d t) =
       (Next 0,
        mk_frame d (ev_pr_info INFO (msg_trace_data_exist path) :: ev_lstat path :: t))).
Proof.
  exact (trace_data_file_checked machine lost_trace 0 start
           (task "t0" "/tmp/lost.dat" []) (JStr "/tmp/lost.dat")
           eq_refl lost_trace_accepted eq_refl eq_refl eq_refl eq_refl eq_refl eq_refl).
Defined.

Example lost_trace_reported :
  docker_info_init machine lost_trace 0 start =
  Done None
    (mk_state ∅ ∅
       [ ev_pr_info ERROR (msg_error_detected (-1));
         ev_pr_info ERROR (msg_trace_data_not_exist "/tmp/lost.dat");
         ev_lstat "/tmp/lost.dat";
         ev_lstat "/usr/bin/trace-replay";
         ev_pr_info WARNING (msg_redirect "trace-replay" "/usr/bin/trace-replay");
         ev_lstat "trace-replay" ]).
Proof. vm_compute. reflexivity. Qed.

(** ** The two keys of every task entry *)

(** C7 fails on the code: both keys are given at the global tier, yet an
    entry that leaves one out is reported as missing it and the call returns
    NULL. *)
Lemma task_entry_inherits_neither_key :
  json_object_object_get_ex keys_only_global "trace_data_path" = Some (JStr "seq_read") /\
  json_object_object_get_ex keys_only_global "cgroup_id" = Some (JStr "g0") /\
  docker_info_init machine keys_only_global 0 start =
  Done None
    (mk_state ∅ ∅
       [ ev_pr_info ERROR (msg_error_detected (-22));
         ev_pr_info ERROR (msg_not_exist "trace_data_path");
         ev_lstat "/usr/bin/trace-replay";
         ev_pr_info WARNING (msg_redirect "trace-replay" "/usr/bin/trace-replay");
         ev_lstat "trace-replay" ]) /\
  docker_info_init machine keys_only_global 1 start =
  Done None
    (mk_state ∅ ∅
       [ ev_pr_info ERROR (msg_error_detected (-22));
         ev_pr_info ERROR (msg_not_exist "cgroup_id");
         ev_lstat "/usr/bin/trace-replay";
         ev_pr_info WARNING (msg_redirect "trace-replay" "/usr/bin/trace-replay");
         ev_lstat "trace-replay" ]).
Proof. repeat split; vm_compute; reflexivity. Qed.

(** The first entry of [twins] has both keys. *)
Lemma keys_only_global_accepted : global_accepted machine keys_only_global.
Proof. repeat split; vm_compute; reflexivity. Qed.

(** The first entry of [keys_only_global] has neither key. *)
Lemma missing_task_key_reported_witness :
  docker_info_init machine keys_only_global 0 start =
  Done None
    (mk_state ∅ ∅
       [ ev_pr_info ERROR (msg_error_detected (-22));
         ev_pr_info ERROR (msg_not_exist "trace_data_path");
         ev_lstat "/usr/bin/trace-replay";
         ev_pr_info WARNING (msg_redirect "trace-replay" "/usr/bin/trace-replay");
         ev_lstat "trace-replay" ]).
Proof.
  exact (missing_task_key_reported machine keys_only_global 0 start (JObj [])
           eq_refl keys_only_global_accepted eq_refl eq_refl eq_refl eq_refl).
Defined.

Lemma task_entry_gives_both_keys_witness :
  exists tmp v1 v2 d,
    task_entry twins 0 = Some tmp /\
    json_object_object_get_ex tmp "trace_data_path" = Some v1 /\
    json_object_object_get_ex tmp "cgroup_id" = Some v2 /\
    heap after_first !! 1%positive = Some d /\
    trace_data_path d = str_read (sizeof_member m_trace_data_path) v1 /\
    cgroup_id d = str_read (sizeof_member m_cgroup_id) v2.
Proof.
  exact (task_entry_gives_both_keys machine twins 0 start 1%positive after_first
           ltac:(vm_compute; reflexivity)).
Defined.

(** ** The mandatory global keys *)

(** [device] is missing in [no_device], and [q_depth] too. *)
Lemma missing_global_key_fails_witness :
  In (ev_pr_info ERROR (msg_not_exist "device"))
     (not_exist_events (missing_global_keys no_device)) /\
  docker_info_init machine no_device 0 start =
  Done None
    (mk_state ∅ ∅
       [ ev_pr_info ERROR (msg_error_detected (-22));
         ev_pr_info ERROR (msg_not_exist "device");
         ev_pr_info ERROR (msg_not_exist "q_depth") ]).
Proof.
  exact (missing_global_key_fails machine no_device 0 start "device"
           ltac:(cbn; tauto) eq_refl).
Defined.

(** ** The block that is returned *)

(** The block of the first entry of [twins]. *)
Lemma returned_block_handles_unallocated_witness :
  exists d,
    heap after_first !! 1%positive = Some d /\
    mqid d = -1 /\ semid d = -1 /\ shmid d = -1 /\ next d = None.
Proof.
  exact (returned_block_handles_unallocated machine twins 0 start 1%positive after_first
           ltac:(vm_compute; reflexivity)).
Defined.

Example twins_first_block :
  block_at after_first 1%positive =
  {| ppid := 4242; time := 60; q_depth := 32; nr_thread := 4; weight := 0;
     trace_repeat := 1; wss := 0; utilization := 0; iosize := 0;
     mqid := -1; semid := -1; shmid := -1;
     prefix_cgroup_name := "bench_"; scheduler := "none";
     trace_replay_path := "/usr/bin/trace-replay"; device := "/dev/sdb";
     trace_data_path := "seq_read"; cgroup_id := "t0"; next := None |}.
Proof. vm_compute. reflexivity. Qed.

(** A call that returns a block, on [twins], and one that returns NULL, on
    [lost_trace]. *)
Lemma cgroup_id_registered_when_room_witness :
  (heap start !! 1%positive = None /\
   exists d,
     heap after_first = <[1%positive := d]> (heap start) /\
     htab start !! cgroup_id d = None /\
     htab after_first =
       (if (size (htab start) <? table_size machine)%nat
        then <[cgroup_id d := 1%positive]> (htab start)
        else htab start)) /\
  (let st := state_after (docker_info_init machine lost_trace 0 start) in
   heap st = heap start /\ htab st = htab start).
Proof.
  exact (conj
           (cgroup_id_registered_when_room machine twins 0 start (Some 1%positive)
              after_first ltac:(vm_compute; reflexivity))
           (cgroup_id_registered_when_room machine lost_trace 0 start None
              (state_after (docker_info_init machine lost_trace 0 start))
              ltac:(vm_compute; reflexivity))).
Defined.

(** ** The key [trace_repeat] *)

(** C3 fails on the code: the blocks of both entries have [trace_repeat] at
    its default 1, and the values of the key are found in [weight], which the
    configuration never mentions. *)
Example trace_repeat_written_to_weight :
  let o0 := docker_info_init machine repeated 0 start in
  let o1 := docker_info_init machine repeated 1 start in
  o0 = Done (Some 1%positive) (state_after o0) /\
  o1 = Done (Some 1%positive) (state_after o1) /\
  trace_repeat (block_at (state_after o0) 1%positive) = 1 /\
  weight (block_at (state_after o0) 1%positive) = 5 /\
  trace_repeat (block_at (state_after o1) 1%positive) = 1 /\
  weight (block_at (state_after o1) 1%positive) = 3.
Proof. vm_compute. repeat split. Qed.

(** The second entry of [repeated]. *)
Lemma trace_repeat_key_lands_in_weight_witness :
  let st1 := state_after (docker_info_init machine repeated 1 start) in
  let d := block_at st1 1%positive in
  trace_repeat d = 1 /\
  forall tmp v,
    task_entry repeated 1 = Some tmp ->
    json_object_object_get_ex tmp "trace_repeat" = Some v ->
    json_object_object_get_ex tmp "weight" = None ->
    weight d = to_uint (json_object_get_int v).
Proof.
  exact (trace_repeat_key_lands_in_weight machine repeated 1 start 1%positive
           (state_after (docker_info_init machine repeated 1 start))
           (block_at (state_after (docker_info_init machine repeated 1 start)) 1%positive)
           ltac:(vm_compute; reflexivity) ltac:(vm_compute; reflexivity)).
Defined.

(** ** Entries that are not resolved *)

Lemma twins_accepted : global_accepted machine twins.
Proof. repeat split; vm_compute; reflexivity. Qed.

(** [twins] has three entries. *)
Lemma task_entry_not_found_witness :
  docker_info_init machine twins 3 start =
  Done None
    (mk_state ∅ ∅
       [ ev_pr_info ERROR (msg_error_detected (-22));
         ev_pr_info ERROR (msg_out_of_bound 3);
         ev_lstat "/usr/bin/trace-replay";
         ev_pr_info WARNING (msg_redirect "trace-replay" "/usr/bin/trace-replay");
         ev_lstat "trace-replay" ]).
Proof.
  exact (task_entry_not_found machine twins 3 start eq_refl twins_accepted eq_refl).
Defined.

(** The scheduler [cfq] is not in the table of the sample header; the entry
    asks for [none], which is. *)
Lemma global_scheduler_unsupported_witness :
  docker_info_init machine unknown_global_scheduler 0 start =
  Done None
    (mk_state ∅ ∅
       [ ev_pr_info ERROR (msg_unsupported_scheduler "cfq");
         ev_lstat "/usr/bin/trace-replay";
         ev_pr_info WARNING (msg_redirect "trace-replay" "/usr/bin/trace-replay");
         ev_lstat "trace-replay" ]).
Proof.
  exact (global_scheduler_unsupported machine unknown_global_scheduler 0 start (JStr "cfq")
           eq_refl eq_refl eq_refl eq_refl eq_refl eq_refl).
Defined.

Lemma unknown_task_scheduler_accepted : global_accepted machine unknown_task_scheduler.
Proof. repeat split; vm_compute; reflexivity. Qed.

(** The entry asks for [cfq]. *)
Lemma task_scheduler_unsupported_witness :
  docker_info_init machine unknown_task_scheduler 0 start =
  Done None
    (mk_state ∅ ∅
       [ ev_pr_info ERROR (msg_error_detected (-22));
         ev_pr_info ERROR (msg_unsupported_scheduler "cfq");
         ev_lstat "/usr/bin/trace-replay";
         ev_pr_info WARNING (msg_redirect "trace-replay" "/usr/bin/trace-replay");
         ev_lstat "trace-replay" ]).
Proof.
  exact (task_scheduler_unsupported machine unknown_task_scheduler 0 start
           (task "t0" "seq_read" [("scheduler", JStr "cfq")])
           eq_refl unknown_task_scheduler_accepted eq_refl eq_refl).
Defined.

(** ** Calls that do not return *)

(** A path of 4090 characters that is not found: with [/usr/bin/] in front
    it does not fit the 4096 characters of the array. *)
Example long_path_overflows :
  docker_info_init bare_machine long_path 0 start = Fault Undefined.
Proof. vm_compute. reflexivity. Qed.

(** The temporary buffer is not allocated. *)
Example buffer_not_allocated :
  docker_info_init tight_machine twins 0 start = Fault Abort.
Proof. vm_compute. reflexivity. Qed.

(** ** The values of the two tiers *)

Example overriding_returned :
  docker_info_init machine overriding 0 start = Done (Some 1%positive) overridden.
Proof. vm_compute. reflexivity. Qed.

(** The entry of [overriding] gives [time], [device] and [wss]; the other
    members have the values of the global settings. *)
Lemma task_values_override_global_witness :
  let d := block_at overridden 1%positive in
  time d = 10 /\ q_depth d = 32 /\ nr_thread d = 4 /\
  wss d = 256 /\ utilization d = 50 /\ iosize d = 0 /\
  prefix_cgroup_name d = "bench_" /\ scheduler d = "none" /\ device d = "/dev/sdc".
Proof.
  exact (task_values_override_global machine overriding 0 start 1%positive overridden
           (block_at overridden 1%positive)
           (task "t0" "seq_read"
              [("time", JInt 10); ("device", JStr "/dev/sdc"); ("wss", JInt 256);
               ("trace_replay_path", JStr "/opt/replay")])
           ltac:(vm_compute; reflexivity) ltac:(vm_compute; reflexivity) eq_refl).
Defined.

(** The path of the entry of [overriding] is in the block, and it is not on
    the machine. *)
Lemma task_trace_replay_path_as_given_witness :
  trace_replay_path (block_at overridden 1%positive) = "/opt/replay".
Proof.
  exact (task_trace_replay_path_as_given machine overriding 0 start 1%positive overridden
           (block_at overridden 1%positive)
           (task "t0" "seq_read"
              [("time", JInt 10); ("device", JStr "/dev/sdc"); ("wss", JInt 256);
               ("trace_replay_path", JStr "/opt/replay")])
           (JStr "/opt/replay")
           ltac:(vm_compute; reflexivity) ltac:(vm_compute; reflexivity) eq_refl eq_refl).
Defined.

(** C4 fails on the code: the entry of [overriding] gives [/opt/replay],
    which is neither there as given nor under [/usr/bin/]. The path is not
    probed: the call reports nothing about it and returns a block that
    holds it. *)
Example replayer_of_task_entry_not_probed :
  let o := docker_info_init machine overriding 0 start in
  o = Done (Some 1%positive) (state_after o) /\
  trace_replay_path (block_at (state_after o) 1%positive) = "/opt/replay" /\
  path_exists machine "/opt/replay" = false /\
  path_exists machine (usr_bin +:+ "/opt/replay") = false /\
  reported start (state_after o) =
  [ ev_lstat "/usr/bin/trace-replay";
    ev_pr_info WARNING (msg_redirect "trace-replay" "/usr/bin/trace-replay");
    ev_lstat "trace-replay" ].
Proof. vm_compute. repeat split. Qed.

Example task_trace_replay_path_not_there :
  path_exists machine (trace_replay_path (block_at overridden 1%positive)) = false.
Proof. vm_compute. reflexivity. Qed.

(** The weight is 5 in the global settings of [weight_twice] and 7 in its
    entry. *)
Lemma returned_block_weight_witness :
  let st' := state_after (docker_info_init machine weight_twice 0 start) in
  let d := block_at st' 1%positive in
  let tmp := task "t0" "seq_read" [("weight", JInt 7)] in
  (forall v, json_object_object_get_ex tmp "weight" = Some v ->
             weight d = to_uint (json_object_get_int v)) /\
  (json_object_object_get_ex tmp "trace_repeat" = None ->
   json_object_object_get_ex weight_twice "trace_repeat" = None ->
   weight d = uint_of (tiered weight_twice tmp "weight")).
Proof.
  exact (returned_block_weight machine weight_twice 0 start 1%positive
           (state_after (docker_info_init machine weight_twice 0 start))
           (block_at (state_after (docker_info_init machine weight_twice 0 start)) 1%positive)
           (task "t0" "seq_read" [("weight", JInt 7)])
           ltac:(vm_compute; reflexivity) ltac:(vm_compute; reflexivity) eq_refl).
Defined.

Example weight_twice_block :
  weight (block_at (state_after (docker_info_init machine weight_twice 0 start)) 1%positive)
  = 7.
Proof. vm_compute. reflexivity. Qed.

(** ** What is printed and probed *)

(** The second entry of [twins] has its trace in a file. *)
Lemma only_configured_paths_probed_witness :
  (exists v,
     json_object_object_get_ex twins "trace_replay_path" = Some v /\
     let path := str_read (sizeof_member m_trace_replay_path) v in
     "/tmp/trace.dat" = path \/ "/tmp/trace.dat" = usr_bin +:+ path) \/
  (exists tmp v,
     task_entry twins 1 = Some tmp /\
     json_object_object_get_ex tmp "trace_data_path" = Some v /\
     "/tmp/trace.dat" = str_read (sizeof_member m_trace_data_path) v /\
     docker_is_synth_type "/tmp/trace.dat" = DOCKER_NOT_SYNTH).
Proof.
  exact (only_configured_paths_probed machine twins 1 after_first (Some 2%positive)
           after_second "/tmp/trace.dat"
           ltac:(vm_compute; reflexivity) ltac:(vm_compute; tauto)).
Defined.

(** The call on [lost_trace] returns NULL. *)
Lemma null_iff_error_reported_witness :
  let st' := state_after (docker_info_init machine lost_trace 0 start) in
  @None loc = None <-> exists m, In (ev_pr_info ERROR m) (reported start st').
Proof.
  exact (null_iff_error_reported machine lost_trace 0 start None
           (state_after (docker_info_init machine lost_trace 0 start))
           ltac:(vm_compute; reflexivity)).
Defined.

(** ** The block that is returned, again *)

Lemma strip_length s c : (String.length (strip s c) <= String.length s)%nat.
Proof.
  induction s as [|a s IH]; cbn [strip String.length]; [lia|].
  destruct (Ascii.eqb a c); cbn [String.length]; lia.
Qed.

(** The six arrays of the block of the first entry of [twins]. *)
Lemma returned_block_strings_fit_witness :
  (String.length (load_str m_prefix_cgroup_name (block_at after_first 1%positive))
   < sizeof_member m_prefix_cgroup_name)%nat /\
  (String.length (load_str m_scheduler (block_at after_first 1%positive))
   < sizeof_member m_scheduler)%nat /\
  (String.length (load_str m_trace_replay_path (block_at after_first 1%positive))
   < sizeof_member m_trace_replay_path)%nat /\
  (String.length (load_str m_device (block_at after_first 1%positive))
   < sizeof_member m_device)%nat /\
  (String.length (load_str m_trace_data_path (block_at after_first 1%positive))
   < sizeof_member m_trace_data_path)%nat /\
  (String.length (load_str m_cgroup_id (block_at after_first 1%positive))
   < sizeof_member m_cgroup_id)%nat.
Proof.
  exact (let fit :=
           returned_block_strings_fit machine twins 0 start 1%positive after_first
             (block_at after_first 1%positive) strip_length
             ltac:(vm_compute; reflexivity) ltac:(vm_compute; reflexivity) in
         conj (fit m_prefix_cgroup_name)
           (conj (fit m_scheduler)
              (conj (fit m_trace_replay_path)
                 (conj (fit m_device)
                    (conj (fit m_trace_data_path) (fit m_cgroup_id)))))).
Defined.

(** The block of the second entry of [twins]. *)
Lemma returned_block_checked_witness :
  let d := block_at after_second 2%positive in
  (docker_valid_scheduler_test (scheduler d) <? 0) = false /\
  (docker_is_synth_type (trace_data_path d) = DOCKER_SYNTH \/
   path_exists machine (trace_data_path d) = true) /\
  ppid d = 4242 /\
  htab after_first !! cgroup_id d = None.
Proof.
  exact (returned_block_checked machine twins 1 after_first 2%positive after_second
           (block_at after_second 2%positive)
           ltac:(vm_compute; reflexivity) ltac:(vm_compute; reflexivity)).
Defined.

(** ** The run on [twins] *)

Lemma twins_run : @reached_by_calls json header machine twins start after_second.
Proof.
  apply (@one_more_call json header machine twins start 0 (Some 1%positive) after_first);
    [vm_compute; reflexivity|].
  apply (@one_more_call json header machine twins after_first 1 (Some 2%positive)
           after_second);
    [vm_compute; reflexivity | apply no_call].
Qed.

Lemma start_tracks_blocks : @table_tracks_blocks start.
Proof.
  split.
  - intros info d E. cbn in E. rewrite lookup_empty in E. discriminate.
  - intros key info E. cbn in E. rewrite lookup_empty in E. discriminate.
Qed.

Lemma table_tracks_blocks_kept_witness :
  (forall key info, htab after_second !! key = Some info ->
     exists d, heap after_second !! info = Some d /\ cgroup_id d = key) /\
  ((size (htab after_second) < table_size machine)%nat ->
   table_tracks_blocks after_second /\
   forall info1 info2 d1 d2,
     heap after_second !! info1 = Some d1 -> heap after_second !! info2 = Some d2 ->
     cgroup_id d1 = cgroup_id d2 -> info1 = info2).
Proof.
  exact (table_tracks_blocks_kept machine twins start after_second
           start_tracks_blocks twins_run).
Defined.

(** After the first call of the run there is a block and a name to keep. *)
Lemma twins_second_call :
  @reached_by_calls json header machine twins after_first after_second.
Proof.
  apply (@one_more_call json header machine twins after_first 1 (Some 2%positive)
           after_second);
    [vm_compute; reflexivity | apply no_call].
Qed.

Lemma run_keeps_blocks_and_names_witness :
  (heap after_first !! 1%positive = Some (block_at after_first 1%positive) /\
   htab after_first !! "t0" = Some 1%positive) /\
  heap after_second !! 1%positive = Some (block_at after_first 1%positive) /\
  htab after_second !! "t0" = Some 1%positive.
Proof.
  assert (h1 : heap after_first !! 1%positive = Some (block_at after_first 1%positive))
    by (vm_compute; reflexivity).
  assert (h2 : htab after_first !! "t0" = Some 1%positive)
    by (vm_compute; reflexivity).
  exact (let kept :=
           run_keeps_blocks_and_names machine twins after_first after_second
             twins_second_call in
         conj (conj h1 h2)
           (conj (proj1 kept 1%positive (block_at after_first 1%positive) h1)
              (proj2 kept "t0" 1%positive h2))).
Defined.

(** The first entry of [twins] once more, after the run: its name is in the
    table. *)
Lemma resolution_depends_on_table_only_witness :
  let d := block_at after_first 1%positive in
  docker_info_init machine twins 0 after_second =
  match htab after_second !! cgroup_id d with
  | Some _ =>
      Done None
        (mk_state (heap after_second) (htab after_second)
           (ev_pr_info ERROR (msg_error_detected (- EINVAL))
              :: ev_pr_info ERROR (msg_duplicate_cgroup (cgroup_id d))
              :: check_events (trace_data_path d) ++ global_events machine twins
                   ++ trace after_second))
  | None =>
      Done (Some (malloc_addr after_second))
        (mk_state (<[malloc_addr after_second := d]> (heap after_second))
           (table_after_enter machine (htab after_second) (cgroup_id d)
              (malloc_addr after_second))
           (check_events (trace_data_path d) ++ global_events machine twins
              ++ trace after_second))
  end.
Proof.
  exact (resolution_depends_on_table_only machine twins 0 start 1%positive after_first
           (block_at after_first 1%positive) after_second
           ltac:(vm_compute; reflexivity) ltac:(vm_compute; reflexivity)).
Defined.

(** ** A negative value *)

Lemma int_value_set_converts_witness :
  let setting := JObj [("time", JInt (-1))] in
  exists d,
    docker_info_int_value_set setting "time" m_time DOCKER_ERROR_PRINT (mk_frame zeroed []) =
      (Next 0, mk_frame d []) /\
    load_uint m_time d = 4294967295 /\
    (forall m, m <> m_time -> load_uint m d = load_uint m zeroed) /\
    (forall m, load_str m d = load_str m zeroed) /\
    ppid d = ppid zeroed /\
    mqid d = mqid zeroed /\
    semid d = semid zeroed /\
    shmid d = shmid zeroed /\
    next d = next zeroed.
Proof.
  exact (int_value_set_converts (JObj [("time", JInt (-1))]) "time" m_time DOCKER_ERROR_PRINT
           (mk_frame zeroed []) (JInt (-1)) eq_refl ltac:(vm_compute; split; [discriminate | reflexivity])).
Defined.

End Examples.
